(** * The adaptive orchestration pipeline of fix-code-makuro

    A shallow embedding of [src/smartAgent.ts], [src/codeValidator.ts] and
    [src/autonomousActions.ts], and the properties of the pipeline stated
    over it.

    Conventions of the embedding.
    - A JavaScript string is a [string]: a sequence of code units, here
      restricted to the units 0..255.  [String.length] is [.length].
    - JavaScript numbers that hold counts, indices and timestamps are [Z]
      or [nat]; the fractional [confidence] constants are kept as
      per-cent values.
    - The outside world (language model, file system, child processes,
      editor, clock, web search) is an abstract [World] with one function
      per capability; every result below holds for all of them. *)

From Stdlib Require Import ZArith Ascii String List Bool Lia DecimalString.
From stdpp Require Import base option gmap strings.
Import ListNotations.

Local Open Scope string_scope.
Local Open Scope list_scope.
Local Open Scope Z_scope.

Set Default Proof Using "Type".

(** ** Code units and the string primitives of the run-time library *)

Module Js.

Definition code (c : ascii) : nat := nat_of_ascii c.

Definition between (lo hi : nat) (c : ascii) : bool :=
  (Nat.leb lo (code c)) && (Nat.leb (code c) hi).

(** WhiteSpace and LineTerminator code units below 256: TAB, LF, VT, FF,
    CR, SP, NBSP.  This is the set of [\s] and of [String.prototype.trim]. *)
Definition isSpace (c : ascii) : bool :=
  between 9 13 c || Nat.eqb (code c) 32 || Nat.eqb (code c) 160.

(** [\w] is [A-Za-z0-9_]. *)
Definition isWord (c : ascii) : bool :=
  between 48 57 c || between 65 90 c || between 97 122 c
  || Nat.eqb (code c) 95.

Definition isLineTerminator (c : ascii) : bool :=
  Nat.eqb (code c) 10 || Nat.eqb (code c) 13.

(** [toLowerCase] on one code unit: A-Z, and the Latin-1 capitals
    U+00C0..U+00DE except the multiplication sign U+00D7. *)
Definition lowerChar (c : ascii) : ascii :=
  if between 65 90 c then ascii_of_nat (code c + 32)
  else if between 192 222 c && negb (Nat.eqb (code c) 215)
       then ascii_of_nat (code c + 32)
  else c.

Fixpoint toLowerCase (s : string) : string :=
  match s with
  | EmptyString => EmptyString
  | String c s' => String (lowerChar c) (toLowerCase s')
  end.

(** Canonicalisation of the [i] flag for a pattern character that is an
    ASCII letter: only ASCII input letters can be equal to it. *)
Definition upperAscii (c : ascii) : ascii :=
  if between 97 122 c then ascii_of_nat (code c - 32) else c.

Definition eqbI (a b : ascii) : bool :=
  Ascii.eqb (upperAscii a) (upperAscii b).

Fixpoint startsWith (s p : string) : bool :=
  match p, s with
  | EmptyString, _ => true
  | String _ _, EmptyString => false
  | String a p', String b s' => Ascii.eqb a b && startsWith s' p'
  end.

Fixpoint includes (s k : string) : bool :=
  startsWith s k ||
  match s with
  | EmptyString => false
  | String _ s' => includes s' k
  end.

Fixpoint rev_acc (s acc : string) : string :=
  match s with
  | EmptyString => acc
  | String c s' => rev_acc s' (String c acc)
  end.

Definition rev (s : string) : string := rev_acc s EmptyString.

Definition endsWith (s p : string) : bool := startsWith (rev s) (rev p).

Fixpoint trimStart (s : string) : string :=
  match s with
  | EmptyString => EmptyString
  | String c s' => if isSpace c then trimStart s' else s
  end.

Definition trimEnd (s : string) : string := rev (trimStart (rev s)).

Definition trim (s : string) : string := trimEnd (trimStart s).

(** [s.split(sep)] for a separator of one code unit; the result is never
    empty. *)
Fixpoint split (sep : ascii) (s : string) : list string :=
  match s with
  | EmptyString => [EmptyString]
  | String c s' =>
      if Ascii.eqb c sep then EmptyString :: split sep s'
      else match split sep s' with
           | [] => [String c EmptyString]
           | h :: t => String c h :: t
           end
  end.

(** [s.indexOf(c)], or -1. *)
Fixpoint indexOf (c : ascii) (s : string) : Z :=
  match s with
  | EmptyString => -1
  | String a s' =>
      if Ascii.eqb a c then 0
      else let i := indexOf c s' in if i <? 0 then -1 else i + 1
  end.

(** Number of occurrences of one code unit: [(s.match(/c/g) || []).length]. *)
Fixpoint count (c : ascii) (s : string) : nat :=
  match s with
  | EmptyString => O
  | String a s' => (if Ascii.eqb a c then 1 else 0) + count c s'
  end.

(** [parts.join(sep)]. *)
Fixpoint join (sep : string) (parts : list string) : string :=
  match parts with
  | [] => EmptyString
  | [p] => p
  | p :: rest => p +:+ sep +:+ join sep rest
  end.

Definition LF : ascii := ascii_of_nat 10.

(** [!s] on a string: the empty string is the only falsy one. *)
Definition isEmptyStr (s : string) : bool :=
  match s with EmptyString => true | String _ _ => false end.

End Js.

(** ** Regular expressions

    A backtracking matcher with the priorities of the ECMAScript
    semantics, for the constructs the patterns of the source use: literal
    characters (with or without the [i] flag), character classes, [^] and
    [$] (with or without the [m] flag), sequence, alternation, greedy and
    lazy [*], and capture groups.  No pattern of the source has a capture
    group under a quantifier other than [?]. *)

Module Re.

Inductive regex : Type :=
| Eps
| Chr (c : ascii)
| ChrI (c : ascii)
| Class (p : ascii -> bool)
| Bol (multiline : bool)
| Eol (multiline : bool)
| Seq (r1 r2 : regex)
| Alt (r1 r2 : regex)
| Star (r : regex)
| StarLazy (r : regex)
| Group (n : nat) (r : regex).

Definition Opt (r : regex) : regex := Alt r Eps.
Definition Plus (r : regex) : regex := Seq r (Star r).

Fixpoint lit (s : string) : regex :=
  match s with
  | EmptyString => Eps
  | String c s' => Seq (Chr c) (lit s')
  end.

Fixpoint litI (s : string) : regex :=
  match s with
  | EmptyString => Eps
  | String c s' => Seq (ChrI c) (litI s')
  end.

Fixpoint seqs (rs : list regex) : regex :=
  match rs with
  | [] => Eps
  | [r] => r
  | r :: rs' => Seq r (seqs rs')
  end.

Fixpoint alts (rs : list regex) : regex :=
  match rs with
  | [] => Eps
  | [r] => r
  | r :: rs' => Alt r (alts rs')
  end.

(** A position in the subject: its index, the code unit before it and the
    text after it. *)
Record cursor : Type := Cursor {
  pos : nat;
  prev : option ascii;
  rest : string;
}.

Definition start (s : string) : cursor := Cursor 0 None s.

(** Captures, most recent first. *)
Definition caps : Type := list (nat * string).

Fixpoint capture (n : nat) (cs : caps) : option string :=
  match cs with
  | [] => None
  | (m, s) :: cs' => if Nat.eqb n m then Some s else capture n cs'
  end.

Definition st : Type := (cursor * caps)%type.

Definition step1 (p : ascii -> bool) (x : st) (k : st -> option st) : option st :=
  match rest (fst x) with
  | EmptyString => None
  | String c s' =>
      if p c then k (Cursor (S (pos (fst x))) (Some c) s', snd x) else None
  end.

Definition atBol (multiline : bool) (c : cursor) : bool :=
  match prev c with
  | None => true
  | Some a => multiline && Js.isLineTerminator a
  end.

Definition atEol (multiline : bool) (c : cursor) : bool :=
  match rest c with
  | EmptyString => true
  | String a _ => multiline && Js.isLineTerminator a
  end.

Definition orElse (a : option st) (b : unit -> option st) : option st :=
  match a with
  | Some x => Some x
  | None => b tt
  end.

(** [rmatch r x k]: match [r] at [x], then continue with [k]; the first
    success in priority order.  An iteration of [*] that consumes nothing
    is rejected, so [String.length (rest x)] iterations are all there can
    be. *)
Fixpoint rmatch (r : regex) (x : st) (k : st -> option st) {struct r} : option st :=
  match r with
  | Eps => k x
  | Chr c => step1 (Ascii.eqb c) x k
  | ChrI c => step1 (Js.eqbI c) x k
  | Class p => step1 p x k
  | Bol m => if atBol m (fst x) then k x else None
  | Eol m => if atEol m (fst x) then k x else None
  | Seq r1 r2 => rmatch r1 x (fun y => rmatch r2 y k)
  | Alt r1 r2 => orElse (rmatch r1 x k) (fun _ => rmatch r2 x k)
  | Star r1 =>
      (fix star (n : nat) (x : st) {struct n} : option st :=
         match n with
         | O => k x
         | S n' =>
             orElse
               (rmatch r1 x (fun y =>
                  if Nat.ltb (pos (fst x)) (pos (fst y)) then star n' y else None))
               (fun _ => k x)
         end) (String.length (rest (fst x))) x
  | StarLazy r1 =>
      (fix lazy (n : nat) (x : st) {struct n} : option st :=
         orElse (k x) (fun _ =>
           match n with
           | O => None
           | S n' =>
               rmatch r1 x (fun y =>
                 if Nat.ltb (pos (fst x)) (pos (fst y)) then lazy n' y else None)
           end)) (String.length (rest (fst x))) x
  | Group n r1 =>
      rmatch r1 x (fun y =>
        k (fst y,
           (n, substring 0 (pos (fst y) - pos (fst x)) (rest (fst x))) :: snd y))
  end.

(** The result of [RegExp.prototype.exec]: [index], the position after
    the match, [match[0]] and the groups. *)
Record result : Type := Result {
  index : nat;
  stop : cursor;
  text : string;
  groups : caps;
}.

Definition matchAt (r : regex) (c : cursor) : option result :=
  match rmatch r (c, []) Some with
  | Some (e, cs) =>
      Some (Result (pos c) e (substring 0 (pos e - pos c) (rest c)) cs)
  | None => None
  end.

(** Leftmost match at or after a position. *)
Fixpoint searchFrom (r : regex) (i : nat) (p : option ascii) (s : string) : option result :=
  match matchAt r (Cursor i p s) with
  | Some m => Some m
  | None =>
      match s with
      | EmptyString => None
      | String c s' => searchFrom r (S i) (Some c) s'
      end
  end.

Definition search (r : regex) (c : cursor) : option result :=
  searchFrom r (pos c) (prev c) (rest c).

(** [s.match(r)] and [r.exec(s)] for a pattern without the [g] flag. *)
Definition exec (r : regex) (s : string) : option result := search r (start s).

Definition test (r : regex) (s : string) : bool :=
  match exec r s with Some _ => true | None => false end.

(** [s.replace(r, empty)] for a pattern without the [g] flag: the leftmost
    match is removed. *)
Definition remove (r : regex) (s : string) : string :=
  match exec r s with
  | Some m => substring 0 (index m) s +:+ rest (stop m)
  | None => s
  end.

(** [while ((match = r.exec(s)) !== null) ...] for a pattern with the [g]
    flag: [lastIndex] is the cursor.  A match that consumes nothing leaves
    [lastIndex] where it is and the loop of the source never ends; that is
    [None] here, as is running out of [fuel]. *)
Fixpoint execLoop (fuel : nat) (r : regex) (c : cursor) : option (list result) :=
  match fuel with
  | O => None
  | S fuel' =>
      match search r c with
      | None => Some []
      | Some m =>
          match execLoop fuel' r (stop m) with
          | Some ms => Some (m :: ms)
          | None => None
          end
      end
  end.

End Re.

(** ** What the embedding takes as given

    The run-time platform: an abstract state of the outside world, the
    clock, and the two functions of the [path] module the code calls. *)

Class Platform : Type := {
  World : Type;
  (** [Date.now()], in milliseconds. *)
  now : World -> Z;
  (** [path.basename] and [path.extname]. *)
  basename : string -> string;
  extname : string -> string;
}.

(** What a call that may throw produces. *)
Inductive outcome (A : Type) : Type :=
| Returned (a : A)
| Thrown (e : string).
Arguments Returned {A} a.
Arguments Thrown {A} e.

(** Decimal rendering of an integer, as in a template literal. *)
Definition showZ (z : Z) : string := NilZero.string_of_int (Z.to_int z).
Definition showNat (n : nat) : string := showZ (Z.of_nat n).

Definition nl1 : string := String Js.LF EmptyString.
Definition nl2 : string := nl1 +:+ nl1.

(** ** codeValidator.ts *)

Module CodeValidator.

Inductive Severity : Type := SevError | SevWarning.

Record CodeError : Type := mkCodeError {
  line : Z;
  column : Z;
  message : string;
  severity : Severity;
  code : option string;
  suggestion : option string;
}.

(** The fields [line], [message] and [type] of [CodeWarning]. *)
Record CodeWarning : Type := mkCodeWarning {
  wline : Z;
  wmessage : string;
  wtype : string;
}.

Record ValidationResult : Type := mkValidationResult {
  isValid : bool;
  errors : list CodeError;
  warnings : list CodeWarning;
  suggestions : list string;
  score : Z;
}.

(** A parse diagnostic of the TypeScript compiler: [located] is the
    zero-based line and character of [diagnostic.start] in
    [diagnostic.file], absent when either is; [messageText] is the
    flattened message. *)
Record Diagnostic : Type := mkDiagnostic {
  located : option (Z * Z);
  messageText : string;
  dcode : Z;
}.

(** [ts.createSourceFile(fileName, code, ...).parseDiagnostics], the
    script kind being chosen from [fileName]; [None] when the compiler
    throws. *)
Class TypeScript : Type := {
  parseDiagnostics : string -> string -> option (list Diagnostic);
}.

(** [calculateScore] *)
Definition calculateScore (errors : list CodeError) (warnings : list CodeWarning) : Z :=
  let score := 100 in
  let score := score - Z.of_nat (length errors) * 10 in
  let score := score - Z.of_nat (length warnings) * 2 in
  Z.max 0 (Z.min 100 score).

Definition isEmpty {A : Type} (l : list A) : bool :=
  match l with [] => true | _ :: _ => false end.

(** The object every validator returns. *)
Definition verdict (errors : list CodeError) (warnings : list CodeWarning)
    (suggestions : list string) : ValidationResult :=
  let score := calculateScore errors warnings in
  mkValidationResult (isEmpty errors) errors warnings suggestions score.

(** [lines.forEach((line, index) => ...)] where the body pushes to one
    array. *)
Definition forEachLine {A : Type} (f : nat -> string -> list A) (lines : list string) : list A :=
  concat (imap f lines).

Definition when {A : Type} (b : bool) (x : A) : list A := if b then [x] else [].

Definition lineNo (index : nat) : Z := Z.of_nat index + 1.

(** [performSemanticChecks] *)
Definition performSemanticChecks (code : string) : list CodeWarning :=
  let lines := Js.split Js.LF code in
  forEachLine (fun index line =>
    when (Js.includes line "console.log" && negb (Js.startsWith (Js.trim line) "//"))
      (mkCodeWarning (lineNo index)
         "console.log found - consider removing for production" "code-quality")
    ++ when (Js.includes line "TODO" || Js.includes line "FIXME")
      (mkCodeWarning (lineNo index) "TODO/FIXME comment found" "todo")
    ++ when (Js.includes line "debugger" && negb (Js.startsWith (Js.trim line) "//"))
      (mkCodeWarning (lineNo index) "debugger statement found" "code-quality"))
    lines.

(** [generateSuggestions] *)
Definition generateSuggestions (code : string) : list string :=
  when (Js.includes code ".then(" && Js.includes code ".catch(")
    "Consider using async/await instead of .then()/.catch()"
  ++ when (Js.includes code "var ")
    "Consider using 'const' or 'let' instead of 'var'"
  ++ when (Js.includes code "await " && negb (Js.includes code "try"))
    "Consider adding try/catch for async operations".

(** The loop of [performBasicValidation] over the characters of a line:
    the counters of the three opening brackets. *)
Record Brackets : Type := mkBrackets { brace : Z; bracket : Z; paren : Z }.

Definition countChar (b : Brackets) (char : ascii) : Brackets :=
  if Ascii.eqb char "{" then mkBrackets (brace b + 1) (bracket b) (paren b)
  else if Ascii.eqb char "[" then mkBrackets (brace b) (bracket b + 1) (paren b)
  else if Ascii.eqb char "(" then mkBrackets (brace b) (bracket b) (paren b + 1)
  else if Ascii.eqb char "}" then mkBrackets (brace b - 1) (bracket b) (paren b)
  else if Ascii.eqb char "]" then mkBrackets (brace b) (bracket b - 1) (paren b)
  else if Ascii.eqb char ")" then mkBrackets (brace b) (bracket b) (paren b - 1)
  else b.

Fixpoint countLine (b : Brackets) (line : string) : Brackets :=
  match line with
  | EmptyString => b
  | String char line' => countLine (countChar b char) line'
  end.

Definition unmatched (what closing : string) : CodeError :=
  mkCodeError 0 0 ("Unmatched " +:+ what) SevError None
    (Some ("Check for missing closing " +:+ closing)).

(** [performBasicValidation] *)
Definition performBasicValidation (code fileName : string) : ValidationResult :=
  let lines := Js.split Js.LF code in
  let brackets := fold_left countLine lines (mkBrackets 0 0 0) in
  let warnings :=
    forEachLine (fun index line =>
      when (Nat.ltb 200 (String.length line))
        (mkCodeWarning (lineNo index) "Line is very long (>200 characters)" "code-quality")
      ++ when (Js.endsWith line " ")
        (mkCodeWarning (lineNo index) "Trailing whitespace" "formatting"))
      lines in
  let errors :=
    when (negb (brace brackets =? 0)) (unmatched "braces" "}")
    ++ when (negb (bracket brackets =? 0)) (unmatched "brackets" "]")
    ++ when (negb (paren brackets =? 0)) (unmatched "parentheses" ")") in
  verdict errors warnings [].

(** [/^(if|elif|else|for|while|def|class|try|except|finally|with)\s/] *)
Definition blockIntroducer : Re.regex :=
  Re.seqs [Re.Bol false;
           Re.Group 1 (Re.alts (map Re.lit
             ["if"; "elif"; "else"; "for"; "while"; "def"; "class"; "try";
              "except"; "finally"; "with"]));
           Re.Class Js.isSpace].

(** One iteration of the loop of [validatePython]: the errors and the
    warnings pushed for one line. *)
Definition checkPythonLine (lineNumber : Z) (line : string) : list CodeError * list CodeWarning :=
  let trimmed := Js.trim line in
  if Js.isEmptyStr trimmed || Js.startsWith trimmed "#" then ([], [])
  else
    let e1 :=
      if Js.includes trimmed "=" && negb (Js.includes trimmed "==") then
        let beforeEquals := Js.trim (hd EmptyString (Js.split "=" trimmed)) in
        when (Js.startsWith beforeEquals "if " || Js.startsWith beforeEquals "while "
              || Js.startsWith beforeEquals "elif ")
          (mkCodeError lineNumber (Js.indexOf "=" line + 1)
             "Use '==' for comparison, not '='" SevError None
             (Some "Replace '=' with '=='"))
      else [] in
    let e2 :=
      when (Re.test blockIntroducer trimmed && negb (Js.endsWith trimmed ":"))
        (mkCodeError lineNumber (Z.of_nat (String.length line))
           "Missing colon ':' at end of statement" SevError None
           (Some "Add ':' at the end")) in
    let openParens := Js.count "(" line in
    let closeParens := Js.count ")" line in
    let w :=
      when (negb (Nat.eqb openParens closeParens))
        (mkCodeWarning lineNumber "Unmatched parentheses" "syntax") in
    (e1 ++ e2, w).

(** [validatePython] *)
Definition validatePython (code fileName : string) : ValidationResult :=
  let lines := Js.split Js.LF code in
  let checked := imap (fun i line => checkPythonLine (lineNo i) line) lines in
  verdict (concat (map fst checked)) (concat (map snd checked)) [].

Section WithCompiler.
Context `{TypeScript}.

(** [validateTypeScript] *)
Definition validateTypeScript (code fileName : string) : ValidationResult :=
  match parseDiagnostics fileName code with
  | Some syntaxDiagnostics =>
      let errors :=
        flat_map (fun diagnostic =>
          match located diagnostic with
          | Some (l, character) =>
              [mkCodeError (l + 1) (character + 1) (messageText diagnostic)
                 SevError (Some ("TS" +:+ showZ (dcode diagnostic))) None]
          | None => []
          end) syntaxDiagnostics in
      let warnings := performSemanticChecks code in
      let suggestions := if isEmpty errors then generateSuggestions code else [] in
      verdict errors warnings suggestions
  | None => performBasicValidation code fileName
  end.

Context `{Platform}.

Definition isScriptExt (ext : string) : bool :=
  existsb (String.eqb ext) [".ts"; ".tsx"; ".js"; ".jsx"; ".mjs"; ".cjs"].

(** [validateCode] *)
Definition validateCode (code fileName : string) : ValidationResult :=
  let ext := Js.toLowerCase (extname fileName) in
  if isScriptExt ext then validateTypeScript code fileName
  else if String.eqb ext ".py" then validatePython code fileName
  else performBasicValidation code fileName.

End WithCompiler.

(** [getErrorSummary] *)
Definition getErrorSummary (result : ValidationResult) : string :=
  if isValid result then "No errors found"
  else showNat (length (errors result)) +:+ " error(s), "
       +:+ showNat (length (warnings result)) +:+ " warning(s)".

(** [generateErrorContext] *)
Definition generateErrorContext (result : ValidationResult) : string :=
  if isValid result then EmptyString
  else
    let context := "The generated code has the following errors:" +:+ nl2 in
    let context :=
      context +:+ String.concat EmptyString
        (imap (fun index error =>
           showNat (index + 1) +:+ ". Line " +:+ showZ (line error) +:+ ": "
             +:+ message error +:+ nl1
             +:+ match suggestion error with
                | Some s => "   Suggestion: " +:+ s +:+ nl1
                | None => EmptyString
                end) (errors result)) in
    context +:+ nl1 +:+ "Please fix these errors and regenerate the code.".

End CodeValidator.
(** ** autonomousActions.ts *)

Module AutonomousActions.

Inductive ActionType : Type :=
| install_package
| create_file
| create_folder
| modify_file
| run_script
| git_operation
| format_code
| update_imports.

Definition ActionType_eqb (a b : ActionType) : bool :=
  match a, b with
  | install_package, install_package | create_file, create_file
  | create_folder, create_folder | modify_file, modify_file
  | run_script, run_script | git_operation, git_operation
  | format_code, format_code | update_imports, update_imports => true
  | _, _ => false
  end.

(** [params: any].  These are the shapes [ActionParser.parseActions]
    builds; [OtherParams] stands for every other value. *)
Inductive ActionParams : Type :=
| InstallParams (packages : list string) (dev : bool)
| CreateFileParams (filePath content : string)
| CreateFolderParams (folderPath : string)
| RunScriptParams (script args : string)
| OtherParams.

Record ActionRequest : Type := mkActionRequest {
  type : ActionType;
  description : string;
  params : ActionParams;
  workspacePath : string;
}.

Record ActionResult : Type := mkActionResult {
  success : bool;
  message : string;
  output : option string;
  error : option string;
  changes : option (list string);
}.

Record ActionConfig : Type := mkActionConfig {
  allowPackageInstall : bool;
  allowFileCreation : bool;
  allowFolderCreation : bool;
  allowFileModification : bool;
  allowScriptExecution : bool;
  allowGitOperations : bool;
  allowFormatting : bool;
  requireConfirmation : bool;
}.

Module ActionParser.
Import Re.

Definition dq : ascii := ascii_of_nat 34.
Definition space : regex := Class Js.isSpace.
Definition notQuote : regex := Class (fun c => negb (Ascii.eqb c dq)).

(** The value of group [n], [None] for [undefined]. *)
Definition group (m : result) (n : nat) : option string := capture n (groups m).

(** [match[1]] of a pattern whose first group always takes part. *)
Definition group1 (m : result) : string := default EmptyString (group m 1).

Record pattern : Type := mkPattern {
  regex_of : regex;
  handler : result -> ActionType * string * ActionParams;
}.

(** [/<action:install_package\s+packages=\x22([^\x22]+)\x22(?:\s+dev=\x22(true|false)\x22)?\s*\/>/g],
    the double quote written [\x22] here and below. *)
Definition installRegex : regex :=
  seqs [lit "<action:install_package"; Plus space; lit "packages="; Chr dq;
        Group 1 (Plus notQuote); Chr dq;
        Opt (seqs [Plus space; lit "dev="; Chr dq;
                   Group 2 (Alt (lit "true") (lit "false")); Chr dq]);
        Star space; lit "/>"].

(** [/<action:create_file\s+path=\x22([^\x22]+)\x22\s*\/>/g] *)
Definition createFileRegex : regex :=
  seqs [lit "<action:create_file"; Plus space; lit "path="; Chr dq;
        Group 1 (Plus notQuote); Chr dq; Star space; lit "/>"].

(** [/<action:create_folder\s+path=\x22([^\x22]+)\x22\s*\/>/g] *)
Definition createFolderRegex : regex :=
  seqs [lit "<action:create_folder"; Plus space; lit "path="; Chr dq;
        Group 1 (Plus notQuote); Chr dq; Star space; lit "/>"].

(** [/<action:run_script\s+script=\x22([^\x22]+)\x22(?:\s+args=\x22([^\x22]{0,})\x22)?\s*\/>/g],
    with [{0,}] for the star before the closing parenthesis. *)
Definition runScriptRegex : regex :=
  seqs [lit "<action:run_script"; Plus space; lit "script="; Chr dq;
        Group 1 (Plus notQuote); Chr dq;
        Opt (seqs [Plus space; lit "args="; Chr dq;
                   Group 2 (Star notQuote); Chr dq]);
        Star space; lit "/>"].

Definition isTrue (o : option string) : bool :=
  match o with
  | Some s => String.eqb s "true"
  | None => false
  end.

Definition installPattern : pattern :=
  mkPattern installRegex (fun m =>
    (install_package, "Install packages: " +:+ group1 m,
     InstallParams (map Js.trim (Js.split "," (group1 m)))
                   (isTrue (group m 2)))).

Definition createFilePattern : pattern :=
  mkPattern createFileRegex (fun m =>
    (create_file, "Create file: " +:+ group1 m,
     CreateFileParams (group1 m) EmptyString)).

Definition createFolderPattern : pattern :=
  mkPattern createFolderRegex (fun m =>
    (create_folder, "Create folder: " +:+ group1 m,
     CreateFolderParams (group1 m))).

Definition runScriptPattern : pattern :=
  mkPattern runScriptRegex (fun m =>
    (run_script, "Run script: " +:+ group1 m,
     RunScriptParams (group1 m) (default EmptyString (group m 2)))).

Definition actionPatterns : list pattern :=
  [installPattern; createFilePattern; createFolderPattern; runScriptPattern].

(** [{ ...action, workspacePath: "" }] *)
Definition toRequest (x : ActionType * string * ActionParams) : ActionRequest :=
  let '(t, d, p) := x in mkActionRequest t d p EmptyString.

(** The request pushed for one match of a pattern. *)
Definition requestOf (p : pattern) (m : result) : ActionRequest :=
  toRequest (handler p m).

(** The two nested loops of [parseActions]: the patterns in the order of
    the array, and for each of them every match from left to right,
    appended to [actions].  [None] when a [while] loop does not end
    within [fuel] calls of [exec]. *)
Fixpoint parseLoop (fuel : nat) (ps : list pattern) (aiResponse : string)
    (actions : list ActionRequest) : option (list ActionRequest) :=
  match ps with
  | [] => Some actions
  | p :: ps' =>
      match execLoop fuel (regex_of p) (start aiResponse) with
      | None => None
      | Some ms =>
          parseLoop fuel ps' aiResponse
            (actions ++ map (requestOf p) ms)
      end
  end.

Definition parseActionsFuel (fuel : nat) (aiResponse : string) : option (list ActionRequest) :=
  parseLoop fuel actionPatterns aiResponse [].

(** [parseActions]; [S (length aiResponse)] calls of [exec] per pattern
    are always enough (lemma [parseActions_fuel] below), so the default is
    never taken. *)
Definition parseActions (aiResponse : string) : list ActionRequest :=
  default [] (parseActionsFuel (S (String.length aiResponse)) aiResponse).

End ActionParser.

(** The configuration object of the section fixCode of the editor
    settings: what [config.get<T>(key)] finds for a key, [None] when the
    key has no value; [config.get(key, d)] is then [d]. *)
Record Configuration : Type := mkConfiguration {
  getBoolean : string -> option bool;
  getNumber : string -> option Z;
  getString : string -> option string;
}.

(** No setting has a value. *)
Definition noConfiguration : Configuration :=
  mkConfiguration (fun _ => None) (fun _ => None) (fun _ => None).

(** What the executor needs from outside.  [perform workspacePath action]
    is the [switch] of [execute]: the implementation selected by
    [action.type] ([installPackage], [createFile], ...) run on
    [action.params] in [workspacePath]; it spawns processes and writes
    files, and is [Thrown] when the implementation throws.
    [requestConfirmation] is the dialog, [true] for the answer Yes. *)
Class ActionHost `{Platform} : Type := {
  perform : string -> ActionRequest -> World -> outcome ActionResult * World;
  requestConfirmation : ActionRequest -> World -> bool * World;
  getConfiguration : World -> Configuration;
}.

(** [getActionConfig], given the configuration object. *)
Definition getActionConfig (config : Configuration) : ActionConfig :=
  let get key d := default d (getBoolean config key) in
  {| allowPackageInstall := get "allowPackageInstall" true;
     allowFileCreation := get "allowFileCreation" true;
     allowFolderCreation := get "allowFolderCreation" true;
     allowFileModification := get "allowFileModification" true;
     allowScriptExecution := get "allowScriptExecution" false;
     allowGitOperations := get "allowGitOperations" false;
     allowFormatting := get "allowFormatting" true;
     requireConfirmation := get "requireConfirmation" false |}.

(** The text of an [ActionType] in a template literal. *)
Definition typeName (t : ActionType) : string :=
  match t with
  | install_package => "install_package"
  | create_file => "create_file"
  | create_folder => "create_folder"
  | modify_file => "modify_file"
  | run_script => "run_script"
  | git_operation => "git_operation"
  | format_code => "format_code"
  | update_imports => "update_imports"
  end.

(** The fields of [AutonomousActionExecutor]; [workspacePath] is
    [executorPath] here. *)
Record AutonomousActionExecutor : Type := mkExecutor {
  executorPath : string;
  config : ActionConfig;
  executedActions : list ActionRequest;
}.

(** [isActionAllowed]: [permissions[type] || false]. *)
Definition isActionAllowed (config : ActionConfig) (type : ActionType) : bool :=
  let permissions :=
    match type with
    | install_package => allowPackageInstall config
    | create_file => allowFileCreation config
    | create_folder => allowFolderCreation config
    | modify_file => allowFileModification config
    | run_script => allowScriptExecution config
    | git_operation => allowGitOperations config
    | format_code => allowFormatting config
    | update_imports => allowFileModification config
    end in
  permissions || false.

Definition denied (action : ActionRequest) : ActionResult :=
  {| success := false;
     message := "Action " +:+ typeName (type action) +:+ " is disabled in settings";
     output := None;
     error := Some "Action not allowed";
     changes := None |}.

Definition cancelled : ActionResult :=
  {| success := false; message := "Action cancelled by user";
     output := None; error := None; changes := None |}.

Definition failed (e : string) : ActionResult :=
  {| success := false; message := "Action execution failed";
     output := None; error := Some e; changes := None |}.

Section Executor.
Context `{ActionHost}.

(** [execute]: the result, the executor with its [executedActions]
    updated, and the world after the call. *)
Definition execute (action : ActionRequest) (self : AutonomousActionExecutor)
    (w : World) : ActionResult * AutonomousActionExecutor * World :=
  if negb (isActionAllowed (config self) (type action)) then
    (denied action, self, w)
  else
    let '(confirmed, w) :=
      if requireConfirmation (config self) then requestConfirmation action w
      else (true, w) in
    if negb confirmed then (cancelled, self, w)
    else
      match perform (executorPath self) action w with
      | (Returned result, w) =>
          let self :=
            if success result
            then mkExecutor (executorPath self) (config self)
                   (executedActions self ++ [action])
            else self in
          (result, self, w)
      | (Thrown e, w) => (failed e, self, w)
      end.

(** [createActionExecutor] *)
Definition createActionExecutor (workspacePath : string) (w : World) : AutonomousActionExecutor :=
  mkExecutor workspacePath (getActionConfig (getConfiguration w)) [].

End Executor.

(** [getSummary] *)
Definition getSummary (self : AutonomousActionExecutor) : string :=
  if CodeValidator.isEmpty (executedActions self) then "No actions executed"
  else
    "Executed " +:+ showNat (length (executedActions self)) +:+ " action(s):" +:+ nl1
    +:+ String.concat EmptyString
          (imap (fun i action => showNat (i + 1) +:+ ". " +:+ description action +:+ nl1)
             (executedActions self)).

End AutonomousActions.

(** ** smartAgent.ts: cleaning the model output *)

Module Clean.
Import Re.

Definition space : regex := Class Js.isSpace.
Definition word : regex := Class Js.isWord.
Definition any : regex := Class (fun _ => true).
Definition fence : regex := lit "```".

(** [[\s:]+] *)
Definition spaceOrColon : regex :=
  Plus (Class (fun c => Js.isSpace c || Ascii.eqb c ":")).

(** [/^```[\w]*\n([\s\S]*?)\n```$/] *)
Definition codeBlockPattern : regex :=
  seqs [Bol false; fence; Star word; Chr Js.LF; Group 1 (StarLazy any);
        Chr Js.LF; fence; Eol false].

(** [/^Here'?s?\s+(?:the\s+)?(?:fixed|improved|refactored|updated)\s+code[\s:]+/im],
    [/^Here\s+is\s+(?:the\s+)?(?:fixed|improved)\s+code[\s:]+/im] and
    [/^(?:Fixed|Improved|Refactored)\s+code[\s:]+/im]. *)
Definition explanationPatterns : list regex :=
  [ seqs [Bol true; litI "Here"; Opt (ChrI "'"); Opt (ChrI "s"); Plus space;
          Opt (Seq (litI "the") (Plus space));
          alts [litI "fixed"; litI "improved"; litI "refactored"; litI "updated"];
          Plus space; litI "code"; spaceOrColon];
    seqs [Bol true; litI "Here"; Plus space; litI "is"; Plus space;
          Opt (Seq (litI "the") (Plus space));
          alts [litI "fixed"; litI "improved"];
          Plus space; litI "code"; spaceOrColon];
    seqs [Bol true; alts [litI "Fixed"; litI "Improved"; litI "Refactored"];
          Plus space; litI "code"; spaceOrColon] ].

(** [/^```[\w]*\s*\n?/] and [/\n?```\s*$/] *)
Definition openingFence : regex :=
  seqs [Bol false; fence; Star word; Star space; Opt (Chr Js.LF)].
Definition closingFence : regex :=
  seqs [Opt (Chr Js.LF); fence; Star space; Eol false].

Definition nonEmpty (s : string) : bool :=
  match s with EmptyString => false | String _ _ => true end.

Definition cleanCodeResponse (response : string) : string :=
  let cleaned := Js.trim response in
  let cleaned :=
    match exec codeBlockPattern cleaned with
    | Some m =>
        match capture 1 (groups m) with
        | Some g => if nonEmpty g then g else cleaned
        | None => cleaned
        end
    | None => cleaned
    end in
  let cleaned := fold_left (fun acc p => remove p acc) explanationPatterns cleaned in
  let cleaned := remove openingFence cleaned in
  let cleaned := remove closingFence cleaned in
  Js.trim cleaned.

End Clean.

(** ** smartAgent.ts *)

Module SmartAgent.

Module CV := CodeValidator.
Module AA := AutonomousActions.

Record SmartAgentConfig : Type := mkSmartAgentConfig {
  apiKey : string;
  model : string;
  workspacePath : option string;
  currentFile : string;
  selectedCode : string;
  fullFileContent : string;
  userPrompt : string;
  enableValidation : option bool;
  maxRetries : option Z;
  enableWebSearch : option bool;
}.

Inductive TaskComplexity : Type := simple | medium | complex.
Inductive Mode : Type := instant | smart | deep.

(** [confidence] in per cent. *)
Record TaskAnalysis : Type := mkTaskAnalysis {
  complexity : TaskComplexity;
  mode : Mode;
  needsContext : bool;
  needsAnalysis : bool;
  confidence : Z;
}.

Record ProjectCache : Type := mkProjectCache {
  projectStructure : string;
  commonPatterns : string;
  dependencies : string;
  timestamp : Z;
}.

Record ChangesMade : Type := mkChangesMade {
  filesModified : option (list string);
  packagesInstalled : option (list string);
  filesCreated : option (list string);
  foldersCreated : option (list string);
  otherActions : option (list string);
}.

Record WebSearchDetail : Type := mkWebSearchDetail {
  detailQuery : string;
  resultsCount : nat;
  sources : list string;
}.

(** [SmartAgentResult]; its field [mode] is [usedMode] here, and
    [executionTime] is in milliseconds, before the division by 1000. *)
Record SmartAgentResult : Type := mkSmartAgentResult {
  success : bool;
  code : option string;
  error : option string;
  usedMode : option Mode;
  cachedUsed : option bool;
  validated : option bool;
  validationScore : option Z;
  retries : option Z;
  validationErrors : option (list string);
  actionsExecuted : option (list AA.ActionRequest);
  actionsSummary : option string;
  webSearchUsed : option bool;
  webSearchQuery : option string;
  webSearchResults : option nat;
  webSearchDetails : option (list WebSearchDetail);
  executionTime : Z;
  changesMade : option ChangesMade;
}.

(** The two values of [webSearch.ts] the agent looks into. *)
Record SearchRequest : Type := mkSearchRequest {
  searchType : string;
  query : string;
}.

Record WebSearchResult : Type := mkWebSearchResult {
  searchSuccess : bool;
  results : list (option string);   (* the [source] of each result *)
}.

(** What the code writes to its caller ([progressCallback]) and to the
    console, and the requests it sends to the model, in order.  The
    pictographs of the message texts are left out. *)
Inductive Event : Type :=
| Progress (msg : string)
| ConsoleLog (msg : string)
| ConsoleWarn (msg : string) (detail : option string)
| ConsoleError (msg : string) (detail : string)
| ModelRequest (systemPrompt userPrompt : string).

(** What the agent needs from outside: the model call, the web search
    of [webSearch.ts], the three scans of the project behind the cache,
    and the text of the system prompt. *)
Class AgentHost `{Platform} : Type := {
  callAI : string -> string -> string -> string -> World -> outcome (option string) * World;
  shouldTriggerSearch : string -> option SearchRequest;
  searchWeb : SearchRequest -> World -> outcome WebSearchResult * World;
  formatSearchResultsForAI : WebSearchResult -> SearchRequest -> string;
  buildProjectStructure : string -> World -> outcome string * World;
  detectCommonPatterns : string -> World -> outcome string * World;
  getDependencies : string -> World -> outcome string * World;
  getSmartSystemPrompt : Mode -> option ProjectCache -> bool -> string;
}.

Definition modeName (m : Mode) : string :=
  match m with instant => "instant" | smart => "smart" | deep => "deep" end.

Definition complexityName (c : TaskComplexity) : string :=
  match c with simple => "simple" | medium => "medium" | complex => "complex" end.

Definition quoted (s : string) : string :=
  String AA.ActionParser.dq s +:+ String AA.ActionParser.dq EmptyString.

(** [const CACHE_DURATION = 5 * 60 * 1000] *)
Definition CACHE_DURATION : Z := 5 * 60 * 1000.

Definition simpleKeywords : list string :=
  ["fix typo"; "add comment"; "rename variable"; "format"; "prettier";
   "indent"; "remove console"; "add semicolon"; "fix syntax"].

Definition mediumKeywords : list string :=
  ["refactor"; "optimize"; "improve"; "add error handling"; "add types";
   "convert to"; "update"; "modify"].

Definition complexKeywords : list string :=
  ["implement"; "create"; "build"; "design"; "architect"; "restructure";
   "migrate"; "rewrite"].

(** [keywords.some((k) => prompt.includes(k))] *)
Definition someIncluded (keywords : list string) (prompt : string) : bool :=
  existsb (fun k => Js.includes prompt k) keywords.

(** [analyzeTaskComplexity] *)
Definition analyzeTaskComplexity (userPrompt selectedCode : string) : TaskAnalysis :=
  let prompt := Js.toLowerCase userPrompt in
  let codeLines := length (Js.split Js.LF selectedCode) in
  if someIncluded simpleKeywords prompt || Nat.ltb codeLines 10 then
    mkTaskAnalysis simple instant false false 90
  else if someIncluded complexKeywords prompt || Nat.ltb 100 codeLines
          || Nat.ltb 100 (String.length prompt) then
    mkTaskAnalysis complex deep true true 85
  else
    mkTaskAnalysis medium smart true false 80.

(** *** State and effects

    The module-level [projectCaches] map, the world and the trace are
    threaded through every step; a step returns or throws. *)
Section Agent.
Context `{AgentHost} `{!AA.ActionHost} `{!CV.TypeScript}.

Record State : Type := mkState {
  world : World;
  projectCaches : gmap string ProjectCache;
  trace : list Event;
}.

Definition M (A : Type) : Type := State -> outcome A * State.

Definition ret {A : Type} (a : A) : M A := fun s => (Returned a, s).
Definition throw {A : Type} (e : string) : M A := fun s => (Thrown e, s).

Definition bind {A B : Type} (m : M A) (k : A -> M B) : M B :=
  fun s =>
    match m s with
    | (Returned a, s') => k a s'
    | (Thrown e, s') => (Thrown e, s')
    end.

(** [try { m } catch (e) { h e }]: what [m] did before it threw stays
    done. *)
Definition tryCatch {A : Type} (m : M A) (h : string -> M A) : M A :=
  fun s =>
    match m s with
    | (Returned a, s') => (Returned a, s')
    | (Thrown e, s') => h e s'
    end.

Definition emit (e : Event) : M unit :=
  fun s => (Returned tt, mkState (world s) (projectCaches s) (trace s ++ [e])).

(** A capability of the host that may throw. *)
Definition call {A : Type} (f : World -> outcome A * World) : M A :=
  fun s => let '(r, w) := f (world s) in (r, mkState w (projectCaches s) (trace s)).

(** A capability of the host that does not throw. *)
Definition ask {A : Type} (f : World -> A * World) : M A :=
  fun s => let '(a, w) := f (world s) in (Returned a, mkState w (projectCaches s) (trace s)).

Definition dateNow : M Z := fun s => (Returned (now (world s)), s).

Definition cachesGet (k : string) : M (option ProjectCache) :=
  fun s => (Returned (projectCaches s !! k), s).

Definition cachesSet (k : string) (c : ProjectCache) : M unit :=
  fun s => (Returned tt, mkState (world s) (<[k := c]> (projectCaches s)) (trace s)).

Definition cachesDelete (k : string) : M unit :=
  fun s => (Returned tt, mkState (world s) (delete k (projectCaches s)) (trace s)).

Definition cachesClear : M unit :=
  fun s => (Returned tt, mkState (world s) ∅ (trace s)).

Notation "'let*' x ':=' m 'in' k" := (bind m (fun x => k))
  (at level 10, x name, m at level 100, k at level 200, only parsing).
Notation "'let*' ' p ':=' m 'in' k" := (bind m (fun x => let 'p := x in k))
  (at level 10, p pattern, m at level 100, k at level 200, only parsing).

(** The second half of [getProjectCache]: build a new cache and store
    it; [null] when a scan throws. *)
Definition buildProjectCache (workspacePath : string) : M (option ProjectCache) :=
  tryCatch
    (let* _ := emit (ConsoleLog "Building project cache...") in
     let* structure := call (buildProjectStructure workspacePath) in
     let* patterns := call (detectCommonPatterns workspacePath) in
     let* deps := call (getDependencies workspacePath) in
     let* stamp := dateNow in
     let cache := mkProjectCache structure patterns deps stamp in
     let* _ := cachesSet workspacePath cache in
     ret (Some cache))
    (fun e => let* _ := emit (ConsoleError "Failed to build cache:" e) in ret None).

(** [getProjectCache] *)
Definition getProjectCache (workspacePath : string) : M (option ProjectCache) :=
  let* cached := cachesGet workspacePath in
  let* t := dateNow in
  match cached with
  | Some c =>
      if t - timestamp c <? CACHE_DURATION then
        let* _ := emit (ConsoleLog "Using cached project context") in ret (Some c)
      else buildProjectCache workspacePath
  | None => buildProjectCache workspacePath
  end.

(** [clearProjectCache] and [clearAllCaches] *)
Definition clearProjectCache (workspacePath : string) : M unit :=
  let* _ := cachesDelete workspacePath in
  emit (ConsoleLog ("Cache cleared for: " +:+ workspacePath)).

Definition clearAllCaches : M unit :=
  let* _ := cachesClear in emit (ConsoleLog "All caches cleared").

(** [x && ...] and [!!x] on a value that is a string or [null]. *)
Definition truthy (o : option string) : bool :=
  match o with
  | Some s => negb (Js.isEmptyStr s)
  | None => false
  end.

(** [webSearchResult && searchRequest && webSearchResult.success &&
    webSearchResult.results.length > 0] *)
Definition searchFound (webSearchResult : option WebSearchResult) : bool :=
  match webSearchResult with
  | Some r => searchSuccess r && negb (CV.isEmpty (results r))
  | None => false
  end.

(** [buildUserPrompt] *)
Definition buildUserPrompt (config : SmartAgentConfig) (analysis : TaskAnalysis)
    (cache : option ProjectCache) (webSearchResult : option WebSearchResult)
    (searchRequest : option SearchRequest) : string :=
  let fileName := basename (currentFile config) in
  let prompt := "File: " +:+ fileName +:+ nl2 in
  let prompt := prompt +:+ "Task: " +:+ userPrompt config +:+ nl2 in
  let prompt :=
    match webSearchResult, searchRequest with
    | Some r, Some q =>
        if searchFound webSearchResult
        then prompt +:+ formatSearchResultsForAI r q +:+ nl1
        else prompt
    | _, _ => prompt
    end in
  let prompt := prompt +:+ "Selected Code:" +:+ nl1 +:+ selectedCode config +:+ nl2 in
  let prompt :=
    if needsContext analysis
       && negb (String.eqb (selectedCode config) (fullFileContent config)) then
      let fullLines := length (Js.split Js.LF (fullFileContent config)) in
      if Nat.ltb fullLines 500
      then prompt +:+ "Full File Context:" +:+ nl1 +:+ fullFileContent config +:+ nl2
      else prompt
    else prompt in
  let prompt :=
    match mode analysis with
    | deep =>
        if truthy (workspacePath config)
        then prompt +:+ nl1
             +:+ "Note: Consider the full project context and dependencies when making changes."
             +:+ nl1
        else prompt
    | _ => prompt
    end in
  prompt +:+ nl1 +:+ "Provide the fixed code (no explanations, no markdown):".

(** [buildWebSearchDetails] *)
Definition buildWebSearchDetails (webSearchResult : option WebSearchResult)
    (searchRequest : option SearchRequest) : option (list WebSearchDetail) :=
  match webSearchResult, searchRequest with
  | Some r, Some q =>
      if searchFound webSearchResult then
        Some [mkWebSearchDetail (query q) (length (results r))
                (map (default "unknown") (take 5 (results r)))]
      else None
  | _, _ => None
  end.

Definition pushAll (o : option (list string)) (xs : list string) : option (list string) :=
  Some (default [] o ++ xs).

(** [action.params.packages || []] and [action.params.path || "unknown"]:
    the parser names its paths [filePath] and [folderPath], so [path] is
    undefined on its requests. *)
Definition paramPackages (p : AA.ActionParams) : list string :=
  match p with
  | AA.InstallParams packages _ => packages
  | _ => []
  end.

Definition paramPath (p : AA.ActionParams) : string := "unknown".

Definition orType (description : string) (t : AA.ActionType) : string :=
  if Js.isEmptyStr description then AA.typeName t else description.

(** [buildChangesMade] *)
Definition buildChangesMade (executedActions : list AA.ActionRequest) : ChangesMade :=
  fold_left (fun changes action =>
    match AA.type action with
    | AA.install_package =>
        mkChangesMade (filesModified changes)
          (pushAll (packagesInstalled changes) (paramPackages (AA.params action)))
          (filesCreated changes) (foldersCreated changes) (otherActions changes)
    | AA.create_file =>
        mkChangesMade (filesModified changes) (packagesInstalled changes)
          (pushAll (filesCreated changes) [paramPath (AA.params action)])
          (foldersCreated changes) (otherActions changes)
    | AA.create_folder =>
        mkChangesMade (filesModified changes) (packagesInstalled changes)
          (filesCreated changes)
          (pushAll (foldersCreated changes) [paramPath (AA.params action)])
          (otherActions changes)
    | AA.modify_file =>
        mkChangesMade
          (pushAll (filesModified changes) [paramPath (AA.params action)])
          (packagesInstalled changes) (filesCreated changes)
          (foldersCreated changes) (otherActions changes)
    | AA.format_code | AA.update_imports | AA.run_script | AA.git_operation =>
        mkChangesMade (filesModified changes) (packagesInstalled changes)
          (filesCreated changes) (foldersCreated changes)
          (pushAll (otherActions changes)
             [orType (AA.description action) (AA.type action)])
    end) executedActions (mkChangesMade None None None None None).

(** Step 4, the [for] loop over [suggestedActions]: each request gets the
    workspace path and is handed to [execute]; a request that succeeded
    is pushed to [executedActions] and reported, any other is only
    written to the console with [result.error]. *)
Fixpoint executeActions (workspace : string) (suggestedActions : list AA.ActionRequest)
    (actionExecutor : AA.AutonomousActionExecutor)
    (executedActions : list AA.ActionRequest)
    : M (AA.AutonomousActionExecutor * list AA.ActionRequest) :=
  match suggestedActions with
  | [] => ret (actionExecutor, executedActions)
  | action :: rest =>
      let action :=
        AA.mkActionRequest (AA.type action) (AA.description action)
          (AA.params action) workspace in
      let* '(result, actionExecutor) :=
        ask (fun w => let '(r, e, w') := AA.execute action actionExecutor w in ((r, e), w')) in
      if AA.success result then
        let* _ := emit (Progress (AA.description action)) in
        executeActions workspace rest actionExecutor (executedActions ++ [action])
      else
        let* _ := emit (ConsoleWarn ("Action failed: " +:+ AA.description action)
                          (AA.error result)) in
        executeActions workspace rest actionExecutor executedActions
  end.

(** [const enableValidation = config.enableValidation !== false] *)
Definition validationEnabled (config : SmartAgentConfig) : bool :=
  match enableValidation config with
  | Some false => false
  | _ => true
  end.

(** [const maxRetries = config.maxRetries || 2]: zero is falsy. *)
Definition effectiveMaxRetries (config : SmartAgentConfig) : Z :=
  match maxRetries config with
  | Some n => if n =? 0 then 2 else n
  | None => 2
  end.

(** [const enableWebSearch = config.enableWebSearch !== false] *)
Definition webSearchEnabled (config : SmartAgentConfig) : bool :=
  match enableWebSearch config with
  | Some false => false
  | _ => true
  end.

(** The variables of [executeSmartAgent] the retry loop assigns. *)
Record LoopVars : Type := mkLoopVars {
  retryCount : Z;
  lastValidationResult : option CV.ValidationResult;
}.

(** What steps 1 to 2.5 leave behind for the loop. *)
Record Prepared : Type := mkPrepared {
  analysis : TaskAnalysis;
  cache : option ProjectCache;
  webSearchResult : option WebSearchResult;
  searchRequest : option SearchRequest;
}.

Definition isInstant (m : Mode) : bool :=
  match m with instant => true | _ => false end.

Definition isSome {A : Type} (o : option A) : bool :=
  match o with Some _ => true | None => false end.

(** Steps 1, 2 and 2.5. *)
Definition prepare (config : SmartAgentConfig) : M Prepared :=
  let* _ := emit (Progress "Analyzing task complexity...") in
  let analysis := analyzeTaskComplexity (userPrompt config) (selectedCode config) in
  let* _ := emit (ConsoleLog ("Task analysis: " +:+ complexityName (complexity analysis)
                             +:+ " complexity, " +:+ modeName (mode analysis) +:+ " mode")) in
  let* cache :=
    match workspacePath config with
    | Some path =>
        if needsContext analysis && negb (Js.isEmptyStr path)
           && negb (isInstant (mode analysis)) then
          let* _ := emit (Progress "Loading project context...") in
          getProjectCache path
        else ret None
    | None => ret None
    end in
  if webSearchEnabled config then
    match shouldTriggerSearch (userPrompt config) with
    | Some request =>
        let* _ := emit (Progress ("Searching web for: " +:+ quoted (query request) +:+ "...")) in
        let* _ := emit (ConsoleLog ("Web search triggered: " +:+ searchType request
                                   +:+ " - " +:+ query request)) in
        let* found := call (searchWeb request) in
        let* _ :=
          if searchFound (Some found) then
            let* _ := emit (Progress ("Found " +:+ showNat (length (results found)) +:+ " result(s)")) in
            emit (ConsoleLog ("Web search found " +:+ showNat (length (results found))
                              +:+ " results"))
          else emit (ConsoleLog "Web search returned no results") in
        ret (mkPrepared analysis cache (Some found) (Some request))
    | None => ret (mkPrepared analysis cache None None)
    end
  else ret (mkPrepared analysis cache None None).

(** How one pass through the body of the [while] loop ends: with
    [continue] or with [return]. *)
Inductive Next : Type :=
| Continue
| Return (result : SmartAgentResult).

Section Loop.
Variable config : SmartAgentConfig.
Variable startTime : Z.
Variable prepared : Prepared.

Let theMode : Mode := mode (analysis prepared).

(** The fields every [return] of the loop sets the same way. *)
Definition resultOf (success : bool) (code : string) (error : option string)
    (validated : bool) (validationScore : option Z) (retries : Z)
    (validationErrors : option (list string))
    (executedActions : list AA.ActionRequest)
    (actionExecutor : option AA.AutonomousActionExecutor) (t : Z) : SmartAgentResult :=
  {| success := success;
     code := Some code;
     error := error;
     usedMode := Some theMode;
     cachedUsed := Some (isSome (cache prepared));
     validated := Some validated;
     validationScore := validationScore;
     retries := Some retries;
     validationErrors := validationErrors;
     actionsExecuted := Some executedActions;
     actionsSummary := option_map AA.getSummary actionExecutor;
     webSearchUsed := Some (searchFound (webSearchResult prepared));
     webSearchQuery := option_map query (searchRequest prepared);
     webSearchResults :=
       Some (match webSearchResult prepared with
             | Some r => length (results r)
             | None => O
             end);
     webSearchDetails :=
       buildWebSearchDetails (webSearchResult prepared) (searchRequest prepared);
     executionTime := t - startTime;
     changesMade := Some (buildChangesMade executedActions) |}.

(** Step 4. *)
Definition runActions (code : string)
    : M (option AA.AutonomousActionExecutor * list AA.ActionRequest) :=
  match workspacePath config with
  | Some path =>
      if Js.isEmptyStr path then ret (None, [])
      else
        let suggestedActions := AA.ActionParser.parseActions code in
        if CV.isEmpty suggestedActions then ret (None, [])
        else
          let* _ := emit (Progress ("Executing " +:+ showNat (length suggestedActions)
                                     +:+ " action(s)...")) in
          let* actionExecutor := ask (fun w => (AA.createActionExecutor path w, w)) in
          let* '(actionExecutor, executedActions) :=
            executeActions path suggestedActions actionExecutor [] in
          ret (Some actionExecutor, executedActions)
  | None => ret (None, [])
  end.

(** The body of the inner [try]: prompt, model call, cleaning, actions,
    validation.  It throws when the model call throws or returns nothing. *)
Definition attempt (vars : LoopVars) : M (Next * LoopVars) :=
  let maxRetries := effectiveMaxRetries config in
  let systemPrompt :=
    getSmartSystemPrompt theMode (cache prepared) (webSearchEnabled config) in
  let userPrompt :=
    buildUserPrompt config (analysis prepared) (cache prepared)
      (webSearchResult prepared) (searchRequest prepared) in
  let plain : M string :=
    let* _ := emit (Progress ("Processing with " +:+ modeName theMode +:+ " mode... ("
                               +:+ complexityName (complexity (analysis prepared)) +:+ ")")) in
    ret userPrompt in
  let* userPrompt :=
    match lastValidationResult vars with
    | Some last =>
        if (0 <? retryCount vars) && negb (CV.isValid last) then
          let* _ := emit (Progress ("Retry " +:+ showZ (retryCount vars) +:+ "/"
                                     +:+ showZ maxRetries +:+ " - Fixing errors...")) in
          ret (userPrompt +:+ nl2 +:+ "PREVIOUS ATTEMPT HAD ERRORS:" +:+ nl1
               +:+ CV.generateErrorContext last)
        else plain
    | None => plain
    end in
  let* _ := emit (ModelRequest systemPrompt userPrompt) in
  let* answer := call (callAI (apiKey config) (model config) systemPrompt userPrompt) in
  if negb (truthy answer) then throw "Error: AI did not return code"
  else
    let code := default EmptyString answer in
    let cleanedCode := Clean.cleanCodeResponse code in
    let* '(actionExecutor, executedActions) := runActions code in
    if validationEnabled config then
      let* _ := emit (Progress "Validating generated code...") in
      let fileName := basename (currentFile config) in
      let validationResult := CV.validateCode cleanedCode fileName in
      let vars := mkLoopVars (retryCount vars) (Some validationResult) in
      let* _ := emit (ConsoleLog ("Validation: "
                                 +:+ (if CV.isValid validationResult then "PASSED" else "FAILED")
                                 +:+ " (Score: " +:+ showZ (CV.score validationResult)
                                 +:+ "/100)")) in
      if CV.isValid validationResult then
        let* t := dateNow in
        ret (Return (resultOf true cleanedCode None true
                       (Some (CV.score validationResult)) (retryCount vars) None
                       executedActions actionExecutor t), vars)
      else
        let errorSummary := CV.getErrorSummary validationResult in
        let* _ := emit (ConsoleLog ("Validation errors: " +:+ errorSummary)) in
        if retryCount vars <? maxRetries then
          ret (Continue, mkLoopVars (retryCount vars + 1) (lastValidationResult vars))
        else
          let* t := dateNow in
          ret (Return (resultOf false cleanedCode
                         (Some ("Code validation failed after " +:+ showZ maxRetries
                                +:+ " retries: " +:+ errorSummary))
                         false (Some (CV.score validationResult)) (retryCount vars)
                         (Some (map CV.message (CV.errors validationResult)))
                         executedActions actionExecutor t), vars)
    else
      let* t := dateNow in
      ret (Return (resultOf true cleanedCode None false None 0 None
                     executedActions actionExecutor t), vars).

(** Step 3, [while (retryCount <= maxRetries)] with its inner [catch]:
    [fuel] bounds the number of passes, [None] when it runs out. *)
Fixpoint retryLoop (fuel : nat) (vars : LoopVars) (s : State)
    : option (outcome SmartAgentResult * LoopVars * State) :=
  let maxRetries := effectiveMaxRetries config in
  if retryCount vars <=? maxRetries then
    match fuel with
    | O => None
    | S fuel' =>
        match attempt vars s with
        | (Returned (Return result, vars'), s') => Some (Returned result, vars', s')
        | (Returned (Continue, vars'), s') => retryLoop fuel' vars' s'
        | (Thrown innerError, s') =>
            if retryCount vars <? maxRetries then
              let vars' := mkLoopVars (retryCount vars + 1) (lastValidationResult vars) in
              let '(_, s'') :=
                emit (Progress ("Error occurred, retrying (" +:+ showZ (retryCount vars')
                                +:+ "/" +:+ showZ maxRetries +:+ ")...")) s' in
              retryLoop fuel' vars' s''
            else Some (Thrown innerError, vars, s')
        end
    end
  else Some (Thrown "Error: Unexpected error in retry loop", vars, s).

End Loop.

(** The result of the outer [catch]. *)
Definition failedToProcess (e : string) (retries t : Z) : SmartAgentResult :=
  {| success := false; code := None;
     error := Some ("Failed to process: " +:+ e);
     usedMode := None; cachedUsed := None; validated := None;
     validationScore := None; retries := Some retries;
     validationErrors := None; actionsExecuted := None; actionsSummary := None;
     webSearchUsed := None; webSearchQuery := None; webSearchResults := None;
     webSearchDetails := None; executionTime := t; changesMade := None |}.

(** [executeSmartAgent], with the final values of [retryCount] and
    [lastValidationResult] next to the result. *)
Definition executeSmartAgentFuel (fuel : nat) (config : SmartAgentConfig) (s : State)
    : option (SmartAgentResult * LoopVars * State) :=
  let startTime := now (world s) in
  let caught (e : string) (vars : LoopVars) (s : State) :=
    let '(_, s) := emit (ConsoleError "Smart agent error:" e) s in
    (failedToProcess e (retryCount vars) (now (world s) - startTime), vars, s) in
  match prepare config s with
  | (Returned prepared, s) =>
      match retryLoop config startTime prepared fuel (mkLoopVars 0 None) s with
      | Some (Returned result, vars, s) => Some (result, vars, s)
      | Some (Thrown e, vars, s) => Some (caught e vars s)
      | None => None
      end
  | (Thrown e, s) => Some (caught e (mkLoopVars 0 None) s)
  end.

(** One pass more than the retries allowed is all the loop can make. *)
Definition passes (config : SmartAgentConfig) : nat :=
  Z.to_nat (effectiveMaxRetries config + 1).

Definition executeSmartAgent (config : SmartAgentConfig) (s : State)
    : option (SmartAgentResult * LoopVars * State) :=
  executeSmartAgentFuel (passes config) config s.

(** The requests sent to the model in a trace. *)
Definition isModelRequest (e : Event) : bool :=
  match e with ModelRequest _ _ => true | _ => false end.

Definition modelInvocations (t : list Event) : nat :=
  length (List.filter isModelRequest t).

End Agent.
End SmartAgent.

(** ** extension.ts: the caller of the agent *)

Module Extension.

Module AA := AutonomousActions.
Module SA := SmartAgent.

Record FixPayload : Type := mkFixPayload {
  fileName : string;
  filePath : string;
  workspacePath : option string;
  prompt : string;
  rangeText : string;
  fullText : string;
}.

Definition DEFAULT_MODEL : string := "anthropic/claude-sonnet-4.5:beta".

(** [getSelectedModel]: [model || DEFAULT_MODEL] *)
Definition getSelectedModel (config : AA.Configuration) : string :=
  match AA.getString config "model" with
  | Some m => if Js.isEmptyStr m then DEFAULT_MODEL else m
  | None => DEFAULT_MODEL
  end.

(** [config.get<number>("cacheDuration", 5)], in minutes: the one place
    where the code reads this setting, in the command that shows the
    current model and settings. *)
Definition cacheDurationSetting (config : AA.Configuration) : Z :=
  default 5 (AA.getNumber config "cacheDuration").

(** The [agentConfig] that [sendToAIAgent] builds from the payload and
    the settings. *)
Definition agentConfig (payload : FixPayload) (apiKey : string)
    (config : AA.Configuration) : SA.SmartAgentConfig :=
  {| SA.apiKey := apiKey;
     SA.model := getSelectedModel config;
     SA.workspacePath := workspacePath payload;
     SA.currentFile := filePath payload;
     SA.selectedCode := rangeText payload;
     SA.fullFileContent := fullText payload;
     SA.userPrompt := prompt payload;
     SA.enableValidation := Some (default true (AA.getBoolean config "enableValidation"));
     SA.maxRetries := Some (default 2 (AA.getNumber config "maxRetries"));
     SA.enableWebSearch := Some (default true (AA.getBoolean config "enableWebSearch")) |}.

Section Send.
Context `{SA.AgentHost} `{!AA.ActionHost} `{!CodeValidator.TypeScript}.

(** [sendToAIAgent] *)
Definition sendToAIAgent (payload : FixPayload) (apiKey : string) (s : SA.State)
    : option (SA.SmartAgentResult * SA.LoopVars * SA.State) :=
  let config := AA.getConfiguration (SA.world s) in
  SA.executeSmartAgent (agentConfig payload apiKey config) s.

End Send.
End Extension.

(** * The terms of the statements *)

Module Terms.
Import Re AutonomousActions AutonomousActions.ActionParser SmartAgent.

(** ** Matching *)

(** A pattern that cannot match without consuming a code unit. *)
Fixpoint consuming (r : regex) : bool :=
  match r with
  | Chr _ | ChrI _ | Class _ => true
  | Seq r1 r2 => consuming r1 || consuming r2
  | Alt r1 r2 => consuming r1 && consuming r2
  | Group _ r1 => consuming r1
  | Eps | Bol _ | Eol _ | Star _ | StarLazy _ => false
  end.

(** The length of the subject, seen from a cursor. *)
Definition extent (c : cursor) : nat := (pos c + String.length (rest c))%nat.

(** [y] is a position of the same subject at or after [x], strictly
    after it when [strict]. *)
Definition ahead (strict : bool) (x y : cursor) : Prop :=
  extent x = extent y /\ (pos x <= pos y)%nat /\
  (strict = true -> (pos x < pos y)%nat).

(** The matches of an [exec] loop, from left to right without overlap. *)
Fixpoint ascending (from : nat) (ms : list result) : Prop :=
  match ms with
  | [] => True
  | m :: ms' =>
      (from <= index m)%nat /\ (index m < pos (stop m))%nat /\
      ascending (pos (stop m)) ms'
  end.

(** What the [while] loop of one pattern collects from a response. *)
Definition matchesOf (p : pattern) (aiResponse : string) : option (list result) :=
  execLoop (S (String.length aiResponse)) (regex_of p) (start aiResponse).

(** ** Side effects *)

(** What the loop of step 4 writes for one request and its result. *)
Definition reportOf (action : ActionRequest) (result : ActionResult) : Event :=
  if AutonomousActions.success result then Progress (description action)
  else ConsoleWarn ("Action failed: " +:+ description action)
         (AutonomousActions.error result).

(** [action.workspacePath = config.workspacePath] *)
Definition inWorkspace (workspace : string) (action : ActionRequest) : ActionRequest :=
  mkActionRequest (type action) (description action) (params action) workspace.

(** The requests among [actions] whose result succeeded. *)
Fixpoint succeeded (actions : list ActionRequest) (outcomes : list ActionResult)
    : list ActionRequest :=
  match actions, outcomes with
  | a :: actions', r :: outcomes' =>
      if AutonomousActions.success r then a :: succeeded actions' outcomes'
      else succeeded actions' outcomes'
  | _, _ => []
  end.

Fixpoint reports (actions : list ActionRequest) (outcomes : list ActionResult)
    : list Event :=
  match actions, outcomes with
  | a :: actions', r :: outcomes' => reportOf a r :: reports actions' outcomes'
  | _, _ => []
  end.

(** ** Runs *)

Section WithHost.
Context `{AgentHost} `{!ActionHost}.

(** The requests of [batch] are handed to [execute] one after the other,
    each in the world and with the executor the one before left, and
    [outcomes] are the results. *)
Fixpoint handled (workspace : string) (batch : list ActionRequest)
    (outcomes : list ActionResult) (self : AutonomousActionExecutor) (w : World)
    (self' : AutonomousActionExecutor) (w' : World) : Prop :=
  match batch, outcomes with
  | [], [] => self' = self /\ w' = w
  | action :: batch', result :: outcomes' =>
      exists self1 w1,
        execute (inWorkspace workspace action) self w = (result, self1, w1) /\
        handled workspace batch' outcomes' self1 w1 self' w'
  | _, _ => False
  end.

(** One more request was sent to the model between two states. *)
Definition invoked (s s' : State) : Prop :=
  modelInvocations (trace s') = S (modelInvocations (trace s)).

Variable config : SmartAgentConfig.

(** The answer of the model that a result carries, cleaned. *)
Definition cleanedAnswer (r : SmartAgentResult) : Prop :=
  exists systemPrompt userPrompt w w' output,
    callAI (apiKey config) (model config) systemPrompt userPrompt w
      = (Returned (Some output), w') /\
    code r = Some (Clean.cleanCodeResponse output).

(** A result that reports success comes without validation or with a
    last verdict that is valid. *)
Definition acceptable (r : SmartAgentResult) (vars : LoopVars) : Prop :=
  success r = true ->
  validationEnabled config = false \/
  exists v, lastValidationResult vars = Some v /\ CV.isValid v = true.

(** The passes the loop can still make. *)
Definition passesLeft (vars : LoopVars) : nat :=
  Z.to_nat (effectiveMaxRetries config + 1 - retryCount vars).

(** ** The cache *)

(** A cache hit: the stored snapshot is returned, the console says so,
    and neither the world nor the map of caches is touched. *)
Definition hit (c : ProjectCache) (s : State) : outcome (option ProjectCache) * State :=
  (Returned (Some c),
   mkState (world s) (projectCaches s)
     (trace s ++ [ConsoleLog "Using cached project context"])).

(** The snapshot stored for [path] is younger than [CACHE_DURATION]. *)
Definition fresh (path : string) (s : State) (c : ProjectCache) : Prop :=
  projectCaches s !! path = Some c /\ now (world s) - timestamp c < CACHE_DURATION.

(** A rebuild: the console announces it first; a snapshot that is
    returned has been stored. *)
Definition rebuilt (path : string) (s : State)
    (r : outcome (option ProjectCache) * State) : Prop :=
  exists out s' evs,
    r = (Returned out, s') /\
    trace s' = trace s ++ ConsoleLog "Building project cache..." :: evs /\
    modelInvocations evs = O /\
    match out with
    | Some c => projectCaches s' = <[path := c]> (projectCaches s)
    | None => projectCaches s' = projectCaches s
    end.

End WithHost.

(** ** Verdicts and instructions *)

(** The score and the acceptance of a verdict, as functions of its two
    lists. *)
Definition scored (v : CodeValidator.ValidationResult) : Prop :=
  CodeValidator.score v = Z.max 0 (Z.min 100 (100 - 10 * Z.of_nat (length (CodeValidator.errors v))
                                    - 2 * Z.of_nat (length (CodeValidator.warnings v)))) /\
  (CodeValidator.isValid v = true <-> length (CodeValidator.errors v) = O).

(** The instruction contains the keyword [k], letter case ignored. *)
Definition mentions (userPrompt k : string) : Prop :=
  exists pre post, Js.toLowerCase userPrompt = pre +:+ k +:+ post.

(** ** Markers *)

(** The code unit before a position that lies [s] after one whose
    predecessor is [p]. *)
Fixpoint lastOr (p : option ascii) (s : string) : option ascii :=
  match s with
  | EmptyString => p
  | String a s' => lastOr (Some a) s'
  end.

(** The position reached from [c] once [s] has been read, [t] being what
    is left. *)
Definition past (c : cursor) (s t : string) : cursor :=
  Cursor (pos c + String.length s) (lastOr (prev c) s) t.

Fixpoint allChars (f : ascii -> bool) (s : string) : bool :=
  match s with
  | EmptyString => true
  | String a s' => f a && allChars f s'
  end.

Definition notBracket (c : ascii) : bool := negb (Ascii.eqb c "<").
Definition isNotQuote (c : ascii) : bool := negb (Ascii.eqb c dq).

(** The shape the patterns for [create_file] and [create_folder] share. *)
Definition pathRegex (opening : string) : regex :=
  seqs [lit opening; Plus space; lit "path="; Chr dq;
        Group 1 (Plus notQuote); Chr dq; Star space; lit "/>"].

(** A marker as the system prompt asks the model to write it. *)
Definition pathMarker (opening path : string) : string :=
  opening +:+ " path=" +:+ String dq (path +:+ String dq " />").

Definition createFileMarker (path : string) : string :=
  pathMarker "<action:create_file" path.

Definition createFolderMarker (path : string) : string :=
  pathMarker "<action:create_folder" path.

Definition installMarker (packages : string) : string :=
  "<action:install_package packages=" +:+ String dq (packages +:+ String dq " />").

Definition runScriptMarker (script : string) : string :=
  "<action:run_script script=" +:+ String dq (script +:+ String dq " />").

Definition runScriptArgsMarker (script args : string) : string :=
  "<action:run_script script="
  +:+ String dq (script +:+ String dq (" args=" +:+ String dq (args +:+ String dq " />"))).

Definition installDevMarker (packages : string) : string :=
  "<action:install_package packages="
  +:+ String dq (packages +:+ String dq (" dev=" +:+ String dq ("true" +:+ String dq " />"))).

(** ** Summaries *)

Definition isInstall (action : ActionRequest) : bool :=
  match type action with install_package => true | _ => false end.

Definition isCreateFile (action : ActionRequest) : bool :=
  match type action with create_file => true | _ => false end.

Definition isCreateFolder (action : ActionRequest) : bool :=
  match type action with create_folder => true | _ => false end.

(** A request whose [params] have one of the shapes the parser builds. *)
Definition parserShaped (action : ActionRequest) : bool :=
  match params action with OtherParams => false | _ => true end.

(** A list that is only there once something was pushed to it. *)
Definition pushed (present : bool) (entries : list string) : option (list string) :=
  if present then Some entries else None.

(** A request to the model whose user prompt states the task and shows
    the selected code; any other event. *)
Definition briefed (config : SmartAgentConfig) (e : Event) : Prop :=
  match e with
  | ModelRequest _ prompt =>
      Js.includes prompt ("Task: " +:+ userPrompt config) = true /\
      Js.includes prompt ("Selected Code:" +:+ nl1 +:+ selectedCode config) = true
  | _ => True
  end.

(** What a result says about the web search, given what step 2.5 left. *)
Definition searchReported (prepared : Prepared) (r : SmartAgentResult) : Prop :=
  webSearchUsed r = Some (searchFound (webSearchResult prepared)) /\
  webSearchQuery r = option_map query (searchRequest prepared) /\
  webSearchDetails r
  = buildWebSearchDetails (webSearchResult prepared) (searchRequest prepared) /\
  webSearchResults r
  = Some (match webSearchResult prepared with
          | Some found => length (results found)
          | None => O
          end).

(** ** Hosts *)

Section Hosts.
Context `{AgentHost} `{!ActionHost} `{!CodeValidator.TypeScript}.

(** The model answers every request with [output]. *)
Definition answers (output : string) : Prop :=
  forall key name systemPrompt userPrompt w,
    exists w', callAI key name systemPrompt userPrompt w = (Returned (Some output), w').

(** Every request to the model throws [e]. *)
Definition alwaysThrows (e : string) : Prop :=
  forall key name systemPrompt userPrompt w,
    exists w', callAI key name systemPrompt userPrompt w = (Thrown e, w').

(** The model returns, but no text. *)
Definition answersNothing : Prop :=
  forall key name systemPrompt userPrompt w,
    exists answer w', callAI key name systemPrompt userPrompt w = (Returned answer, w') /\
                      truthy answer = false.

(** A web search that the instruction triggers returns. *)
Definition searchReturns (config : SmartAgentConfig) : Prop :=
  forall request, shouldTriggerSearch (userPrompt config) = Some request ->
  forall w, exists found w', searchWeb request w = (Returned found, w').

(** What a pass makes of an answer [output], by the verdict on it. *)
Definition passed (config : SmartAgentConfig) (output : string) (vars : LoopVars)
    (out : Next * LoopVars) : Prop :=
  let cleaned := Clean.cleanCodeResponse output in
  let v := CV.validateCode cleaned (basename (currentFile config)) in
  let kept := mkLoopVars (retryCount vars) (Some v) in
  (validationEnabled config = false /\
   exists r, out = (Return r, vars) /\ success r = true /\
             code r = Some cleaned /\ retries r = Some 0 /\
             validated r = Some false) \/
  (validationEnabled config = true /\ CV.isValid v = true /\
   exists r, out = (Return r, kept) /\ success r = true /\
             code r = Some cleaned /\ retries r = Some (retryCount vars) /\
             validated r = Some true /\
             validationScore r = Some (CV.score v)) \/
  (validationEnabled config = true /\ CV.isValid v = false /\
   retryCount vars < effectiveMaxRetries config /\
   out = (Continue, mkLoopVars (retryCount vars + 1) (Some v))) \/
  (validationEnabled config = true /\ CV.isValid v = false /\
   effectiveMaxRetries config <= retryCount vars /\
   exists r, out = (Return r, kept) /\ success r = false /\
             code r = Some cleaned /\ retries r = Some (retryCount vars) /\
             validated r = Some false /\
             validationErrors r = Some (map CV.message (CV.errors v)) /\
             error r = Some ("Code validation failed after "
                             +:+ showZ (effectiveMaxRetries config)
                             +:+ " retries: " +:+ CV.getErrorSummary v)).

(** A request of the run's workspace whose kind the settings allow. *)
Definition permitted (config : SmartAgentConfig) (action : ActionRequest) : Prop :=
  SmartAgent.workspacePath config = Some (AutonomousActions.workspacePath action) /\
  exists w, isActionAllowed (getActionConfig (getConfiguration w)) (type action) = true.

(** What a result says about the side effects: [actionsExecuted] holds
    permitted requests only, [changesMade] is built from that list, and
    [actionsSummary] is the summary of an executor that recorded the
    same list. *)
Definition recorded (config : SmartAgentConfig) (r : SmartAgentResult) : Prop :=
  exists acts,
    actionsExecuted r = Some acts /\
    changesMade r = Some (buildChangesMade acts) /\
    match actionsSummary r with
    | Some text => exists ex, text = getSummary ex /\ executedActions ex = acts
    | None => acts = []
    end /\
    Forall (permitted config) acts.

(** A request of the run's workspace whose kind the settings read in
    the world [w] allow. *)
Definition permittedAt (config : SmartAgentConfig) (w : World) (action : ActionRequest)
    : Prop :=
  SmartAgent.workspacePath config = Some (AutonomousActions.workspacePath action) /\
  isActionAllowed (getActionConfig (getConfiguration w)) (type action) = true.

(** What a result says about the side effects when the executor was
    created in the world [w]: [actionsExecuted] holds requests that the
    settings of [w] allow, [changesMade] is built from that list, and
    [actionsSummary] is the summary of an executor that holds the policy
    read in [w] and recorded the same list. *)
Definition recordedAt (config : SmartAgentConfig) (w : World) (r : SmartAgentResult)
    : Prop :=
  exists acts,
    actionsExecuted r = Some acts /\
    changesMade r = Some (buildChangesMade acts) /\
    match actionsSummary r with
    | Some text =>
        exists ex, text = getSummary ex /\ executedActions ex = acts /\
                   AutonomousActions.config ex = getActionConfig (getConfiguration w)
    | None => acts = []
    end /\
    Forall (permittedAt config w) acts.

(** One pass of the loop after which the loop goes on: the pass ended
    with [continue], or it threw with a retry left. *)
Inductive retried (config : SmartAgentConfig) (startTime : Z) (prepared : Prepared)
    : LoopVars * State -> LoopVars * State -> Prop :=
| retried_continue vars s vars' s' :
    retryCount vars <= effectiveMaxRetries config ->
    attempt config startTime prepared vars s = (Returned (Continue, vars'), s') ->
    retried config startTime prepared (vars, s) (vars', s')
| retried_caught vars s e s' :
    retryCount vars < effectiveMaxRetries config ->
    attempt config startTime prepared vars s = (Thrown e, s') ->
    retried config startTime prepared (vars, s)
      (mkLoopVars (retryCount vars + 1) (lastValidationResult vars),
       snd (emit (Progress ("Error occurred, retrying ("
                            +:+ showZ (retryCount vars + 1) +:+ "/"
                            +:+ showZ (effectiveMaxRetries config) +:+ ")...")) s')).

(** The loop gets from one pair of variables and state to another. *)
Inductive reaches (config : SmartAgentConfig) (startTime : Z) (prepared : Prepared)
    : LoopVars * State -> LoopVars * State -> Prop :=
| reaches_here x : reaches config startTime prepared x x
| reaches_step x y z :
    retried config startTime prepared x y ->
    reaches config startTime prepared y z ->
    reaches config startTime prepared x z.

(** The last pass of the run from [s] that returned [r] and ended in
    [s']: the run got to the state [s0]; the pass made there returned
    [r] and ended in [s']; its request to the model, the last one in the
    trace of the run, had the prompts [systemPrompt] and [userPrompt];
    and in the world of [s0] the model answered it with [output],
    leaving the world [w']. *)
Definition lastPass (config : SmartAgentConfig) (s : State) (r : SmartAgentResult)
    (vars : LoopVars) (s' s0 : State) (systemPrompt userPrompt output : string)
    (w' : World) : Prop :=
  exists prepared s1 vars0 msg t,
    prepare config s = (Returned prepared, s1) /\
    reaches config (now (world s)) prepared (mkLoopVars 0 None, s1) (vars0, s0) /\
    attempt config (now (world s)) prepared vars0 s0 = (Returned (Return r, vars), s') /\
    trace s' = trace s0 ++ Progress msg :: ModelRequest systemPrompt userPrompt :: t /\
    modelInvocations t = O /\
    callAI (apiKey config) (model config) systemPrompt userPrompt (world s0)
    = (Returned (Some output), w').

(** Steps 1 and 2 of [executeSmartAgent]: the analysis of the task and
    the project context. *)
Definition loadContext (config : SmartAgentConfig) : M (option ProjectCache) :=
  bind (emit (Progress "Analyzing task complexity...")) (fun _ =>
  let analysis := analyzeTaskComplexity (userPrompt config) (selectedCode config) in
  bind (emit (ConsoleLog ("Task analysis: " +:+ complexityName (complexity analysis)
                          +:+ " complexity, " +:+ modeName (mode analysis) +:+ " mode")))
    (fun _ =>
  match SmartAgent.workspacePath config with
  | Some path =>
      if needsContext analysis && negb (Js.isEmptyStr path)
         && negb (isInstant (mode analysis)) then
        bind (emit (Progress "Loading project context...")) (fun _ =>
        getProjectCache path)
      else ret None
  | None => ret None
  end)).

End Hosts.

End Terms.

(** ** A scripted host, for running the code on concrete inputs

    The world is the clock; every model call takes a second, and the
    [n]-th call is answered with [script n].  Actions always succeed, the
    compiler reports nothing, no web search is triggered, and the
    settings are [settings]. *)

Module Scripted.

Module AA := AutonomousActions.
Module SA := SmartAgent.

(** The text from the last dot on. *)
Fixpoint afterLastDot (s : string) (found : option string) : option string :=
  match s with
  | EmptyString => found
  | String c s' => afterLastDot s' (if Ascii.eqb c "." then Some s else found)
  end.

Definition platform : Platform :=
  {| World := Z;
     now := fun w => w;
     basename := fun p => p;
     extname := fun p => default EmptyString (afterLastDot p None) |}.

Definition compiler : CodeValidator.TypeScript :=
  {| CodeValidator.parseDiagnostics := fun _ _ => Some [] |}.

Definition done (action : AA.ActionRequest) : AA.ActionResult :=
  AA.mkActionResult true (AA.description action) None None None.

Definition actions (settings : AA.Configuration) : @AA.ActionHost platform :=
  @AA.Build_ActionHost platform
    (fun _ action w => (Returned (done action), w))
    (fun _ w => (true, w))
    (fun _ => settings).

Definition agent (script : Z -> outcome (option string)) : @SA.AgentHost platform :=
  @SA.Build_AgentHost platform
    (fun _ _ _ _ (w : Z) => (script (w / 1000), w + 1000))
    (fun _ => None)
    (fun _ w => (Thrown "no network", w))
    (fun _ _ => EmptyString)
    (fun _ w => (Returned "Project Structure:", w))
    (fun _ w => (Returned "Common Patterns:", w))
    (fun _ w => (Returned "Key Dependencies:", w))
    (fun _ _ _ => "You are an expert AI coding assistant.").

Definition initial : @SA.State platform := SA.mkState (0 : @World platform) ∅ [].

Definition run (settings : AA.Configuration) (script : Z -> outcome (option string))
    (payload : Extension.FixPayload) :=
  @Extension.sendToAIAgent platform (agent script) (actions settings) compiler
    payload "key" initial.

Definition q : string := String AA.ActionParser.dq EmptyString.

(** Scenario D of the specification: an install marker, then code. *)
Definition scenarioD : string :=
  "<action:install_package packages=" +:+ q +:+ "left-pad" +:+ q
  +:+ " dev=" +:+ q +:+ "false" +:+ q +:+ " />" +:+ nl1 +:+ "const x = 1;".


(** An install marker and a script marker, then code. *)
Definition installThenScript : string :=
  "<action:install_package packages=" +:+ q +:+ "left-pad" +:+ q +:+ " />" +:+ nl1
  +:+ "<action:run_script script=" +:+ q +:+ "build" +:+ q +:+ " />" +:+ nl1
  +:+ "const x = 1;".

(** An answer that never passes validation of a text file. *)
Definition unbalanced : string := "f(".

Definition settingsWith (bools : list (string * bool)) (numbers : list (string * Z))
    : AA.Configuration :=
  AA.mkConfiguration
    (fun k => (list_to_map bools : gmap string bool) !! k)
    (fun k => (list_to_map numbers : gmap string Z) !! k)
    (fun _ => None).

Definition payload (file instruction selected : string) : Extension.FixPayload :=
  Extension.mkFixPayload file file (Some "/project") instruction selected selected.

End Scripted.

(** ** Concrete inputs *)

Module Samples.
Import AutonomousActions SmartAgent Terms.

(** A model that is never asked. *)
Definition silent (n : Z) : outcome (option string) := Thrown "unused".

(** A long instruction with a trivial and two substantial keywords, on a
    selection of twelve lines. *)
Definition longInstruction : string :=
  "Please FIX TYPO in the header, then implement the parser and rewrite the whole module so that it is easier to read and to maintain".

Definition twelveLines : string :=
  String.concat nl1 ["a"; "b"; "c"; "d"; "e"; "f"; "g"; "h"; "i"; "j"; "k"; "l"].

(** A first read of the cache at time 0 builds the snapshot; a second
    read one millisecond before it expires. *)
Definition firstRead : outcome (option ProjectCache) * @State Scripted.platform :=
  @getProjectCache Scripted.platform (Scripted.agent silent)
    "/project" Scripted.initial.

Definition snapshot : ProjectCache :=
  mkProjectCache "Project Structure:" "Common Patterns:" "Key Dependencies:" 0.

Definition secondState : @State Scripted.platform :=
  mkState (299999 : @World Scripted.platform) (projectCaches (snd firstRead)) [].

(** The requests the parser builds from the sample answers, and the same
    requests once step 4 has set their workspace. *)
Definition installLeftPad : ActionRequest :=
  mkActionRequest install_package "Install packages: left-pad"
    (InstallParams ["left-pad"] false) EmptyString.

Definition createFileA : ActionRequest :=
  mkActionRequest create_file "Create file: src/a.ts"
    (CreateFileParams "src/a.ts" EmptyString) EmptyString.

Definition installInProject : ActionRequest :=
  mkActionRequest install_package "Install packages: left-pad"
    (InstallParams ["left-pad"] false) "/project".





(** The marker of [Scripted.scenarioD], as the parser matches it. *)
Definition scenarioMarker : string :=
  "<action:install_package packages=" +:+ Scripted.q +:+ "left-pad" +:+ Scripted.q
  +:+ " dev=" +:+ Scripted.q +:+ "false" +:+ Scripted.q +:+ " />".

(** Scenario D of the specification with package install switched off,
    on a text file. *)
Definition installOff : Configuration :=
  Scripted.settingsWith [("allowPackageInstall", false)] [].

Definition scenarioRun :=
  Scripted.run installOff (fun _ => Returned (Some Scripted.scenarioD))
    (Scripted.payload "notes.txt" "fix typo" "const x = 0;").

(** Scenario B of the specification: the first answer is unbalanced, the
    second is accepted. *)
Definition secondAnswerGood (n : Z) : outcome (option string) :=
  if n =? 0 then Returned (Some Scripted.unbalanced) else Returned (Some "f()").

Definition scenarioB :=
  Scripted.run noConfiguration secondAnswerGood
    (Scripted.payload "notes.txt" "fix typo" "f(").

(** [maxRetries] set to 0 in the settings, and a model whose answers
    never pass validation. *)
Definition zeroRetries : Configuration := Scripted.settingsWith [] [("maxRetries", 0)].

Definition zeroRetriesPayload : Extension.FixPayload :=
  Scripted.payload "notes.txt" "fix typo" "f()".

Definition zeroRetriesRun :=
  Scripted.run zeroRetries (fun _ => Returned (Some Scripted.unbalanced))
    zeroRetriesPayload.


(** Ten Python statements without their colon. *)
Definition tenBadLines : string :=
  String.concat nl1 (repeat "if x" 10).

(** A Python text of comments and blank lines. *)
Definition commentsOnly : string :=
  "# one" +:+ nl1 +:+ "   " +:+ nl1 +:+ "  # two" +:+ nl1.

(** A verdict with two errors. *)
Definition twoErrors : CodeValidator.ValidationResult :=
  @CodeValidator.validateCode Scripted.compiler Scripted.platform
    ("if x" +:+ nl1 +:+ "while y = 1:") "a.py".

(** The configuration [sendToAIAgent] builds for a text file under the
    default settings, and three models: one whose answers never pass
    validation, one that is unreachable, one that returns nothing. *)
Definition textConfig : SmartAgentConfig :=
  Extension.agentConfig (Scripted.payload "notes.txt" "fix typo" "f(") "key"
    noConfiguration.

Definition alwaysUnbalanced (n : Z) : outcome (option string) :=
  Returned (Some Scripted.unbalanced).

Definition alwaysBalanced (n : Z) : outcome (option string) :=
  Returned (Some "f()").

Definition unreachable (n : Z) : outcome (option string) :=
  Thrown "Error: 503".

Definition mute (n : Z) : outcome (option string) := Returned None.

(** A model whose answer asks for an install and for a script. *)
Definition installer (n : Z) : outcome (option string) :=
  Returned (Some Scripted.installThenScript).

(** Scenario D as a run of [executeSmartAgent]: its configuration and
    its model. *)
Definition scenarioConfig : SmartAgentConfig :=
  Extension.agentConfig (Scripted.payload "notes.txt" "fix typo" "const x = 0;") "key"
    installOff.

Definition scenarioModel (n : Z) : outcome (option string) :=
  Returned (Some Scripted.scenarioD).

(** The settings with [cacheDuration] set to one minute, and the state
    two minutes after the snapshot of [firstRead] was built. *)
Definition oneMinute : Configuration := Scripted.settingsWith [] [("cacheDuration", 1)].

Definition twoMinutesLater : @State Scripted.platform :=
  mkState (120000 : @World Scripted.platform) (projectCaches (snd firstRead)) [].

(** A host whose web search is triggered by every instruction and finds
    two results, the second without a source. *)
Definition finder : @AgentHost Scripted.platform :=
  @Build_AgentHost Scripted.platform
    (fun _ _ _ _ (w : Z) => (Returned (Some "f()"), w + 1000))
    (fun instruction => Some (mkSearchRequest "docs" instruction))
    (fun _ w => (Returned (mkWebSearchResult true [Some "mdn"; None]), w))
    (fun _ _ => EmptyString)
    (fun _ w => (Returned "Project Structure:", w))
    (fun _ w => (Returned "Common Patterns:", w))
    (fun _ w => (Returned "Key Dependencies:", w))
    (fun _ _ _ => "You are an expert AI coding assistant.").

End Samples.

(** * Properties *)

(** ** The matcher only moves forward *)

Module ReFacts.
Import Re Terms.

Lemma ahead_refl x : ahead false x x.
Proof. repeat split; [lia | discriminate]. Qed.

Lemma ahead_trans a b x y z :
  ahead a x y -> ahead b y z -> ahead (a || b) x z.
Proof.
  intros (E1 & L1 & S1) (E2 & L2 & S2). repeat split; [congruence | lia |].
  intros Hab. apply orb_true_iff in Hab as [->| ->].
  - specialize (S1 eq_refl). lia.
  - specialize (S2 eq_refl). lia.
Qed.

Lemma ahead_weaken a x y : ahead a x y -> ahead false x y.
Proof. intros (E & L & _). repeat split; [assumption | assumption | discriminate]. Qed.

Lemma step1_ahead p x k z :
  step1 p x k = Some z ->
  exists y, k y = Some z /\ ahead true (fst x) (fst y).
Proof.
  unfold step1. destruct x as [[i pv s] cs]; simpl.
  destruct s as [|c s']; [discriminate|].
  destruct (p c); [|discriminate].
  intros Hk. eexists; split; [exact Hk|].
  unfold ahead, extent; simpl. repeat split; lia.
Qed.

Lemma rmatch_ahead r :
  forall x k z, rmatch r x k = Some z ->
  exists y, k y = Some z /\ ahead (consuming r) (fst x) (fst y).
Proof.
  induction r as [ |c|c|p|m|m|r1 IH1 r2 IH2|r1 IH1 r2 IH2|r1 IH1|r1 IH1|n r1 IH1];
    intros x k z Hm; simpl in Hm.
  - exists x; split; [assumption | apply ahead_refl].
  - apply step1_ahead in Hm. exact Hm.
  - apply step1_ahead in Hm. exact Hm.
  - apply step1_ahead in Hm. exact Hm.
  - destruct (atBol m (fst x)); [|discriminate].
    exists x; split; [assumption | apply ahead_refl].
  - destruct (atEol m (fst x)); [|discriminate].
    exists x; split; [assumption | apply ahead_refl].
  - apply IH1 in Hm as (y1 & Hm & A1). apply IH2 in Hm as (y2 & Hk & A2).
    exists y2; split; [assumption|]. simpl. eapply ahead_trans; eassumption.
  - simpl. unfold orElse in Hm.
    destruct (rmatch r1 x k) as [z1|] eqn:E1.
    + inversion Hm; subst z1. apply IH1 in E1 as (y & Hk & (E & L & S)).
      exists y; split; [assumption|]. repeat split; try assumption.
      intros Hb. apply andb_true_iff in Hb as [Hb _]. auto.
    + apply IH2 in Hm as (y & Hk & (E & L & S)).
      exists y; split; [assumption|]. repeat split; try assumption.
      intros Hb. apply andb_true_iff in Hb as [_ Hb]. auto.
  - simpl. remember (String.length (rest (fst x))) as n eqn:Hn. clear Hn.
    revert x Hm. induction n as [|n IHn]; intros x Hm.
    + exists x; split; [assumption | apply ahead_refl].
    + unfold orElse in Hm.
      match type of Hm with
      | match ?t with _ => _ end = _ => destruct t as [z1|] eqn:E1
      end.
      * inversion Hm; subst z1. apply IH1 in E1 as (y1 & Hy & A1).
        destruct (Nat.ltb (pos (fst x)) (pos (fst y1))); [|discriminate].
        apply IHn in Hy as (y & Hk & A2).
        exists y; split; [assumption|].
        apply ahead_weaken in A1.
        exact (ahead_trans _ _ _ _ _ A1 A2).
      * exists x; split; [assumption | apply ahead_refl].
  - simpl. remember (String.length (rest (fst x))) as n eqn:Hn. clear Hn.
    revert x Hm. induction n as [|n IHn]; intros x Hm.
    + unfold orElse in Hm. destruct (k x) as [z1|] eqn:E1; [|discriminate].
      exists x; split; [congruence | apply ahead_refl].
    + unfold orElse in Hm. destruct (k x) as [z1|] eqn:E1.
      * exists x; split; [congruence | apply ahead_refl].
      * apply IH1 in Hm as (y1 & Hy & A1).
        destruct (Nat.ltb (pos (fst x)) (pos (fst y1))); [|discriminate].
        apply IHn in Hy as (y & Hk & A2).
        exists y; split; [assumption|].
        apply ahead_weaken in A1.
        exact (ahead_trans _ _ _ _ _ A1 A2).
  - apply IH1 in Hm as (y & Hk & A). eexists; split; [exact Hk|]. exact A.
Qed.

Lemma matchAt_ahead r c m :
  matchAt r c = Some m ->
  index m = pos c /\ ahead (consuming r) c (stop m).
Proof.
  unfold matchAt. destruct (rmatch r (c, []) Some) as [[e cs]|] eqn:E; [|discriminate].
  intros Hm; inversion Hm; subst m; simpl.
  apply rmatch_ahead in E as (y & Hy & A). inversion Hy; subst y.
  split; [reflexivity | exact A].
Qed.

(** A match found at or after [c] starts at or after [c] and ends in
    the same subject, after its start when the pattern is consuming. *)
Lemma search_ahead r c m :
  search r c = Some m ->
  (pos c <= index m)%nat /\ (index m <= pos (stop m))%nat /\
  (consuming r = true -> (index m < pos (stop m))%nat) /\
  extent (stop m) = extent c.
Proof.
  unfold search. destruct c as [i p s]; simpl.
  revert i p. induction s as [|ch s IH]; intros i p Hs; simpl in Hs.
  - destruct (matchAt r (Cursor i p EmptyString)) as [m'|] eqn:E; [|discriminate].
    inversion Hs; subst m'. apply matchAt_ahead in E as (Hi & E & L & S).
    simpl in *. rewrite Hi. repeat split; auto; lia.
  - destruct (matchAt r (Cursor i p (String ch s))) as [m'|] eqn:E.
    + inversion Hs; subst m'. apply matchAt_ahead in E as (Hi & E & L & S).
      simpl in *. rewrite Hi. repeat split; auto; lia.
    + apply IH in Hs as (L & L' & S & E'). unfold extent in *; simpl in *.
      repeat split; auto; lia.
Qed.

(** The [exec] loop of a consuming pattern ends: one call more than the
    code units left is enough. *)
Lemma execLoop_total r (Hr : consuming r = true) :
  forall fuel c, (String.length (rest c) < fuel)%nat ->
  exists ms, execLoop fuel r c = Some ms /\ ascending (pos c) ms.
Proof.
  induction fuel as [|fuel IH]; intros c Hc; [lia|]. simpl.
  destruct (search r c) as [m|] eqn:E.
  - apply search_ahead in E as (L & L' & S & Ex). specialize (S Hr).
    destruct (IH (stop m)) as (ms & Hms & Hasc).
    { unfold extent in Ex. lia. }
    rewrite Hms. exists (m :: ms). split; [reflexivity|]. simpl. auto.
  - exists []. split; [reflexivity | exact I].
Qed.

End ReFacts.

(** ** The action parser *)

Module ParserFacts.
Import Re ReFacts AutonomousActions AutonomousActions.ActionParser Terms.

Lemma patterns_consuming :
  Forall (fun p => consuming (regex_of p) = true) actionPatterns.
Proof. repeat constructor. Qed.

Lemma matchesOf_total p aiResponse :
  consuming (regex_of p) = true ->
  exists ms, matchesOf p aiResponse = Some ms /\ ascending 0 ms.
Proof.
  intros Hp. unfold matchesOf.
  apply (execLoop_total _ Hp (S (String.length aiResponse)) (start aiResponse)).
  simpl. lia.
Qed.



(** The parser as four lists, one per pattern. *)
Lemma parseActionsFuel_groups aiResponse :
  exists installs files folders scripts,
    matchesOf installPattern aiResponse = Some installs /\
    matchesOf createFilePattern aiResponse = Some files /\
    matchesOf createFolderPattern aiResponse = Some folders /\
    matchesOf runScriptPattern aiResponse = Some scripts /\
    ascending 0 installs /\ ascending 0 files /\
    ascending 0 folders /\ ascending 0 scripts /\
    parseActionsFuel (S (String.length aiResponse)) aiResponse =
      Some (map (requestOf installPattern) installs
            ++ map (requestOf createFilePattern) files
            ++ map (requestOf createFolderPattern) folders
            ++ map (requestOf runScriptPattern) scripts).
Proof.
  destruct (matchesOf_total installPattern aiResponse eq_refl) as (ms1 & E1 & A1).
  destruct (matchesOf_total createFilePattern aiResponse eq_refl) as (ms2 & E2 & A2).
  destruct (matchesOf_total createFolderPattern aiResponse eq_refl) as (ms3 & E3 & A3).
  destruct (matchesOf_total runScriptPattern aiResponse eq_refl) as (ms4 & E4 & A4).
  exists ms1, ms2, ms3, ms4. repeat (split; [assumption|]).
  unfold parseActionsFuel, actionPatterns, parseLoop.
  unfold matchesOf in E1, E2, E3, E4. rewrite E1, E2, E3, E4.
  simpl. rewrite <- !app_assoc. reflexivity.
Qed.

(** The loops of [parseActions] end within the fuel it is given. *)
Lemma parseActions_fuel aiResponse :
  parseActionsFuel (S (String.length aiResponse)) aiResponse
  = Some (parseActions aiResponse).
Proof.
  destruct (parseActionsFuel_groups aiResponse)
    as (ms1 & ms2 & ms3 & ms4 & _ & _ & _ & _ & _ & _ & _ & _ & E).
  unfold parseActions. rewrite E. reflexivity.
Qed.

End ParserFacts.

(** ** The executor and the batch of one attempt *)

Module ActionFacts.
Import AutonomousActions SmartAgent Terms.

Lemma modelInvocations_app t u :
  modelInvocations (t ++ u) = (modelInvocations t + modelInvocations u)%nat.
Proof. unfold modelInvocations. rewrite List.filter_app, length_app. reflexivity. Qed.

Lemma modelInvocations_reports actions outcomes :
  modelInvocations (reports actions outcomes) = O.
Proof.
  revert outcomes. induction actions as [|a actions IH]; intros [|r outcomes];
    try reflexivity.
  simpl. unfold modelInvocations in *. simpl.
  unfold reportOf at 1. destruct (AutonomousActions.success r); simpl; apply IH.
Qed.

Section WithHost.
Context `{AgentHost} `{!ActionHost} `{!CodeValidator.TypeScript}.

Lemma execute_keeps_config action self w :
  config (snd (fst (execute action self w))) = config self /\
  executorPath (snd (fst (execute action self w))) = executorPath self.
Proof.
  unfold execute.
  destruct (negb (isActionAllowed (config self) (type action))); [auto|].
  destruct (if requireConfirmation (config self) then requestConfirmation action w
            else (true, w)) as [confirmed w1].
  destruct (negb confirmed); [auto|].
  destruct (perform (executorPath self) action w1) as [[result|e] w2]; [|auto].
  destruct (AutonomousActions.success result); auto.
Qed.

Lemma execute_denied action self w :
  isActionAllowed (config self) (type action) = false ->
  execute action self w = (denied action, self, w).
Proof. intros Hd. unfold execute. rewrite Hd. reflexivity. Qed.

(** A request that succeeded is appended to [executedActions] of the
    executor; any other leaves it as it was. *)
Lemma execute_tracks action self w :
  executedActions (snd (fst (execute action self w))) =
  if AutonomousActions.success (fst (fst (execute action self w)))
  then executedActions self ++ [action] else executedActions self.
Proof.
  unfold execute.
  destruct (negb (isActionAllowed (config self) (type action))); [reflexivity|].
  destruct (if requireConfirmation (config self) then requestConfirmation action w
            else (true, w)) as [confirmed w1].
  destruct (negb confirmed); [reflexivity|].
  destruct (perform (executorPath self) action w1) as [[result|e] w2]; [|reflexivity].
  simpl. destruct (AutonomousActions.success result); reflexivity.
Qed.

(** The loop of step 4 never throws and never stops early: every request
    of the batch gets a result, in order; the results that succeeded go
    to [executedActions], the others to the console only; a request of a
    disabled kind gets the result [denied]. *)
Lemma executeActions_spec workspace :
  forall batch actionExecutor executedActions s,
  exists outcomes actionExecutor' s',
    executeActions workspace batch actionExecutor executedActions s
      = (Returned (actionExecutor',
                   executedActions
                   ++ succeeded (map (inWorkspace workspace) batch) outcomes), s') /\
    handled workspace batch outcomes actionExecutor (world s)
      actionExecutor' (world s') /\
    length outcomes = length batch /\
    trace s' = trace s ++ reports (map (inWorkspace workspace) batch) outcomes /\
    projectCaches s' = projectCaches s /\
    config actionExecutor' = config actionExecutor /\
    AutonomousActions.executedActions actionExecutor'
      = AutonomousActions.executedActions actionExecutor
        ++ succeeded (map (inWorkspace workspace) batch) outcomes /\
    Forall2 (fun action result =>
               isActionAllowed (config actionExecutor) (type action) = false ->
               result = denied action) batch outcomes.
Proof.
  induction batch as [|action batch IH]; intros ex acc s.
  - exists [], ex, s. simpl. unfold ret. rewrite !app_nil_r.
    repeat split; auto.
  - simpl. unfold bind at 1. unfold ask.
    fold (inWorkspace workspace action).
    pose proof (execute_keeps_config (inWorkspace workspace action) ex (world s)) as [Hc _].
    pose proof (execute_tracks (inWorkspace workspace action) ex (world s)) as Ht.
    pose proof (execute_denied (inWorkspace workspace action) ex (world s)) as Hd.
    destruct (execute (inWorkspace workspace action) ex (world s))
      as [[r ex1] w1] eqn:Hexec.
    simpl in Hc, Ht, Hd.
    destruct (AutonomousActions.success r) eqn:Hr.
    + unfold bind at 1, emit at 1.
      match goal with
      | |- context [executeActions workspace batch ex1 ?a ?st] =>
          destruct (IH ex1 a st) as (outs & ex' & s' & E & R & L & T & C & K & X & D)
      end.
      exists (r :: outs), ex', s'. simpl in R, T, C. rewrite E. simpl. rewrite Hr.
      rewrite <- !app_assoc. simpl.
      repeat split; auto.
      * exists ex1, w1. split; [reflexivity | exact R].
      * rewrite T. rewrite <- app_assoc. simpl. unfold reportOf. rewrite Hr. reflexivity.
      * congruence.
      * rewrite X, Ht, <- app_assoc. reflexivity.
      * constructor.
        -- intros Hn. specialize (Hd Hn). inversion Hd; subst. discriminate.
        -- rewrite Hc in D. exact D.
    + unfold bind at 1, emit at 1.
      match goal with
      | |- context [executeActions workspace batch ex1 ?a ?st] =>
          destruct (IH ex1 a st) as (outs & ex' & s' & E & R & L & T & C & K & X & D)
      end.
      exists (r :: outs), ex', s'. simpl in R, T, C. rewrite E. simpl. rewrite Hr.
      repeat split; auto.
      * exists ex1, w1. split; [reflexivity | exact R].
      * rewrite T. rewrite <- app_assoc. simpl. unfold reportOf. rewrite Hr. reflexivity.
      * congruence.
      * rewrite X, Ht. reflexivity.
      * constructor.
        -- intros Hn. specialize (Hd Hn). inversion Hd; subst. reflexivity.
        -- rewrite Hc in D. exact D.
Qed.

End WithHost.
End ActionFacts.

(** ** The retry loop *)

Module LoopFacts.
Import AutonomousActions SmartAgent Terms ActionFacts.

Section WithHost.
Context `{AgentHost} `{!ActionHost} `{!CodeValidator.TypeScript}.
Variable config : SmartAgentConfig.
Variable startTime : Z.
Variable prepared : Prepared.

Lemma emit_invocations e s :
  modelInvocations (trace (snd (emit e s)))
  = (modelInvocations (trace s) + (if isModelRequest e then 1 else 0))%nat.
Proof.
  unfold emit; simpl. rewrite modelInvocations_app. unfold modelInvocations; simpl.
  destruct (isModelRequest e); reflexivity.
Qed.

Lemma modelInvocations_progress msg : modelInvocations [Progress msg] = O.
Proof. reflexivity. Qed.

(** Step 4 returns, and sends nothing to the model. *)
Lemma runActions_spec code s :
  exists actionExecutor executedActions s',
    runActions config code s = (Returned (actionExecutor, executedActions), s') /\
    modelInvocations (trace s') = modelInvocations (trace s).
Proof.
  unfold runActions.
  destruct (workspacePath config) as [path|]; [|do 3 eexists; split; reflexivity].
  destruct (Js.isEmptyStr path); [do 3 eexists; split; reflexivity|].
  destruct (CV.isEmpty (ActionParser.parseActions code));
    [do 3 eexists; split; reflexivity|].
  unfold bind at 1, emit at 1. unfold bind at 1, ask at 1. unfold bind at 1.
  simpl.
  match goal with
  | |- context [executeActions ?ws ?b ?ex ?acc ?st] =>
      destruct (executeActions_spec ws b ex acc st)
        as (outs & ex' & s' & E & _ & _ & T & _)
  end.
  rewrite E. simpl. do 3 eexists; split; [reflexivity|].
  rewrite T. simpl. rewrite !modelInvocations_app, modelInvocations_reports.
  unfold modelInvocations; simpl. lia.
Qed.

(** What one pass through the body of the loop does: exactly one request
    to the model; [continue] only with a retry left; a [return] carries
    the cleaned answer of the model, and reports success only without
    validation or with a verdict that is valid. *)
Lemma attempt_spec vars s :
  exists systemPrompt userPrompt answer w',
    callAI (apiKey config) (model config) systemPrompt userPrompt (world s)
      = (answer, w') /\
    forall out s', attempt config startTime prepared vars s = (out, s') ->
      invoked s s' /\
      match out with
      | Thrown _ => True
      | Returned (Continue, vars') =>
          validationEnabled config = true /\
          retryCount vars < effectiveMaxRetries config /\
          retryCount vars' = retryCount vars + 1
      | Returned (Return r, vars') =>
          retryCount vars' = retryCount vars /\
          exists output,
            answer = Returned (Some output) /\
            code r = Some (Clean.cleanCodeResponse output) /\
            ((validationEnabled config = false /\ success r = true /\
              retries r = Some 0) \/
             (validationEnabled config = true /\
              retries r = Some (retryCount vars) /\
              exists v, lastValidationResult vars' = Some v /\
                        success r = CV.isValid v /\
                        (CV.isValid v = false ->
                         effectiveMaxRetries config <= retryCount vars)))
      end.
Proof.
  unfold attempt.
  match goal with
  | |- context [bind ?pm _] =>
      assert (Hp : exists up msg, pm s = (Returned up, snd (emit (Progress msg) s)))
  end.
  { destruct (lastValidationResult vars) as [last|].
    - destruct ((0 <? retryCount vars) && negb (CV.isValid last));
        do 2 eexists; unfold bind, emit, ret; simpl; reflexivity.
    - do 2 eexists; unfold bind, emit, ret; simpl; reflexivity. }
  destruct Hp as (up & msg & Hp).
  unfold bind at 1. rewrite Hp. clear Hp.
  unfold bind at 1. unfold emit at 1. unfold bind at 1. unfold call at 1.
  simpl.
  match goal with
  | |- context [callAI ?a ?b ?c ?d ?w] =>
      exists c, d; destruct (callAI a b c d w) as [answer w'] eqn:Hcall
  end.
  exists answer, w'. split; [reflexivity|].
  assert (Hinv : forall st : State,
            modelInvocations (trace st)
            = modelInvocations ((trace s ++ [Progress msg])
                                ++ [ModelRequest (getSmartSystemPrompt (mode (analysis prepared)) (cache prepared) (webSearchEnabled config)) up]) ->
            invoked s st).
  { intros st Hst. unfold invoked. rewrite Hst, !modelInvocations_app.
    unfold modelInvocations; simpl. lia. }
  destruct answer as [answer|e].
  2:{ intros out s' Hrun. inversion Hrun; subst. split; [|exact I].
      apply Hinv. reflexivity. }
  destruct (negb (truthy answer)) eqn:Htruthy.
  { intros out s' Hrun. inversion Hrun; subst. split; [|exact I].
    apply Hinv. reflexivity. }
  destruct answer as [output|]; [|discriminate]. simpl default.
  unfold bind at 1.
  match goal with
  | |- context [runActions config output ?st] =>
      destruct (runActions_spec output st) as (ex & acts & s1 & Hacts & Hcount)
  end.
  rewrite Hacts. simpl in Hcount.
  destruct (validationEnabled config) eqn:Hval.
  - unfold bind at 1, emit at 1. unfold bind at 1, emit at 1. simpl.
    destruct (CV.isValid (CV.validateCode (Clean.cleanCodeResponse output)
                            (basename (currentFile config)))) eqn:Hvalid.
    + intros out s' Hrun. unfold bind, dateNow, ret in Hrun. simpl in Hrun.
      inversion Hrun; subst. split.
      * apply Hinv. simpl. rewrite !modelInvocations_app, Hcount.
        rewrite !modelInvocations_app. unfold modelInvocations; simpl. lia.
      * split; [reflexivity|]. exists output. split; [reflexivity|].
        split; [reflexivity|]. right. split; [reflexivity|].
        split; [reflexivity|]. eexists. split; [reflexivity|].
        simpl. split; [auto|]. intros Hf. congruence.
    + unfold bind at 1, emit at 1. simpl.
      destruct (retryCount vars <? effectiveMaxRetries config) eqn:Hlt.
      * intros out s' Hrun. unfold ret in Hrun. inversion Hrun; subst. split.
        -- apply Hinv. simpl. rewrite !modelInvocations_app, Hcount.
           rewrite !modelInvocations_app. unfold modelInvocations; simpl. lia.
        -- simpl. split; [reflexivity|].
           split; [apply Z.ltb_lt; assumption | reflexivity].
      * intros out s' Hrun. unfold bind, dateNow, ret in Hrun. simpl in Hrun.
        inversion Hrun; subst. split.
        -- apply Hinv. simpl. rewrite !modelInvocations_app, Hcount.
           rewrite !modelInvocations_app. unfold modelInvocations; simpl. lia.
        -- split; [reflexivity|]. exists output. split; [reflexivity|].
           split; [reflexivity|]. right. split; [reflexivity|].
           split; [reflexivity|]. eexists. split; [reflexivity|].
           simpl. split; [auto|]. intros _. apply Z.ltb_ge. assumption.
  - intros out s' Hrun. unfold bind, dateNow, ret in Hrun. simpl in Hrun.
    inversion Hrun; subst. split.
    + apply Hinv. simpl. rewrite Hcount. reflexivity.
    + split; [reflexivity|]. exists output. split; [reflexivity|].
      split; [reflexivity|]. left. repeat split; reflexivity.
Qed.

Lemma retryLoop_spec :
  forall fuel vars s out vars' s',
  retryLoop config startTime prepared fuel vars s = Some (out, vars', s') ->
  retryCount vars <= retryCount vars' /\
  retryCount vars' <= Z.max (retryCount vars) (effectiveMaxRetries config) /\
  (modelInvocations (trace s') <= modelInvocations (trace s) + passesLeft config vars)%nat /\
  match out with
  | Returned r =>
      acceptable config r vars' /\ cleanedAnswer config r /\
      (retries r = Some 0 \/ retries r = Some (retryCount vars'))
  | Thrown _ => True
  end.
Proof.
  induction fuel as [|fuel IH]; intros vars s out vars' s' Hrun; simpl in Hrun.
  - destruct (retryCount vars <=? effectiveMaxRetries config); [discriminate|].
    inversion Hrun; subst. repeat split; try lia.
  - destruct (retryCount vars <=? effectiveMaxRetries config) eqn:Hle.
    2:{ inversion Hrun; subst. repeat split; try lia. }
    apply Z.leb_le in Hle.
    assert (Hleft : (1 <= passesLeft config vars)%nat) by (unfold passesLeft; lia).
    destruct (attempt_spec vars s) as (sp & up & answer & w' & Hcall & Hspec).
    destruct (attempt config startTime prepared vars s) as [[[[|r] vars1]|e] s1] eqn:Hatt.
    + destruct (Hspec _ _ eq_refl) as (Hinv & Hv & Hlt & Hrc).
      apply IH in Hrun as (L1 & L2 & L3 & Hout).
      unfold invoked in Hinv. unfold passesLeft in *.
      repeat split; try lia. exact Hout.
    + inversion Hrun; subst.
      destruct (Hspec _ _ eq_refl) as (Hinv & Hrc & output & Hans & Hcode & Hcase).
      unfold invoked in Hinv.
      repeat split; try lia.
      * intros Hs. destruct Hcase as [(Hv & _ & _)|(Hv & _ & v & Hl & Hsv & _)].
        -- left; assumption.
        -- right. exists v. split; [assumption | congruence].
      * exists sp, up, (world s), w', output. split; [congruence | assumption].
      * destruct Hcase as [(_ & _ & Hr)|(_ & Hr & _)]; [left | right]; congruence.
    + destruct (Hspec _ _ eq_refl) as (Hinv & _). unfold invoked in Hinv.
      destruct (retryCount vars <? effectiveMaxRetries config) eqn:Hlt.
      * apply Z.ltb_lt in Hlt.
        apply IH in Hrun as (L1 & L2 & L3 & Hout).
        simpl in L1, L2, L3. rewrite modelInvocations_app in L3.
        rewrite modelInvocations_progress in L3.
        unfold passesLeft in *. simpl in L3.
        repeat split; try lia. exact Hout.
      * inversion Hrun; subst. repeat split; try lia.
Qed.

(** The loop ends: [passesLeft] passes are always enough. *)
Lemma retryLoop_total :
  forall fuel vars s, (passesLeft config vars <= fuel)%nat ->
  exists x, retryLoop config startTime prepared fuel vars s = Some x.
Proof.
  induction fuel as [|fuel IH]; intros vars s Hfuel; simpl.
  - destruct (retryCount vars <=? effectiveMaxRetries config) eqn:Hle; [|eauto].
    apply Z.leb_le in Hle. unfold passesLeft in Hfuel. lia.
  - destruct (retryCount vars <=? effectiveMaxRetries config) eqn:Hle; [|eauto].
    apply Z.leb_le in Hle.
    destruct (attempt_spec vars s) as (sp & up & answer & w' & Hcall & Hspec).
    destruct (attempt config startTime prepared vars s) as [[[[|r] vars1]|e] s1] eqn:Hatt.
    + destruct (Hspec _ _ eq_refl) as (_ & _ & _ & Hrc).
      apply IH. unfold passesLeft in *. lia.
    + eauto.
    + destruct (retryCount vars <? effectiveMaxRetries config) eqn:Hlt; [|eauto].
      apply IH. unfold passesLeft in *. simpl. lia.
Qed.

End WithHost.
End LoopFacts.

(** ** The project cache *)

Module CacheFacts.
Import SmartAgent Terms ActionFacts.

Section WithHost.
Context `{AgentHost}.

Lemma buildProjectCache_rebuilt path s :
  rebuilt path s (buildProjectCache path s).
Proof.
  unfold rebuilt, buildProjectCache, tryCatch, bind, emit, call, dateNow, cachesSet, ret.
  simpl.
  destruct (buildProjectStructure path (world s)) as [[structure|e] w1]; simpl.
  2:{ do 3 eexists. split; [reflexivity|]. simpl. rewrite <- app_assoc. simpl.
      split; [reflexivity|]. split; reflexivity. }
  destruct (detectCommonPatterns path w1) as [[patterns|e] w2]; simpl.
  2:{ do 3 eexists. split; [reflexivity|]. simpl. rewrite <- app_assoc. simpl.
      split; [reflexivity|]. split; reflexivity. }
  destruct (getDependencies path w2) as [[deps|e] w3]; simpl.
  2:{ do 3 eexists. split; [reflexivity|]. simpl. rewrite <- app_assoc. simpl.
      split; [reflexivity|]. split; reflexivity. }
  do 3 eexists. split; [reflexivity|]. simpl.
  split; [reflexivity|]. split; reflexivity.
Qed.

Lemma getProjectCache_cases path s :
  (exists c, fresh path s c /\ getProjectCache path s = hit c s) \/
  ((forall c, ~ fresh path s c) /\ rebuilt path s (getProjectCache path s)).
Proof.
  pose proof (buildProjectCache_rebuilt path s) as Hbuild.
  unfold getProjectCache, fresh, bind, cachesGet, dateNow. cbv beta iota.
  destruct (projectCaches s !! path) as [c|] eqn:Hlook.
  - destruct (now (world s) - timestamp c <? CACHE_DURATION) eqn:Hage.
    + left. exists c. split; [split; [reflexivity | apply Z.ltb_lt; assumption]|].
      reflexivity.
    + right. split; [|exact Hbuild].
      intros c' [Hc' Hlt]. inversion Hc'; subst c'.
      apply Z.ltb_ge in Hage. lia.
  - right. split; [|exact Hbuild].
    intros c' [Hc' _]. discriminate.
Qed.

(** Reading the cache never throws and sends nothing to the model. *)
Lemma getProjectCache_quiet path s :
  exists out s',
    getProjectCache path s = (Returned out, s') /\
    modelInvocations (trace s') = modelInvocations (trace s).
Proof.
  destruct (getProjectCache_cases path s)
    as [(c & _ & E)|(_ & out & s' & evs & E & T & Q & _)].
  - rewrite E. unfold hit. do 2 eexists. split; [reflexivity|].
    simpl. rewrite modelInvocations_app. unfold modelInvocations; simpl. lia.
  - rewrite E. do 2 eexists. split; [reflexivity|].
    rewrite T, modelInvocations_app.
    change (ConsoleLog "Building project cache..." :: evs)
      with ([ConsoleLog "Building project cache..."] ++ evs).
    rewrite modelInvocations_app, Q. unfold modelInvocations; simpl. lia.
Qed.

End WithHost.
End CacheFacts.

(** ** A whole run *)

Module RunFacts.
Import AutonomousActions SmartAgent Terms ActionFacts LoopFacts CacheFacts.

Section WithHost.
Context `{AgentHost} `{!ActionHost} `{!CodeValidator.TypeScript}.

(** Steps 1 to 2.5 send nothing to the model. *)
Lemma prepare_quiet config s out s' :
  prepare config s = (out, s') ->
  modelInvocations (trace s') = modelInvocations (trace s).
Proof.
  unfold prepare. unfold bind at 1, emit at 1. unfold bind at 1, emit at 1.
  unfold bind at 1. cbv beta iota.
  match goal with
  | |- context [match ?m ?st with _ => _ end] =>
      assert (Hc : exists c s1, m st = (Returned c, s1) /\
                modelInvocations (trace s1) = modelInvocations (trace s))
  end.
  { destruct (workspacePath config) as [path|].
    - destruct (needsContext _ && negb (Js.isEmptyStr path) && negb (isInstant _)).
      + unfold bind at 1, emit at 1.
        match goal with
        | |- context [getProjectCache path ?st] =>
            destruct (getProjectCache_quiet path st) as (c & s1 & E & Q)
        end.
        rewrite E. do 2 eexists. split; [reflexivity|]. rewrite Q. simpl.
        rewrite !modelInvocations_app. unfold modelInvocations; simpl. lia.
      + do 2 eexists. split; [reflexivity|]. simpl.
        rewrite !modelInvocations_app. unfold modelInvocations; simpl. lia.
    - do 2 eexists. split; [reflexivity|]. simpl.
      rewrite !modelInvocations_app. unfold modelInvocations; simpl. lia. }
  destruct Hc as (c & s1 & -> & Q).
  destruct (webSearchEnabled config).
  2:{ intros E; inversion E; subst. exact Q. }
  destruct (shouldTriggerSearch (userPrompt config)) as [request|].
  2:{ intros E; inversion E; subst. exact Q. }
  unfold bind at 1, emit at 1. unfold bind at 1, emit at 1.
  unfold bind at 1, call at 1. simpl.
  destruct (searchWeb request (world s1)) as [[found|e] w1].
  - destruct (searchSuccess found && negb (CV.isEmpty (results found)));
      unfold bind, emit, ret; simpl;
      intros E; inversion E; subst; simpl;
      rewrite !modelInvocations_app, Q; unfold modelInvocations; simpl; lia.
  - intros E; inversion E; subst; simpl.
    rewrite !modelInvocations_app, Q; unfold modelInvocations; simpl; lia.
Qed.

(** What every run guarantees, whatever the fuel. *)
Lemma run_spec fuel config s r vars s' :
  executeSmartAgentFuel fuel config s = Some (r, vars, s') ->
  acceptable config r vars /\
  (code r = None \/ cleanedAnswer config r) /\
  (retries r = Some 0 \/ retries r = Some (retryCount vars)) /\
  0 <= retryCount vars <= Z.max 0 (effectiveMaxRetries config) /\
  (modelInvocations (trace s') <= modelInvocations (trace s) + passes config)%nat.
Proof.
  unfold executeSmartAgentFuel.
  destruct (prepare config s) as [[prepared|e] s1] eqn:Hprep.
  - apply prepare_quiet in Hprep.
    destruct (retryLoop config (now (world s)) prepared fuel (mkLoopVars 0 None) s1)
      as [[[[r1|e] vars1] s2]|] eqn:Hloop; [| |discriminate].
    + intros E; inversion E; subst.
      apply retryLoop_spec in Hloop as (L1 & L2 & L3 & Ha & Hc & Hr).
      simpl in L1, L2. unfold passesLeft in L3. simpl in L3. unfold passes.
      rewrite Z.sub_0_r in L3.
      repeat split; auto; lia.
    + intros E; inversion E; subst.
      apply retryLoop_spec in Hloop as (L1 & L2 & L3 & _).
      simpl in L1, L2. unfold passesLeft in L3. simpl in L3. unfold passes.
      rewrite Z.sub_0_r in L3. simpl.
      rewrite modelInvocations_app. unfold modelInvocations at 2; simpl.
      repeat split; auto; try lia. intros Hs; discriminate.
  - apply prepare_quiet in Hprep.
    intros E; inversion E; subst. simpl.
    rewrite modelInvocations_app. unfold modelInvocations at 2; simpl.
    repeat split; auto; try lia. intros Hs; discriminate.
Qed.

(** Every run ends. *)
Lemma run_total config s : exists x, executeSmartAgent config s = Some x.
Proof.
  unfold executeSmartAgent, executeSmartAgentFuel.
  destruct (prepare config s) as [[prepared|e] s1]; [|eauto].
  destruct (retryLoop_total config (now (world s)) prepared (passes config)
              (mkLoopVars 0 None) s1) as (x & Hx).
  { unfold passesLeft, passes. simpl. rewrite Z.sub_0_r. lia. }
  rewrite Hx. destruct x as [[[r|e] vars] s2]; eauto.
Qed.

End WithHost.
End RunFacts.

(** ** Strings *)

Module JsFacts.
Import Js.

Lemma append_cons c (a b : string) : String c a +:+ b = String c (a +:+ b).
Proof. reflexivity. Qed.

Lemma append_nil (b : string) : EmptyString +:+ b = b.
Proof. reflexivity. Qed.

Lemma startsWith_append k post : startsWith (k +:+ post) k = true.
Proof.
  induction k as [|c k IH].
  - rewrite append_nil. destruct post; reflexivity.
  - rewrite append_cons. simpl. rewrite Ascii.eqb_refl, IH. reflexivity.
Qed.

Lemma startsWith_inv s k :
  startsWith s k = true -> exists post, s = k +:+ post.
Proof.
  revert s. induction k as [|c k IH]; intros s Hs.
  - exists s. reflexivity.
  - destruct s as [|d s]; simpl in Hs; [discriminate|].
    apply andb_true_iff in Hs as [Hc Hs]. apply Ascii.eqb_eq in Hc; subst d.
    apply IH in Hs as [post ->]. exists post. reflexivity.
Qed.

Lemma includes_unfold s k :
  includes s k =
  startsWith s k || match s with EmptyString => false | String _ s' => includes s' k end.
Proof. destruct s; reflexivity. Qed.

(** [includes] is containment as a substring. *)
Lemma includes_spec s k :
  includes s k = true <-> exists pre post, s = pre +:+ k +:+ post.
Proof.
  split.
  - induction s as [|c s IH]; rewrite includes_unfold; intros Hs.
    + apply orb_true_iff in Hs as [Hs|Hs]; [|discriminate].
      apply startsWith_inv in Hs as [post ->]. exists EmptyString, post. reflexivity.
    + apply orb_true_iff in Hs as [Hs|Hs].
      * apply startsWith_inv in Hs as [post ->]. exists EmptyString, post. reflexivity.
      * apply IH in Hs as (pre & post & ->). exists (String c pre), post. reflexivity.
  - intros (pre & post & ->). induction pre as [|c pre IH].
    + rewrite append_nil, includes_unfold, startsWith_append. reflexivity.
    + rewrite append_cons, includes_unfold, IH. apply orb_true_r.
Qed.

Lemma toLowerCase_append a b :
  toLowerCase (a +:+ b) = toLowerCase a +:+ toLowerCase b.
Proof.
  induction a as [|c a IH]; [reflexivity|].
  rewrite append_cons. simpl. rewrite IH, append_cons. reflexivity.
Qed.

End JsFacts.

(** ** The validators *)

Module ValidatorFacts.
Import CodeValidator Terms.

Lemma verdict_scored es ws sg : scored (verdict es ws sg).
Proof.
  unfold scored, verdict, calculateScore; simpl. split.
  - f_equal. f_equal. lia.
  - destruct es; simpl; split; intros; try reflexivity; discriminate.
Qed.

Lemma performBasicValidation_scored code fileName :
  scored (performBasicValidation code fileName).
Proof. unfold performBasicValidation. apply verdict_scored. Qed.

Lemma validatePython_scored code fileName : scored (validatePython code fileName).
Proof. unfold validatePython. apply verdict_scored. Qed.

Lemma validateTypeScript_scored `{TypeScript} code fileName :
  scored (validateTypeScript code fileName).
Proof.
  unfold validateTypeScript. destruct (parseDiagnostics fileName code).
  - apply verdict_scored.
  - apply performBasicValidation_scored.
Qed.

End ValidatorFacts.

(** * The claims of the specification *)

(** ** Complexity classifier *)

Module Classifier.
Import SmartAgent Terms Samples JsFacts.

Lemma someIncluded_mentions keywords userPrompt k :
  In k keywords -> mentions userPrompt k ->
  someIncluded keywords (Js.toLowerCase userPrompt) = true.
Proof.
  intros Hk Hm. unfold someIncluded. apply existsb_exists.
  exists k. split; [assumption|]. apply includes_spec. exact Hm.
Qed.

(** An instruction that contains a keyword as written mentions it: the
    keywords are in lower case. *)
Lemma mentions_literally keywords userPrompt k pre post :
  Forall (fun k => Js.toLowerCase k = k) keywords ->
  In k keywords -> userPrompt = pre +:+ k +:+ post -> mentions userPrompt k.
Proof.
  intros Hlow Hk ->. rewrite List.Forall_forall in Hlow.
  exists (Js.toLowerCase pre), (Js.toLowerCase post).
  rewrite !toLowerCase_append, (Hlow k Hk). reflexivity.
Qed.

Lemma simpleKeywords_lower : Forall (fun k => Js.toLowerCase k = k) simpleKeywords.
Proof. repeat constructor. Qed.

(** C6. An instruction that contains a trivial-tier keyword (letter case
    ignored), or a selection of fewer than 10 lines, is classified
    trivial, without project context: whatever the length of the
    instruction, and whatever other keywords it contains. *)
Theorem trivial_tier_first (userPrompt selectedCode : string) :
  (exists k, In k simpleKeywords /\ mentions userPrompt k) \/
  (length (Js.split Js.LF selectedCode) < 10)%nat ->
  analyzeTaskComplexity userPrompt selectedCode
  = mkTaskAnalysis simple instant false false 90.
Proof.
  intros Hcase. unfold analyzeTaskComplexity.
  destruct Hcase as [(k & Hk & Hm)|Hlines].
  - rewrite (someIncluded_mentions _ _ _ Hk Hm). reflexivity.
  - apply Nat.ltb_lt in Hlines. rewrite Hlines, orb_true_r. reflexivity.
Qed.

Lemma trivial_tier_first_witness :
  analyzeTaskComplexity longInstruction twelveLines
  = mkTaskAnalysis simple instant false false 90.
Proof.
  apply trivial_tier_first. left. exists "fix typo". split.
  - simpl. auto.
  - exists "please ",
      " in the header, then implement the parser and rewrite the whole module so that it is easier to read and to maintain".
    reflexivity.
Defined.

End Classifier.

(** ** Validation engine *)

Module Validation.
Import CodeValidator Terms ValidatorFacts.

(** C7. Every verdict scores 100 minus 10 per error minus 2 per warning,
    clamped to 0..100, and is acceptable exactly when it has no error:
    warnings never make it unacceptable. *)
Theorem verdict_score_and_acceptance `{Platform} `{!TypeScript} (code fileName : string) :
  let v := validateCode code fileName in
  score v = Z.max 0 (Z.min 100 (100 - 10 * Z.of_nat (length (errors v))
                                    - 2 * Z.of_nat (length (warnings v)))) /\
  0 <= score v <= 100 /\
  (isValid v = true <-> length (errors v) = O).
Proof.
  intros v.
  assert (Hv : scored v).
  { subst v. unfold validateCode.
    destruct (isScriptExt _); [apply validateTypeScript_scored|].
    destruct (String.eqb _ _);
      [apply validatePython_scored | apply performBasicValidation_scored]. }
  destruct Hv as [Hs Ha]. split; [exact Hs|]. split; [lia | exact Ha].
Qed.

End Validation.

(** ** Context cache *)

Module Cache.
Import SmartAgent Terms Samples CacheFacts.

(** What the cache does keep: a read is a hit exactly when a snapshot is
    stored for the project root and its age is below the constant
    [CACHE_DURATION]; a snapshot older than that is never a hit.  After a
    read that returned a snapshot, a second read within [CACHE_DURATION]
    of its time stamp returns the same snapshot and rebuilds nothing. *)
Theorem cache_hit_iff_fresh `{AgentHost} :
  (forall path s c, getProjectCache path s = hit c s <-> fresh path s c) /\
  (forall path s c s1 s2,
     getProjectCache path s = (Returned (Some c), s1) ->
     projectCaches s2 = projectCaches s1 ->
     now (world s2) - timestamp c < CACHE_DURATION ->
     getProjectCache path s2 = hit c s2).
Proof.
  assert (Hiff : forall path s c, getProjectCache path s = hit c s <-> fresh path s c).
  { intros path s c. split.
    - intros Hhit.
      destruct (getProjectCache_cases path s)
        as [(c' & Hf & E)|(_ & out & s' & evs & E & T & _)].
      + rewrite E in Hhit. unfold hit in Hhit. inversion Hhit; subst c'. exact Hf.
      + rewrite E in Hhit. unfold hit in Hhit. inversion Hhit; subst.
        simpl in T. apply app_inv_head in T. discriminate.
    - intros Hf.
      destruct (getProjectCache_cases path s) as [(c' & [Hl' _] & E)|(Hn & _)].
      + destruct Hf as [Hl _]. rewrite Hl in Hl'. inversion Hl'; subst c'. exact E.
      + destruct (Hn c Hf). }
  split; [exact Hiff|].
  intros path s c s1 s2 Hget Hsame Hage. apply Hiff. split; [|exact Hage].
  rewrite Hsame.
  destruct (getProjectCache_cases path s)
    as [(c' & [Hl _] & E)|(_ & out & s' & evs & E & _ & _ & Hstore)].
  - rewrite E in Hget. unfold hit in Hget. inversion Hget; subst. exact Hl.
  - rewrite E in Hget. inversion Hget; subst. rewrite Hstore.
    apply lookup_insert_eq.
Qed.

Lemma cache_hit_iff_fresh_witness :
  @getProjectCache Scripted.platform (Scripted.agent silent)
    "/project" secondState
  = hit snapshot secondState.
Proof.
  apply (proj2 (@cache_hit_iff_fresh Scripted.platform
                  (Scripted.agent silent))
           "/project" Scripted.initial snapshot (snd firstRead) secondState).
  - reflexivity.
  - reflexivity.
  - reflexivity.
Defined.

(** C8 fails for a configured time-to-live: the read compares the age
    of a snapshot with the constant [CACHE_DURATION] of five minutes and
    never looks at the setting.  With [cacheDuration] set to one minute,
    a snapshot that is two minutes old, older than the configured
    time-to-live, is still returned as a cache hit, with no rebuild. *)
Theorem configured_duration_ignored :
  @AutonomousActions.getConfiguration Scripted.platform (Scripted.actions oneMinute)
    (world twoMinutesLater) = oneMinute /\
  Extension.cacheDurationSetting oneMinute = 1 /\
  projectCaches twoMinutesLater !! "/project"%string = Some snapshot /\
  now (world twoMinutesLater) - timestamp snapshot = 2 * 60 * 1000 /\
  Extension.cacheDurationSetting oneMinute * 60 * 1000
  < now (world twoMinutesLater) - timestamp snapshot /\
  @getProjectCache Scripted.platform (Scripted.agent silent) "/project" twoMinutesLater
  = hit snapshot twoMinutesLater.
Proof.
  split; [reflexivity|]. split; [reflexivity|]. split; [reflexivity|].
  split; [reflexivity|]. split; [reflexivity|].
  vm_compute. reflexivity.
Qed.

End Cache.

(** ** Permission policy *)

Module Policy.
Import AutonomousActions SmartAgent Terms ActionFacts.

(** C9. With no setting given, script execution and git operations are
    off and package install, file creation, folder creation, file
    modification and formatting are on; an executor with that policy
    denies every [run_script] and every [git_operation] request without
    running it. *)
Theorem default_policy `{ActionHost} :
  getActionConfig noConfiguration
  = {| allowPackageInstall := true; allowFileCreation := true;
       allowFolderCreation := true; allowFileModification := true;
       allowScriptExecution := false; allowGitOperations := false;
       allowFormatting := true; requireConfirmation := false |} /\
  (forall t, isActionAllowed (getActionConfig noConfiguration) t
             = negb (ActionType_eqb t run_script || ActionType_eqb t git_operation)) /\
  (forall description params path workspace executed w,
     let self := mkExecutor workspace (getActionConfig noConfiguration) executed in
     let script := mkActionRequest run_script description params path in
     let git := mkActionRequest git_operation description params path in
     execute script self w = (denied script, self, w) /\
     execute git self w = (denied git, self, w)).
Proof.
  split; [reflexivity|]. split.
  - intros t; destruct t; reflexivity.
  - intros. split; apply execute_denied; reflexivity.
Qed.

End Policy.

(** ** Side effects of one attempt *)

Module Effects.
Import AutonomousActions SmartAgent Terms Samples ActionFacts.





End Effects.

(** ** Action protocol: parsing and cleaning *)

Module Protocol.
Import Re ReFacts AutonomousActions AutonomousActions.ActionParser.
Import SmartAgent Terms Samples ActionFacts ParserFacts.


(** The claim as it is written fails on Scenario D: the parser matches
    the marker, the request is denied, the run succeeds, and the code it
    returns still contains the marker. *)
Lemma marker_not_stripped :
  option_map (map text) (matchesOf installPattern Scripted.scenarioD)
    = Some [scenarioMarker] /\
  isActionAllowed (getActionConfig installOff) install_package = false /\
  option_map (fun x => success (fst (fst x))) scenarioRun = Some true /\
  option_map (fun x => actionsExecuted (fst (fst x))) scenarioRun = Some (Some []) /\
  option_map (fun x => code (fst (fst x))) scenarioRun
    = Some (Some Scripted.scenarioD) /\
  Js.includes Scripted.scenarioD scenarioMarker = true.
Proof. vm_compute. repeat split; reflexivity. Qed.

End Protocol.

(** ** Orchestrator *)

Module Orchestrator.
Import AutonomousActions SmartAgent Terms Samples LoopFacts RunFacts.

(** C1. A run that reports success was run without validation, or the
    last verdict it produced is valid. *)
Theorem success_implies_acceptable `{AgentHost} `{!ActionHost} `{!CodeValidator.TypeScript}
    (fuel : nat) (config : SmartAgentConfig) (s : State)
    (r : SmartAgentResult) (vars : LoopVars) (s' : State) :
  executeSmartAgentFuel fuel config s = Some (r, vars, s') ->
  success r = true ->
  validationEnabled config = false \/
  exists v, lastValidationResult vars = Some v /\ CodeValidator.isValid v = true.
Proof.
  intros Hrun Hs. apply run_spec in Hrun as (Ha & _). exact (Ha Hs).
Qed.

Lemma success_implies_acceptable_witness :
  exists r vars s',
    scenarioB = Some (r, vars, s') /\ success r = true /\ retries r = Some 1 /\
    (validationEnabled
       (Extension.agentConfig (Scripted.payload "notes.txt" "fix typo" "f(") "key"
          noConfiguration) = false \/
     exists v, lastValidationResult vars = Some v /\ CodeValidator.isValid v = true).
Proof.
  destruct scenarioB as [[[r vars] s']|] eqn:Hrun.
  - assert (Hs : success r = true /\ retries r = Some 1).
    { vm_compute in Hrun. inversion Hrun. split; reflexivity. }
    exists r, vars, s'. split; [reflexivity|].
    split; [exact (proj1 Hs)|]. split; [exact (proj2 Hs)|].
    exact (@success_implies_acceptable Scripted.platform
             (Scripted.agent secondAnswerGood) (Scripted.actions noConfiguration)
             Scripted.compiler _ _ _ r vars s' Hrun (proj1 Hs)).
  - vm_compute in Hrun. discriminate.
Defined.

(** What the loop does keep: it ends; [retries] stays within the number
    the code works with, which is the configured one unless that is 0 or
    absent; and the model is asked at most once more than that. *)
Lemma effectiveMaxRetries_configured config n :
  maxRetries config = Some n -> n <> 0 -> effectiveMaxRetries config = n.
Proof.
  intros Hn Hz. unfold effectiveMaxRetries. rewrite Hn.
  destruct (n =? 0) eqn:E; [apply Z.eqb_eq in E; contradiction | reflexivity].
Qed.

Lemma run_terminates `{AgentHost} `{!ActionHost} `{!CodeValidator.TypeScript} config s :
  exists x, executeSmartAgent config s = Some x.
Proof. apply run_total. Qed.

Lemma retries_within_effective `{AgentHost} `{!ActionHost} `{!CodeValidator.TypeScript}
    fuel config s r vars s' :
  executeSmartAgentFuel fuel config s = Some (r, vars, s') ->
  exists n, retries r = Some n /\ 0 <= n <= Z.max 0 (effectiveMaxRetries config).
Proof.
  intros Hrun. apply run_spec in Hrun as (_ & _ & [Hr|Hr] & Hb & _).
  - exists 0. split; [assumption | lia].
  - exists (retryCount vars). split; [assumption | lia].
Qed.

Lemma invocations_within_effective `{AgentHost} `{!ActionHost} `{!CodeValidator.TypeScript}
    fuel config s r vars s' :
  executeSmartAgentFuel fuel config s = Some (r, vars, s') ->
  (modelInvocations (trace s')
   <= modelInvocations (trace s) + Z.to_nat (effectiveMaxRetries config + 1))%nat.
Proof.
  intros Hrun. apply run_spec in Hrun as (_ & _ & _ & _ & Hi). exact Hi.
Qed.

(** C2 fails in the code.  With [maxRetries] configured to 0 the agent
    receives 0, works with 2, and returns [retries = 2]. *)
Theorem zero_maxRetries_two_retries :
  maxRetries (Extension.agentConfig zeroRetriesPayload "key" zeroRetries) = Some 0 /\
  effectiveMaxRetries (Extension.agentConfig zeroRetriesPayload "key" zeroRetries) = 2 /\
  option_map (fun x => retries (fst (fst x))) zeroRetriesRun = Some (Some 2) /\
  option_map (fun x => success (fst (fst x))) zeroRetriesRun = Some false.
Proof. vm_compute. repeat split; reflexivity. Qed.

(** C3 fails in the code.  With [maxRetries] configured to 0 the same
    run asks the model three times, not once. *)
Theorem zero_maxRetries_three_invocations :
  maxRetries (Extension.agentConfig zeroRetriesPayload "key" zeroRetries) = Some 0 /\
  option_map (fun x => modelInvocations (trace (snd x))) zeroRetriesRun = Some 3%nat.
Proof. vm_compute. repeat split; reflexivity. Qed.

End Orchestrator.

(** * Further properties of the code *)

(** ** Invalidation and isolation of the project cache *)

Module Invalidation.
Import SmartAgent Terms Samples CacheFacts.

Section WithHost.
Context `{AgentHost}.

Lemma hit_iff_fresh path s c :
  getProjectCache path s = hit c s <-> fresh path s c.
Proof.
  split.
  - intros Hhit.
    destruct (getProjectCache_cases path s)
      as [(c' & Hf & E)|(_ & out & s' & evs & E & T & _)].
    + rewrite E in Hhit. unfold hit in Hhit. inversion Hhit; subst c'. exact Hf.
    + rewrite E in Hhit. unfold hit in Hhit. inversion Hhit; subst.
      simpl in T. apply app_inv_head in T. discriminate.
  - intros Hf.
    destruct (getProjectCache_cases path s) as [(c' & [Hl' _] & E)|(Hn & _)].
    + destruct Hf as [Hl _]. rewrite Hl in Hl'. inversion Hl'; subst c'. exact E.
    + destruct (Hn c Hf).
Qed.

Lemma rebuilt_when_absent path s :
  projectCaches s !! path = None -> rebuilt path s (getProjectCache path s).
Proof.
  intros Hnone.
  destruct (getProjectCache_cases path s) as [(c & [Hl _] & _)|(_ & Hr)].
  - congruence.
  - exact Hr.
Qed.

(** X1. After [clearProjectCache] for a project root, the next read for
    that root is never a hit: it rebuilds, however young the snapshot
    was.  Reads for every other root are hits exactly when they were
    before. *)
Theorem clear_forces_rebuild (path : string) (s : State) :
  let s1 := snd (clearProjectCache path s) in
  rebuilt path s1 (getProjectCache path s1) /\
  (forall c, getProjectCache path s1 <> hit c s1) /\
  (forall other c, other <> path ->
     (getProjectCache other s1 = hit c s1 <-> getProjectCache other s = hit c s)).
Proof.
  intros s1.
  assert (Hnone : projectCaches s1 !! path = None).
  { subst s1. unfold clearProjectCache, bind, cachesDelete, emit. simpl.
    apply lookup_delete_eq. }
  split; [apply rebuilt_when_absent; exact Hnone|]. split.
  - intros c Hhit. apply hit_iff_fresh in Hhit as [Hl _]. congruence.
  - intros other c Hne. rewrite !hit_iff_fresh. unfold fresh.
    subst s1. unfold clearProjectCache, bind, cachesDelete, emit. simpl.
    rewrite lookup_delete_ne by congruence. reflexivity.
Qed.

(** X2. After [clearAllCaches] the next read for any project root
    rebuilds. *)
Theorem clear_all_forces_rebuild (s : State) (path : string) :
  let s1 := snd (clearAllCaches s) in
  rebuilt path s1 (getProjectCache path s1) /\
  (forall c, getProjectCache path s1 <> hit c s1).
Proof.
  intros s1.
  assert (Hnone : projectCaches s1 !! path = None).
  { subst s1. unfold clearAllCaches, bind, cachesClear, emit. simpl.
    apply lookup_empty. }
  split; [apply rebuilt_when_absent; exact Hnone|].
  intros c Hhit. apply hit_iff_fresh in Hhit as [Hl _]. congruence.
Qed.

(** X3. A read for one project root never throws and never touches the
    snapshot stored for another root; a read that returns nothing leaves
    the whole map as it was, a stale snapshot included. *)
Theorem read_touches_one_entry (path : string) (s : State) :
  exists out s',
    getProjectCache path s = (Returned out, s') /\
    (forall other, other <> path ->
       projectCaches s' !! other = projectCaches s !! other) /\
    (out = None -> projectCaches s' = projectCaches s).
Proof.
  destruct (getProjectCache_cases path s)
    as [(c & _ & E)|(_ & out & s' & evs & E & _ & _ & Hstore)].
  - rewrite E. unfold hit. do 2 eexists. split; [reflexivity|].
    split; [reflexivity | discriminate].
  - rewrite E. exists out, s'. split; [reflexivity|].
    destruct out as [c|].
    + split; [|discriminate]. intros other Hne. rewrite Hstore.
      apply lookup_insert_ne. congruence.
    + split; [intros; rewrite Hstore; reflexivity | intros _; exact Hstore].
Qed.

End WithHost.

Lemma clear_all_forces_rebuild_witness :
  @getProjectCache Scripted.platform (Scripted.agent silent) "/project"
    (snd (clearAllCaches secondState))
  <> hit snapshot (snd (clearAllCaches secondState)).
Proof.
  apply (proj2 (@clear_all_forces_rebuild Scripted.platform (Scripted.agent silent)
                  secondState "/project")).
Defined.

Lemma clear_forces_rebuild_witness :
  @getProjectCache Scripted.platform (Scripted.agent silent) "/other"
    (snd (clearProjectCache "/project" secondState))
  = hit snapshot (snd (clearProjectCache "/project" secondState))
  <-> @getProjectCache Scripted.platform (Scripted.agent silent) "/other" secondState
      = hit snapshot secondState.
Proof.
  apply (proj2 (proj2 (@clear_forces_rebuild Scripted.platform (Scripted.agent silent)
                         "/project" secondState))).
  discriminate.
Defined.

Lemma read_touches_one_entry_witness :
  exists out s',
    @getProjectCache Scripted.platform (Scripted.agent silent) "/other" secondState
      = (Returned out, s') /\
    projectCaches s' !! "/project" = projectCaches secondState !! "/project".
Proof.
  destruct (@read_touches_one_entry Scripted.platform (Scripted.agent silent)
              "/other" secondState) as (out & s' & E & Hother & _).
  exists out, s'. split; [exact E|]. apply Hother. discriminate.
Defined.

End Invalidation.

(** ** More on strings *)

Module StringFacts.
Import Js JsFacts.

Lemma append_assoc (a b c : string) : (a +:+ b) +:+ c = a +:+ (b +:+ c).
Proof.
  induction a as [|x a IH]; [reflexivity|].
  rewrite !append_cons, IH. reflexivity.
Qed.

Lemma append_empty_r (a : string) : a +:+ EmptyString = a.
Proof.
  induction a as [|x a IH]; [reflexivity|]. rewrite append_cons, IH. reflexivity.
Qed.

Lemma includes_refl s : includes s s = true.
Proof.
  apply includes_spec. exists EmptyString, EmptyString.
  rewrite append_nil, append_empty_r. reflexivity.
Qed.

Lemma includes_trans s m k :
  includes s m = true -> includes m k = true -> includes s k = true.
Proof.
  rewrite !includes_spec. intros (a & b & ->) (c & d & ->).
  exists (a +:+ c), (d +:+ b). rewrite !append_assoc. reflexivity.
Qed.

Lemma includes_append_l s t k : includes s k = true -> includes (s +:+ t) k = true.
Proof.
  rewrite !includes_spec. intros (a & b & ->).
  exists a, (b +:+ t). rewrite !append_assoc. reflexivity.
Qed.

Lemma includes_append_r s t k : includes t k = true -> includes (s +:+ t) k = true.
Proof.
  rewrite !includes_spec. intros (a & b & ->).
  exists (s +:+ a), b. rewrite !append_assoc. reflexivity.
Qed.

Lemma includes_concat (parts : list string) (x k : string) :
  In x parts -> includes x k = true ->
  includes (String.concat EmptyString parts) k = true.
Proof.
  intros Hin Hk. induction parts as [|p parts IH]; [destruct Hin|].
  destruct Hin as [->|Hin].
  - destruct parts as [|p' parts]; simpl; [exact Hk|].
    apply includes_append_l. exact Hk.
  - destruct parts as [|p' parts]; [destruct Hin|].
    change (String.concat EmptyString (p :: p' :: parts))
      with (p +:+ EmptyString +:+ String.concat EmptyString (p' :: parts)).
    apply includes_append_r. rewrite append_nil. apply IH. exact Hin.
Qed.

Lemma indexOf_lower c s : -1 <= indexOf c s.
Proof.
  induction s as [|a s IH]; simpl; [lia|].
  destruct (Ascii.eqb a c); [lia|]. destruct (indexOf c s <? 0) eqn:E; lia.
Qed.

(** The code units of a text other than the line feed, counted line by
    line. *)
Lemma count_cons c a s :
  count c (String a s) = ((if Ascii.eqb a c then 1 else 0) + count c s)%nat.
Proof. reflexivity. Qed.

Lemma split_cons sep a s :
  split sep (String a s) =
  if Ascii.eqb a sep then EmptyString :: split sep s
  else match split sep s with
       | [] => [String a EmptyString]
       | h :: t => String a h :: t
       end.
Proof. reflexivity. Qed.

Lemma sum_cons {A : Type} (f : A -> nat) x l :
  list_sum (map f (x :: l)) = (f x + list_sum (map f l))%nat.
Proof. reflexivity. Qed.

Lemma count_split c s :
  c <> LF -> list_sum (map (count c) (split LF s)) = count c s.
Proof.
  intros Hc. induction s as [|a s IH]; [reflexivity|].
  rewrite split_cons, count_cons.
  destruct (Ascii.eqb_spec a LF) as [->|Hne].
  - destruct (Ascii.eqb_spec LF c) as [E|_]; [congruence|].
    rewrite sum_cons, IH. reflexivity.
  - destruct (split LF s) as [|h t] eqn:Hs.
    + discriminate IH || (rewrite sum_cons; rewrite count_cons;
        change (list_sum (map (count c) [])) with O in *;
        change (count c EmptyString) with O; lia).
    + rewrite sum_cons in *. rewrite count_cons. lia.
Qed.

Lemma split_length c s : length (split c s) = S (count c s).
Proof.
  induction s as [|a s IH]; [reflexivity|].
  rewrite split_cons, count_cons.
  destruct (Ascii.eqb a c); cbn [length].
  - rewrite IH. reflexivity.
  - destruct (split c s) as [|h t]; cbn [length] in *; lia.
Qed.

End StringFacts.

(** ** More on the validators *)

Module ValidatorExtras.
Import CodeValidator Terms Samples ValidatorFacts JsFacts StringFacts.

Lemma countChar_effect b c :
  brace (countChar b c)
    = brace b + Z.of_nat (Js.count "{" (String c EmptyString))
      - Z.of_nat (Js.count "}" (String c EmptyString)) /\
  bracket (countChar b c)
    = bracket b + Z.of_nat (Js.count "[" (String c EmptyString))
      - Z.of_nat (Js.count "]" (String c EmptyString)) /\
  paren (countChar b c)
    = paren b + Z.of_nat (Js.count "(" (String c EmptyString))
      - Z.of_nat (Js.count ")" (String c EmptyString)).
Proof.
  unfold countChar. rewrite !count_cons.
  change (Js.count _ EmptyString) with O.
  destruct (Ascii.eqb_spec c "{") as [->|N1]; [simpl; repeat split; lia|].
  destruct (Ascii.eqb_spec c "[") as [->|N2]; [simpl; repeat split; lia|].
  destruct (Ascii.eqb_spec c "(") as [->|N3]; [simpl; repeat split; lia|].
  destruct (Ascii.eqb_spec c "}") as [->|N4]; [simpl; repeat split; lia|].
  destruct (Ascii.eqb_spec c "]") as [->|N5]; [simpl; repeat split; lia|].
  destruct (Ascii.eqb_spec c ")") as [->|N6]; [simpl; repeat split; lia|].
  simpl. repeat split; lia.
Qed.

Lemma countLine_effect line :
  forall b,
  brace (countLine b line)
    = brace b + Z.of_nat (Js.count "{" line) - Z.of_nat (Js.count "}" line) /\
  bracket (countLine b line)
    = bracket b + Z.of_nat (Js.count "[" line) - Z.of_nat (Js.count "]" line) /\
  paren (countLine b line)
    = paren b + Z.of_nat (Js.count "(" line) - Z.of_nat (Js.count ")" line).
Proof.
  induction line as [|c line IH]; intros b.
  - simpl. repeat split; lia.
  - change (countLine b (String c line)) with (countLine (countChar b c) line).
    destruct (IH (countChar b c)) as (E1 & E2 & E3).
    destruct (countChar_effect b c) as (C1 & C2 & C3).
    rewrite E1, E2, E3, C1, C2, C3. rewrite !count_cons.
    change (Js.count _ EmptyString) with O.
    repeat split; lia.
Qed.

Lemma countLines_effect lines :
  forall b,
  brace (fold_left countLine lines b)
    = brace b + Z.of_nat (list_sum (map (Js.count "{") lines))
      - Z.of_nat (list_sum (map (Js.count "}") lines)) /\
  bracket (fold_left countLine lines b)
    = bracket b + Z.of_nat (list_sum (map (Js.count "[") lines))
      - Z.of_nat (list_sum (map (Js.count "]") lines)) /\
  paren (fold_left countLine lines b)
    = paren b + Z.of_nat (list_sum (map (Js.count "(") lines))
      - Z.of_nat (list_sum (map (Js.count ")") lines)).
Proof.
  induction lines as [|line lines IH]; intros b.
  - simpl. repeat split; lia.
  - change (fold_left countLine (line :: lines) b)
      with (fold_left countLine lines (countLine b line)).
    destruct (IH (countLine b line)) as (E1 & E2 & E3).
    destruct (countLine_effect line b) as (C1 & C2 & C3).
    rewrite E1, E2, E3, C1, C2, C3, !sum_cons.
    repeat split; lia.
Qed.

(** X4. The fallback validator accepts a text exactly when it has as
    many opening as closing braces, brackets and parentheses: it counts
    over the whole text and does not look at their order or nesting. *)
Theorem basic_validation_counts (code fileName : string) :
  isValid (performBasicValidation code fileName) = true <->
  Js.count "{" code = Js.count "}" code /\
  Js.count "[" code = Js.count "]" code /\
  Js.count "(" code = Js.count ")" code.
Proof.
  unfold performBasicValidation, verdict. cbn [isValid].
  destruct (countLines_effect (Js.split Js.LF code) (mkBrackets 0 0 0))
    as (E1 & E2 & E3).
  rewrite !count_split in E1, E2, E3 by discriminate. cbn [brace bracket paren] in *.
  set (b := fold_left countLine (Js.split Js.LF code) (mkBrackets 0 0 0)) in *.
  destruct (brace b =? 0) eqn:B1; destruct (bracket b =? 0) eqn:B2;
    destruct (paren b =? 0) eqn:B3; simpl;
    rewrite ?Z.eqb_eq, ?Z.eqb_neq in *;
    (split; [intros Hv; try discriminate; lia | intros (H1 & H2 & H3); try reflexivity; lia]).
Qed.

Lemma basic_validation_counts_witness :
  isValid (performBasicValidation "f(x)[0] = {}" "notes.txt") = true.
Proof.
  apply (proj2 (basic_validation_counts "f(x)[0] = {}" "notes.txt")).
  repeat split; reflexivity.
Defined.

Lemma validateCode_scored `{Platform} `{!TypeScript} code fileName :
  scored (validateCode code fileName).
Proof.
  unfold validateCode.
  destruct (isScriptExt _); [apply validateTypeScript_scored|].
  destruct (String.eqb _ _);
    [apply validatePython_scored | apply performBasicValidation_scored].
Qed.

(** X5. The score of a verdict is 100 exactly when it has neither errors
    nor warnings, and it is 0 from ten errors on; fifty warnings bring
    the score of an acceptable verdict down to 0 as well. *)
Theorem score_extremes `{Platform} `{!TypeScript} (code fileName : string) :
  let v := validateCode code fileName in
  (score v = 100 <-> errors v = [] /\ warnings v = []) /\
  ((10 <= length (errors v))%nat -> score v = 0) /\
  ((50 <= length (warnings v))%nat -> score v = 0).
Proof.
  intros v. destruct (validateCode_scored code fileName) as [Hs _].
  fold v in Hs. split; [|split].
  - split.
    + intros H100. rewrite H100 in Hs.
      destruct (errors v), (warnings v); simpl in *; try (split; reflexivity); lia.
    + intros [He Hw]. rewrite Hs, He, Hw. reflexivity.
  - intros He. rewrite Hs. lia.
  - intros Hw. rewrite Hs. lia.
Qed.

Lemma score_extremes_witness :
  score (@validateCode Scripted.compiler Scripted.platform tenBadLines "a.py") = 0.
Proof.
  apply (proj1 (proj2 (@score_extremes Scripted.platform Scripted.compiler
                         tenBadLines "a.py"))).
  vm_compute. lia.
Defined.

(** Membership in what a loop over the lines has pushed. *)
Lemma in_pushed {A : Type} (f : nat -> string -> list A) lines x :
  In x (concat (imap f lines)) ->
  exists i line, lines !! i = Some line /\ In x (f i line).
Proof.
  intros Hin. apply in_concat in Hin as (l & Hl & Hx).
  apply list_elem_of_In, elem_of_lookup_imap in Hl as (i & line & -> & Hi).
  exists i, line. split; assumption.
Qed.

Lemma imap_fst {A B : Type} (f : nat -> string -> A * B) lines :
  map fst (imap f lines) = imap (fun i line => fst (f i line)) lines.
Proof.
  revert f. induction lines as [|l lines IH]; intros f; [reflexivity|].
  simpl. f_equal. apply IH.
Qed.

Lemma imap_snd {A B : Type} (f : nat -> string -> A * B) lines :
  map snd (imap f lines) = imap (fun i line => snd (f i line)) lines.
Proof.
  revert f. induction lines as [|l lines IH]; intros f; [reflexivity|].
  simpl. f_equal. apply IH.
Qed.

Lemma lineNo_bounds {A : Type} (lines : list A) i (x : A) :
  lines !! i = Some x -> 1 <= lineNo i <= Z.of_nat (length lines).
Proof.
  intros Hi. apply lookup_lt_Some in Hi. unfold lineNo. lia.
Qed.

Lemma checkPythonLine_errors n txt e :
  In e (fst (checkPythonLine n txt)) ->
  line e = n /\ severity e = SevError /\ suggestion e <> None /\ 0 <= column e.
Proof.
  unfold checkPythonLine.
  destruct (Js.isEmptyStr (Js.trim txt) || Js.startsWith (Js.trim txt) "#");
    [intros []|].
  cbn [fst]. intros Hin. apply in_app_or in Hin as [Hin|Hin].
  - destruct (Js.includes (Js.trim txt) "=" && negb (Js.includes (Js.trim txt) "=="));
      [|destruct Hin].
    unfold when in Hin.
    match type of Hin with
    | In _ (if ?c then _ else _) => destruct c; [|destruct Hin]
    end.
    destruct Hin as [<-|[]]. cbn.
    pose proof (indexOf_lower "=" txt).
    repeat split; try discriminate; lia.
  - unfold when in Hin.
    match type of Hin with
    | In _ (if ?c then _ else _) => destruct c; [|destruct Hin]
    end.
    destruct Hin as [<-|[]]. cbn.
    repeat split; try discriminate; lia.
Qed.

Lemma checkPythonLine_warnings n line w :
  In w (snd (checkPythonLine n line)) -> wline w = n.
Proof.
  unfold checkPythonLine.
  destruct (Js.isEmptyStr (Js.trim line) || Js.startsWith (Js.trim line) "#");
    [intros []|].
  cbn [snd]. unfold when.
  match goal with
  | |- In _ (if ?c then _ else _) -> _ => destruct c; [|intros []]
  end.
  intros [<-|[]]. reflexivity.
Qed.

(** X6. Every error and every warning of the Python validator points at
    a line of the text, counted from 1; every error carries a suggestion
    and a column that is not negative. *)
Theorem python_findings_located (code fileName : string) :
  let v := validatePython code fileName in
  let n := Z.of_nat (length (Js.split Js.LF code)) in
  (forall e, In e (errors v) ->
     1 <= line e <= n /\ severity e = SevError /\
     suggestion e <> None /\ 0 <= column e) /\
  (forall w, In w (warnings v) -> 1 <= wline w <= n).
Proof.
  intros v n. subst v n. unfold validatePython, verdict. cbn [errors warnings].
  rewrite imap_fst, imap_snd. split.
  - intros e He. apply in_pushed in He as (i & l & Hi & He).
    apply checkPythonLine_errors in He as (Hl & Hrest).
    rewrite Hl. split; [exact (lineNo_bounds _ _ _ Hi) | exact Hrest].
  - intros w Hw. apply in_pushed in Hw as (i & l & Hi & Hw).
    apply checkPythonLine_warnings in Hw. rewrite Hw.
    exact (lineNo_bounds _ _ _ Hi).
Qed.

Lemma python_findings_located_witness :
  1 <= line (mkCodeError 2 9 "Use '==' for comparison, not '='" SevError None
               (Some "Replace '=' with '=='")) <= 2.
Proof.
  apply (proj1 (@python_findings_located ("if x" +:+ nl1 +:+ "while y = 1:") "a.py")).
  vm_compute. right. left. reflexivity.
Defined.

Lemma nothing_pushed {A : Type} (f : nat -> string -> list A) lines :
  (forall i line, In line lines -> f i line = []) ->
  concat (imap f lines) = [].
Proof.
  revert f. induction lines as [|l lines IH]; intros f Hf; [reflexivity|].
  simpl. rewrite (Hf O l) by (left; reflexivity). simpl.
  apply IH. intros i line Hin. apply Hf. right. exact Hin.
Qed.

(** X7. The Python validator skips blank lines and comment lines: a
    text made of such lines only is accepted with no finding and the
    score 100. *)
Theorem python_skips_comments (code fileName : string) :
  Forall (fun line =>
            Js.isEmptyStr (Js.trim line) || Js.startsWith (Js.trim line) "#" = true)
    (Js.split Js.LF code) ->
  validatePython code fileName = mkValidationResult true [] [] [] 100.
Proof.
  intros Hall. rewrite List.Forall_forall in Hall.
  unfold validatePython. rewrite imap_fst, imap_snd.
  rewrite !nothing_pushed; [reflexivity| |].
  - intros i line Hin. unfold checkPythonLine. rewrite (Hall line Hin). reflexivity.
  - intros i line Hin. unfold checkPythonLine. rewrite (Hall line Hin). reflexivity.
Qed.

Lemma python_skips_comments_witness :
  validatePython commentsOnly "a.py" = mkValidationResult true [] [] [] 100.
Proof.
  apply python_skips_comments. vm_compute. repeat constructor.
Defined.

(** X8. The error block that a retry appends to the prompt names every
    error of the failed verdict: its message and, when it has one, its
    suggestion. *)
Theorem error_context_complete (result : ValidationResult) (e : CodeError) :
  isValid result = false -> In e (errors result) ->
  Js.includes (generateErrorContext result) (message e) = true /\
  (forall s, suggestion e = Some s ->
     Js.includes (generateErrorContext result) s = true).
Proof.
  intros Hinvalid Hin. unfold generateErrorContext. rewrite Hinvalid.
  apply list_elem_of_In, list_elem_of_lookup in Hin as (i & Hi).
  set (entry := fun (index : nat) (error : CodeError) =>
         showNat (index + 1) +:+ ". Line " +:+ showZ (line error) +:+ ": "
         +:+ message error +:+ nl1
         +:+ match suggestion error with
             | Some s => "   Suggestion: " +:+ s +:+ nl1
             | None => EmptyString
             end).
  assert (Hentry : In (entry i e) (imap entry (errors result))).
  { apply list_elem_of_In, elem_of_lookup_imap. exists i, e. split; [reflexivity | exact Hi]. }
  split.
  - apply includes_append_l, includes_append_r.
    apply (includes_concat _ _ _ Hentry). unfold entry.
    do 4 apply includes_append_r. apply includes_append_l. apply includes_refl.
  - intros s Hs. apply includes_append_l, includes_append_r.
    apply (includes_concat _ _ _ Hentry). unfold entry. rewrite Hs.
    do 7 apply includes_append_r. apply includes_append_l. apply includes_refl.
Qed.

Lemma error_context_complete_witness :
  Js.includes (generateErrorContext twoErrors) "Missing colon ':' at end of statement"
  = true.
Proof.
  apply (proj1 (error_context_complete twoErrors
                  (mkCodeError 1 4 "Missing colon ':' at end of statement" SevError None
                     (Some "Add ':' at the end"))
                  eq_refl (or_introl eq_refl))).
Defined.

End ValidatorExtras.

(** ** More on the action parser *)

Module ParserExtras.
Import Re ReFacts AutonomousActions AutonomousActions.ActionParser.
Import SmartAgent Terms Samples JsFacts StringFacts ParserFacts.

Lemma rmatch_lit_prefix s :
  forall x k z, rmatch (lit s) x k = Some z -> Js.startsWith (rest (fst x)) s = true.
Proof.
  induction s as [|c s IH]; intros x k z Hm.
  - destruct (rest (fst x)); reflexivity.
  - simpl in Hm. unfold step1 in Hm.
    destruct (rest (fst x)) as [|a r]; [discriminate|].
    destruct (Ascii.eqb c a) eqn:E; [|discriminate].
    apply IH in Hm. simpl in Hm. simpl. rewrite E, Hm. reflexivity.
Qed.

Lemma startsWith_shorter s a b :
  Js.startsWith s (a +:+ b) = true -> Js.startsWith s a = true.
Proof.
  revert s. induction a as [|c a IH]; intros s Hs.
  - destruct s; reflexivity.
  - rewrite append_cons in Hs. destruct s as [|d s]; [discriminate|].
    simpl in *. apply andb_true_iff in Hs as [-> Hs]. simpl. apply (IH _ Hs).
Qed.

(** Every pattern of the parser begins with the text [<action:]. *)
Lemma pattern_shape p :
  In p actionPatterns ->
  exists kind r, regex_of p = Seq (lit ("<action:" +:+ kind)) r.
Proof.
  intros [<-|[<-|[<-|[<-|[]]]]].
  - eexists "install_package", _. reflexivity.
  - eexists "create_file", _. reflexivity.
  - eexists "create_folder", _. reflexivity.
  - eexists "run_script", _. reflexivity.
Qed.

Lemma pattern_prefix p c m :
  In p actionPatterns -> matchAt (regex_of p) c = Some m ->
  Js.startsWith (rest c) "<action:" = true.
Proof.
  intros Hp Hm. unfold matchAt in Hm.
  destruct (rmatch (regex_of p) (c, []) Some) as [[e cs]|] eqn:E; [|discriminate].
  clear Hm. destruct (pattern_shape p Hp) as (kind & r & Hr). rewrite Hr in E.
  change (rmatch (Seq (lit ("<action:" +:+ kind)) r) (c, []) Some)
    with (rmatch (lit ("<action:" +:+ kind)) (c, []) (fun y => rmatch r y Some)) in E.
  apply rmatch_lit_prefix in E. exact (startsWith_shorter _ _ _ E).
Qed.

Lemma searchFrom_includes r K :
  (forall c m, matchAt r c = Some m -> Js.startsWith (rest c) K = true) ->
  forall s i p m, searchFrom r i p s = Some m -> Js.includes s K = true.
Proof.
  intros Hr. induction s as [|a s IH]; intros i p m Hs; simpl in Hs.
  - destruct (matchAt r (Cursor i p EmptyString)) as [m'|] eqn:E; [|discriminate].
    apply Hr in E. cbn [rest] in E. rewrite includes_unfold, E. reflexivity.
  - destruct (matchAt r (Cursor i p (String a s))) as [m'|] eqn:E.
    + apply Hr in E. cbn [rest] in E. rewrite includes_unfold, E. reflexivity.
    + apply IH in Hs. rewrite includes_unfold, Hs. apply orb_true_r.
Qed.

Lemma matchesOf_none p aiResponse :
  In p actionPatterns -> Js.includes aiResponse "<action:" = false ->
  matchesOf p aiResponse = Some [].
Proof.
  intros Hp Hnone. unfold matchesOf. simpl.
  destruct (search (regex_of p) (start aiResponse)) as [m|] eqn:E; [|reflexivity].
  unfold search in E. simpl in E.
  apply (searchFrom_includes _ "<action:" (fun c m => pattern_prefix p c m Hp)) in E.
  congruence.
Qed.

(** X9. An answer that does not contain the text [<action:] yields no
    request, and step 4 then does nothing at all: no executor is made,
    nothing is run or asked, nothing is reported. *)
Theorem no_marker_no_action `{AgentHost} `{!ActionHost}
    (aiResponse : string) (config : SmartAgentConfig) (s : State) :
  Js.includes aiResponse "<action:" = false ->
  parseActions aiResponse = [] /\
  runActions config aiResponse s = (Returned (None, []), s).
Proof.
  intros Hnone.
  assert (Hp : parseActions aiResponse = []).
  { unfold parseActions, parseActionsFuel, actionPatterns, parseLoop.
    pose proof (matchesOf_none installPattern aiResponse) as E1.
    pose proof (matchesOf_none createFilePattern aiResponse) as E2.
    pose proof (matchesOf_none createFolderPattern aiResponse) as E3.
    pose proof (matchesOf_none runScriptPattern aiResponse) as E4.
    unfold matchesOf in E1, E2, E3, E4.
    rewrite E1, E2, E3, E4; simpl; auto 6. }
  split; [exact Hp|].
  unfold runActions. rewrite Hp.
  destruct (workspacePath config) as [path|]; [|reflexivity].
  destruct (Js.isEmptyStr path); reflexivity.
Qed.

Lemma no_marker_no_action_witness :
  parseActions "const x = a < b ? 1 : 2;" = [] /\
  @runActions Scripted.platform (Scripted.actions noConfiguration)
    (Extension.agentConfig (Scripted.payload "a.ts" "fix typo" "x") "key" noConfiguration)
    "const x = a < b ? 1 : 2;" Scripted.initial
  = (Returned (None, []), Scripted.initial).
Proof.
  apply (@no_marker_no_action Scripted.platform (Scripted.agent silent)
           (Scripted.actions noConfiguration)).
  reflexivity.
Defined.

End ParserExtras.

(** ** More on the retry loop *)

Module LoopExtras.
Import AutonomousActions SmartAgent Terms Samples ActionFacts LoopFacts CacheFacts RunFacts.

Section WithHost.
Context `{AgentHost} `{!ActionHost} `{!CodeValidator.TypeScript}.
Variable config : SmartAgentConfig.

(** Steps 1 to 2.5 return unless a web search throws. *)
Lemma prepare_returns s :
  searchReturns config ->
  exists prepared s0,
    prepare config s = (Returned prepared, s0) /\
    modelInvocations (trace s0) = modelInvocations (trace s).
Proof.
  intros Hsearch.
  destruct (prepare config s) as [[prepared|e] s0] eqn:Hprep.
  - exists prepared, s0. split; [reflexivity|]. exact (prepare_quiet _ _ _ _ Hprep).
  - exfalso. revert Hprep. unfold prepare.
    unfold bind at 1, emit at 1. unfold bind at 1, emit at 1.
    unfold bind at 1. cbv beta iota.
    match goal with
    | |- context [match ?m ?st with _ => _ end] =>
        assert (Hc : exists c s1, m st = (Returned c, s1))
    end.
    { destruct (workspacePath config) as [path|]; [|do 2 eexists; reflexivity].
      destruct (needsContext _ && negb (Js.isEmptyStr path) && negb (isInstant _));
        [|do 2 eexists; reflexivity].
      unfold bind at 1, emit at 1.
      match goal with
      | |- context [getProjectCache path ?st] =>
          destruct (getProjectCache_quiet path st) as (c & s1 & E & _)
      end.
      rewrite E. do 2 eexists. reflexivity. }
    destruct Hc as (c & s1 & ->).
    destruct (webSearchEnabled config); [|discriminate].
    destruct (shouldTriggerSearch (userPrompt config)) as [request|] eqn:Hreq;
      [|discriminate].
    unfold bind at 1, emit at 1. unfold bind at 1, emit at 1.
    unfold bind at 1, call at 1. simpl.
    destruct (Hsearch request Hreq (world s1)) as (found & w1 & ->).
    destruct (searchSuccess found && negb (CV.isEmpty (results found)));
      unfold bind, emit, ret; simpl; discriminate.
Qed.

Variable startTime : Z.
Variable prepared : Prepared.

Lemma attempt_answered output vars s :
  answers output -> Js.isEmptyStr output = false ->
  exists out s',
    attempt config startTime prepared vars s = (Returned out, s') /\
    invoked s s' /\ passed config output vars out.
Proof.
  intros Hanswers Hfull. unfold attempt.
  match goal with
  | |- context [bind ?pm _] =>
      assert (Hp : exists up msg, pm s = (Returned up, snd (emit (Progress msg) s)))
  end.
  { destruct (lastValidationResult vars) as [last|].
    - destruct ((0 <? retryCount vars) && negb (CV.isValid last));
        do 2 eexists; unfold bind, emit, ret; simpl; reflexivity.
    - do 2 eexists; unfold bind, emit, ret; simpl; reflexivity. }
  destruct Hp as (up & msg & Hp).
  unfold bind at 1. rewrite Hp. clear Hp.
  unfold bind at 1. unfold emit at 1. unfold bind at 1. unfold call at 1.
  simpl.
  match goal with
  | |- context [callAI ?a ?b ?c ?d ?w] =>
      destruct (Hanswers a b c d w) as (w' & ->)
  end.
  assert (Hinv : forall st : State,
            modelInvocations (trace st)
            = modelInvocations ((trace s ++ [Progress msg])
                                ++ [ModelRequest (getSmartSystemPrompt (mode (analysis prepared)) (cache prepared) (webSearchEnabled config)) up]) ->
            invoked s st).
  { intros st Hst. unfold invoked. rewrite Hst, !modelInvocations_app.
    unfold modelInvocations; simpl. lia. }
  unfold truthy. rewrite Hfull.
  change (negb (negb false)) with false. cbv iota.
  change (default "" (Some output)) with output.
  unfold bind at 1.
  match goal with
  | |- context [runActions config output ?st] =>
      destruct (runActions_spec config output st) as (ex & acts & s1 & Hacts & Hcount)
  end.
  rewrite Hacts. simpl in Hcount. unfold passed.
  destruct (validationEnabled config) eqn:Hval.
  - unfold bind at 1, emit at 1. unfold bind at 1, emit at 1. simpl.
    destruct (CV.isValid (CV.validateCode (Clean.cleanCodeResponse output)
                            (basename (currentFile config)))) eqn:Hvalid.
    + unfold bind, dateNow, ret. simpl. do 2 eexists. split; [reflexivity|]. split.
      * apply Hinv. simpl. rewrite !modelInvocations_app, Hcount.
        rewrite !modelInvocations_app. unfold modelInvocations; simpl. lia.
      * right; left. split; [reflexivity|]. split; [reflexivity|].
        eexists. split; [reflexivity|]. repeat split.
    + unfold bind at 1, emit at 1. simpl.
      destruct (retryCount vars <? effectiveMaxRetries config) eqn:Hlt.
      * unfold ret. do 2 eexists. split; [reflexivity|]. split.
        -- apply Hinv. simpl. rewrite !modelInvocations_app, Hcount.
           rewrite !modelInvocations_app. unfold modelInvocations; simpl. lia.
        -- right; right; left. split; [reflexivity|]. split; [reflexivity|].
           split; [apply Z.ltb_lt; assumption | reflexivity].
      * unfold bind, dateNow, ret. simpl. do 2 eexists. split; [reflexivity|]. split.
        -- apply Hinv. simpl. rewrite !modelInvocations_app, Hcount.
           rewrite !modelInvocations_app. unfold modelInvocations; simpl. lia.
        -- right; right; right. split; [reflexivity|]. split; [reflexivity|].
           split; [apply Z.ltb_ge; assumption|].
           eexists. split; [reflexivity|]. repeat split.
  - unfold bind, dateNow, ret. simpl. do 2 eexists. split; [reflexivity|]. split.
    + apply Hinv. simpl. rewrite Hcount. reflexivity.
    + left. split; [reflexivity|]. eexists. split; [reflexivity|]. repeat split.
Qed.

Lemma attempt_thrown e vars s :
  alwaysThrows e ->
  exists s', attempt config startTime prepared vars s = (Thrown e, s') /\ invoked s s'.
Proof.
  intros Hthrows. unfold attempt.
  match goal with
  | |- context [bind ?pm _] =>
      assert (Hp : exists up msg, pm s = (Returned up, snd (emit (Progress msg) s)))
  end.
  { destruct (lastValidationResult vars) as [last|].
    - destruct ((0 <? retryCount vars) && negb (CV.isValid last));
        do 2 eexists; unfold bind, emit, ret; simpl; reflexivity.
    - do 2 eexists; unfold bind, emit, ret; simpl; reflexivity. }
  destruct Hp as (up & msg & Hp).
  unfold bind at 1. rewrite Hp. clear Hp.
  unfold bind at 1. unfold emit at 1. unfold bind at 1. unfold call at 1.
  simpl.
  match goal with
  | |- context [callAI ?a ?b ?c ?d ?w] =>
      destruct (Hthrows a b c d w) as (w' & ->)
  end.
  eexists. split; [reflexivity|].
  unfold invoked. simpl. rewrite !modelInvocations_app.
  unfold modelInvocations; simpl. lia.
Qed.

(** A pass that throws [e] whatever the state. *)
Lemma attempt_silent vars s :
  answersNothing ->
  exists s', attempt config startTime prepared vars s
             = (Thrown "Error: AI did not return code", s') /\ invoked s s'.
Proof.
  intros Hnothing. unfold attempt.
  match goal with
  | |- context [bind ?pm _] =>
      assert (Hp : exists up msg, pm s = (Returned up, snd (emit (Progress msg) s)))
  end.
  { destruct (lastValidationResult vars) as [last|].
    - destruct ((0 <? retryCount vars) && negb (CV.isValid last));
        do 2 eexists; unfold bind, emit, ret; simpl; reflexivity.
    - do 2 eexists; unfold bind, emit, ret; simpl; reflexivity. }
  destruct Hp as (up & msg & Hp).
  unfold bind at 1. rewrite Hp. clear Hp.
  unfold bind at 1. unfold emit at 1. unfold bind at 1. unfold call at 1.
  simpl.
  match goal with
  | |- context [callAI ?a ?b ?c ?d ?w] =>
      destruct (Hnothing a b c d w) as (answer & w' & -> & Hfalse)
  end.
  rewrite Hfalse. simpl negb. cbv iota. unfold throw.
  eexists. split; [reflexivity|].
  unfold invoked. simpl. rewrite !modelInvocations_app.
  unfold modelInvocations; simpl. lia.
Qed.

(** The loop when every pass throws: [maxRetries] retries, then the
    error leaves the loop. *)
Lemma retryLoop_failing e :
  (forall vars s, exists s',
      attempt config startTime prepared vars s = (Thrown e, s') /\ invoked s s') ->
  forall fuel vars s,
    retryCount vars <= effectiveMaxRetries config ->
    (passesLeft config vars <= fuel)%nat ->
    exists vars' s',
      retryLoop config startTime prepared fuel vars s = Some (Thrown e, vars', s') /\
      retryCount vars' = effectiveMaxRetries config /\
      modelInvocations (trace s')
      = (modelInvocations (trace s) + passesLeft config vars)%nat.
Proof.
  intros Hthrows.
  induction fuel as [|fuel IH]; intros vars s Hle Hfuel.
  - unfold passesLeft in Hfuel. lia.
  - simpl. destruct (retryCount vars <=? effectiveMaxRetries config) eqn:Hleb.
    2:{ apply Z.leb_gt in Hleb. lia. }
    destruct (Hthrows vars s) as (s1 & -> & Hinv). unfold invoked in Hinv.
    destruct (retryCount vars <? effectiveMaxRetries config) eqn:Hlt.
    + apply Z.ltb_lt in Hlt.
      match goal with
      | |- context [retryLoop _ _ _ fuel ?v ?st] =>
          destruct (IH v st) as (vars' & s' & -> & Hrc & Hcount)
      end.
      { simpl. lia. }
      { unfold passesLeft in *. simpl. lia. }
      exists vars', s'. split; [reflexivity|]. split; [assumption|].
      rewrite Hcount. simpl. rewrite modelInvocations_app, modelInvocations_progress.
      unfold passesLeft in *. simpl. lia.
    + apply Z.ltb_ge in Hlt. exists vars, s1. split; [reflexivity|].
      split; [lia|]. rewrite Hinv. unfold passesLeft. 
      replace (effectiveMaxRetries config + 1 - retryCount vars) with 1 by lia.
      simpl. lia.
Qed.

(** The loop when every answer is [output] and validation rejects it. *)
Lemma retryLoop_rejected output :
  answers output -> Js.isEmptyStr output = false ->
  validationEnabled config = true ->
  let cleaned := Clean.cleanCodeResponse output in
  let v := CV.validateCode cleaned (basename (currentFile config)) in
  CV.isValid v = false ->
  forall fuel vars s,
    retryCount vars <= effectiveMaxRetries config ->
    (passesLeft config vars <= fuel)%nat ->
    exists r vars' s',
      retryLoop config startTime prepared fuel vars s = Some (Returned r, vars', s') /\
      success r = false /\ code r = Some cleaned /\
      retries r = Some (effectiveMaxRetries config) /\
      validationErrors r = Some (map CV.message (CV.errors v)) /\
      error r = Some ("Code validation failed after "
                      +:+ showZ (effectiveMaxRetries config)
                      +:+ " retries: " +:+ CV.getErrorSummary v) /\
      modelInvocations (trace s')
      = (modelInvocations (trace s) + passesLeft config vars)%nat.
Proof.
  intros Hanswers Hfull Hval cleaned v Hbad.
  induction fuel as [|fuel IH]; intros vars s Hle Hfuel.
  - unfold passesLeft in Hfuel. lia.
  - simpl. destruct (retryCount vars <=? effectiveMaxRetries config) eqn:Hleb.
    2:{ apply Z.leb_gt in Hleb. lia. }
    destruct (attempt_answered output vars s Hanswers Hfull)
      as (out & s1 & -> & Hinv & Hpass).
    unfold invoked in Hinv. unfold passed in Hpass. cbv zeta in Hpass.
    fold cleaned in Hpass. fold v in Hpass.
    destruct Hpass as [(Hv & _)|[(_ & Hv & _)|[(_ & _ & Hlt & ->)|(_ & _ & Hge & r & -> & Hr)]]].
    + congruence.
    + congruence.
    + match goal with
      | |- context [retryLoop _ _ _ fuel ?v0 ?st] =>
          destruct (IH v0 st) as (r & vars' & s' & -> & R1 & R2 & R3 & R4 & R5 & Hcount)
      end.
      { simpl. lia. }
      { unfold passesLeft in *. simpl. lia. }
      exists r, vars', s'. split; [reflexivity|].
      repeat (split; [assumption|]).
      rewrite Hcount, Hinv. unfold passesLeft in *. simpl. lia.
    + destruct Hr as (R1 & R2 & R3 & R4 & R5 & R6).
      do 3 eexists. split; [reflexivity|].
      split; [assumption|]. split; [assumption|].
      split; [rewrite R3; f_equal; lia|].
      split; [assumption|]. split; [assumption|].
      rewrite Hinv. unfold passesLeft.
      replace (effectiveMaxRetries config + 1 - retryCount vars) with 1 by lia.
      simpl. lia.
Qed.

(** The loop when the first answer is taken. *)
Lemma retryLoop_accepted output :
  answers output -> Js.isEmptyStr output = false ->
  let cleaned := Clean.cleanCodeResponse output in
  let v := CV.validateCode cleaned (basename (currentFile config)) in
  validationEnabled config = false \/ CV.isValid v = true ->
  forall fuel s,
    0 <= effectiveMaxRetries config ->
    exists r vars' s',
      retryLoop config startTime prepared (S fuel) (mkLoopVars 0 None) s
      = Some (Returned r, vars', s') /\
      success r = true /\ code r = Some cleaned /\ retries r = Some 0 /\
      validated r = Some (validationEnabled config) /\
      invoked s s'.
Proof.
  intros Hanswers Hfull cleaned v Hok fuel s Hmax.
  simpl. destruct (0 <=? effectiveMaxRetries config) eqn:Hleb.
  2:{ apply Z.leb_gt in Hleb. lia. }
  destruct (attempt_answered output (mkLoopVars 0 None) s Hanswers Hfull)
    as (out & s1 & -> & Hinv & Hpass).
  unfold passed in Hpass. cbv zeta in Hpass.
  fold cleaned in Hpass. fold v in Hpass.
  destruct Hpass as [(Hv & r & -> & Hr)|[(Hv & _ & r & -> & Hr)|[(Hv & Hbad & _)|(Hv & Hbad & _)]]].
  - destruct Hr as (R1 & R2 & R3 & R4). do 3 eexists. split; [reflexivity|].
    rewrite Hv. repeat (split; [assumption|]). assumption.
  - destruct Hr as (R1 & R2 & R3 & R4 & R5). do 3 eexists. split; [reflexivity|].
    rewrite Hv. repeat (split; [assumption|]). assumption.
  - destruct Hok; congruence.
  - destruct Hok; congruence.
Qed.

End WithHost.
End LoopExtras.

(** ** How a run ends *)

Module Outcomes.
Import AutonomousActions SmartAgent Terms Samples ActionFacts LoopFacts RunFacts LoopExtras.

Section WithHost.
Context `{AgentHost} `{!ActionHost} `{!CodeValidator.TypeScript}.

(** A run whose every pass throws [e]. *)
Lemma run_failing config e s :
  searchReturns config -> 0 <= effectiveMaxRetries config ->
  (forall startTime prepared vars s0, exists s',
      attempt config startTime prepared vars s0 = (Thrown e, s') /\ invoked s0 s') ->
  exists vars s',
    executeSmartAgent config s
    = Some (failedToProcess e (effectiveMaxRetries config)
              (now (world s') - now (world s)), vars, s') /\
    modelInvocations (trace s') = (modelInvocations (trace s) + passes config)%nat.
Proof.
  intros Hsearch Hmax Hthrows.
  unfold executeSmartAgent, executeSmartAgentFuel.
  destruct (prepare_returns config s Hsearch) as (prepared & s0 & -> & Hquiet).
  destruct (retryLoop_failing config (now (world s)) prepared e
              (Hthrows (now (world s)) prepared) (passes config) (mkLoopVars 0 None) s0)
    as (vars & s1 & -> & Hrc & Hcount).
  { simpl. lia. }
  { unfold passesLeft, passes. simpl. lia. }
  simpl.
  exists vars, (mkState (world s1) (projectCaches s1)
                  (trace s1 ++ [ConsoleError "Smart agent error:" e])).
  split.
  - rewrite Hrc. reflexivity.
  - simpl. rewrite modelInvocations_app, Hcount, Hquiet.
    change (modelInvocations [ConsoleError "Smart agent error:" e]) with O.
    unfold passesLeft, passes. simpl. rewrite Z.sub_0_r. lia.
Qed.

(** X10: when validation is on and the model keeps giving an answer that
    validation rejects, the run asks the model once and then once more
    for each retry the code works with, and returns a failure that
    carries the cleaned answer, the number of retries, the messages of
    the errors found and the text
    [Code validation failed after N retries: ...]. *)
Theorem rejected_answers_exhaust_retries config output s :
  answers output -> Js.isEmptyStr output = false ->
  searchReturns config -> 0 <= effectiveMaxRetries config ->
  validationEnabled config = true ->
  CV.isValid (CV.validateCode (Clean.cleanCodeResponse output)
                (basename (currentFile config))) = false ->
  exists r vars s',
    executeSmartAgent config s = Some (r, vars, s') /\
    success r = false /\
    code r = Some (Clean.cleanCodeResponse output) /\
    retries r = Some (effectiveMaxRetries config) /\
    validationErrors r
    = Some (map CV.message
              (CV.errors (CV.validateCode (Clean.cleanCodeResponse output)
                            (basename (currentFile config))))) /\
    error r
    = Some ("Code validation failed after " +:+ showZ (effectiveMaxRetries config)
            +:+ " retries: "
            +:+ CV.getErrorSummary
                  (CV.validateCode (Clean.cleanCodeResponse output)
                     (basename (currentFile config)))) /\
    modelInvocations (trace s') = (modelInvocations (trace s) + passes config)%nat.
Proof.
  intros Hanswers Hfull Hsearch Hmax Hval Hbad.
  unfold executeSmartAgent, executeSmartAgentFuel.
  destruct (prepare_returns config s Hsearch) as (prepared & s0 & -> & Hquiet).
  destruct (retryLoop_rejected config (now (world s)) prepared output
              Hanswers Hfull Hval Hbad (passes config) (mkLoopVars 0 None) s0)
    as (r & vars & s1 & -> & R1 & R2 & R3 & R4 & R5 & Hcount).
  { simpl. lia. }
  { unfold passesLeft, passes. simpl. lia. }
  exists r, vars, s1. split; [reflexivity|].
  repeat (split; [assumption|]).
  rewrite Hcount, Hquiet. unfold passesLeft, passes. simpl.
  rewrite Z.sub_0_r. reflexivity.
Qed.

(** X11: when every request to the model throws, the error is retried
    as often as the code allows, never more, and then reported: the run
    returns [success: false] without code, with the number of retries
    and [Failed to process: ] followed by the error of the model. *)
Theorem model_failure_reported config e s :
  alwaysThrows e -> searchReturns config -> 0 <= effectiveMaxRetries config ->
  exists r vars s',
    executeSmartAgent config s = Some (r, vars, s') /\
    success r = false /\ code r = None /\
    error r = Some ("Failed to process: " +:+ e) /\
    retries r = Some (effectiveMaxRetries config) /\
    modelInvocations (trace s') = (modelInvocations (trace s) + passes config)%nat.
Proof.
  intros Hthrows Hsearch Hmax.
  destruct (run_failing config e s Hsearch Hmax) as (vars & s' & Hrun & Hcount).
  { intros startTime prepared vars s0.
    exact (attempt_thrown config startTime prepared e vars s0 Hthrows). }
  do 3 eexists. split; [exact Hrun|]. repeat split. exact Hcount.
Qed.

(** X12: a model that returns no text (null or the empty string) is
    treated as a failing one: each pass throws
    [AI did not return code], the passes are retried, and the run reports
    [Failed to process: Error: AI did not return code] without code. *)
Theorem empty_answer_reported config s :
  answersNothing -> searchReturns config -> 0 <= effectiveMaxRetries config ->
  exists r vars s',
    executeSmartAgent config s = Some (r, vars, s') /\
    success r = false /\ code r = None /\
    error r = Some "Failed to process: Error: AI did not return code" /\
    retries r = Some (effectiveMaxRetries config) /\
    modelInvocations (trace s') = (modelInvocations (trace s) + passes config)%nat.
Proof.
  intros Hnothing Hsearch Hmax.
  destruct (run_failing config "Error: AI did not return code" s Hsearch Hmax)
    as (vars & s' & Hrun & Hcount).
  { intros startTime prepared vars s0.
    exact (attempt_silent config startTime prepared vars s0 Hnothing). }
  do 3 eexists. split; [exact Hrun|]. repeat split. exact Hcount.
Qed.

(** X13: when the first answer of the model is not empty and either
    validation is off or the cleaned answer passes it, the run succeeds
    with that cleaned answer, reports 0 retries, and has asked the model
    exactly once. *)
Theorem first_answer_accepted config output s :
  answers output -> Js.isEmptyStr output = false ->
  searchReturns config -> 0 <= effectiveMaxRetries config ->
  validationEnabled config = false \/
  CV.isValid (CV.validateCode (Clean.cleanCodeResponse output)
                (basename (currentFile config))) = true ->
  exists r vars s',
    executeSmartAgent config s = Some (r, vars, s') /\
    success r = true /\
    code r = Some (Clean.cleanCodeResponse output) /\
    retries r = Some 0 /\
    validated r = Some (validationEnabled config) /\
    invoked s s'.
Proof.
  intros Hanswers Hfull Hsearch Hmax Hok.
  unfold executeSmartAgent, executeSmartAgentFuel.
  destruct (prepare_returns config s Hsearch) as (prepared & s0 & -> & Hquiet).
  destruct (passes config) as [|fuel] eqn:Hpasses.
  { unfold passes in Hpasses. lia. }
  destruct (retryLoop_accepted config (now (world s)) prepared output
              Hanswers Hfull Hok fuel s0 Hmax)
    as (r & vars & s1 & -> & R1 & R2 & R3 & R4 & Hinv).
  exists r, vars, s1. split; [reflexivity|].
  repeat (split; [assumption|]).
  unfold invoked in *. rewrite Hinv, Hquiet. reflexivity.
Qed.

End WithHost.

Lemma rejected_answers_exhaust_retries_witness :
  exists r vars s',
    @executeSmartAgent Scripted.platform (Scripted.agent alwaysUnbalanced)
      (Scripted.actions noConfiguration) Scripted.compiler textConfig Scripted.initial
    = Some (r, vars, s') /\
    success r = false /\ code r = Some "f(" /\ retries r = Some 2 /\
    modelInvocations (trace s') = 3%nat.
Proof.
  destruct (@rejected_answers_exhaust_retries Scripted.platform
              (Scripted.agent alwaysUnbalanced) (Scripted.actions noConfiguration)
              Scripted.compiler textConfig Scripted.unbalanced Scripted.initial)
    as (r & vars & s' & Hrun & R1 & R2 & R3 & _ & _ & Hcount).
  - intros key name sp up w. eexists. reflexivity.
  - reflexivity.
  - intros request Hrequest. discriminate Hrequest.
  - vm_compute. discriminate.
  - reflexivity.
  - vm_compute. reflexivity.
  - exists r, vars, s'. split; [exact Hrun|].
    split; [exact R1|]. split; [exact R2|]. split; [exact R3|]. exact Hcount.
Defined.

Lemma model_failure_reported_witness :
  exists r vars s',
    @executeSmartAgent Scripted.platform (Scripted.agent unreachable)
      (Scripted.actions noConfiguration) Scripted.compiler textConfig Scripted.initial
    = Some (r, vars, s') /\
    success r = false /\ code r = None /\
    error r = Some "Failed to process: Error: 503" /\
    retries r = Some 2 /\ modelInvocations (trace s') = 3%nat.
Proof.
  apply (@model_failure_reported Scripted.platform (Scripted.agent unreachable)
           (Scripted.actions noConfiguration) Scripted.compiler textConfig
           "Error: 503" Scripted.initial).
  - intros key name sp up w. eexists. reflexivity.
  - intros request Hrequest. discriminate Hrequest.
  - vm_compute. discriminate.
Defined.

Lemma empty_answer_reported_witness :
  exists r vars s',
    @executeSmartAgent Scripted.platform (Scripted.agent mute)
      (Scripted.actions noConfiguration) Scripted.compiler textConfig Scripted.initial
    = Some (r, vars, s') /\
    success r = false /\ code r = None /\
    error r = Some "Failed to process: Error: AI did not return code" /\
    retries r = Some 2 /\ modelInvocations (trace s') = 3%nat.
Proof.
  apply (@empty_answer_reported Scripted.platform (Scripted.agent mute)
           (Scripted.actions noConfiguration) Scripted.compiler textConfig
           Scripted.initial).
  - intros key name sp up w. do 2 eexists. split; reflexivity.
  - intros request Hrequest. discriminate Hrequest.
  - vm_compute. discriminate.
Defined.

Lemma first_answer_accepted_witness :
  exists r vars s',
    @executeSmartAgent Scripted.platform (Scripted.agent alwaysBalanced)
      (Scripted.actions noConfiguration) Scripted.compiler textConfig Scripted.initial
    = Some (r, vars, s') /\
    success r = true /\ code r = Some "f()" /\ retries r = Some 0 /\
    validated r = Some true /\ modelInvocations (trace s') = 1%nat.
Proof.
  apply (@first_answer_accepted Scripted.platform (Scripted.agent alwaysBalanced)
           (Scripted.actions noConfiguration) Scripted.compiler textConfig
           "f()" Scripted.initial).
  - intros key name sp up w. eexists. reflexivity.
  - reflexivity.
  - intros request Hrequest. discriminate Hrequest.
  - vm_compute. discriminate.
  - right. vm_compute. reflexivity.
Defined.

End Outcomes.

(** ** What a run leaves behind *)

Module Frames.
Import AutonomousActions SmartAgent Terms Samples ActionFacts LoopFacts CacheFacts RunFacts.
Import JsFacts StringFacts.

Section WithHost.
Context `{AgentHost} `{!ActionHost} `{!CodeValidator.TypeScript}.

Lemma succeeded_in_policy (policy : ActionConfig) (path : string) :
  forall batch outcomes,
  Forall2 (fun action result =>
             isActionAllowed policy (type action) = false ->
             result = denied action) batch outcomes ->
  Forall (fun action =>
            AutonomousActions.workspacePath action = path /\
            isActionAllowed policy (type action) = true)
    (succeeded (map (inWorkspace path) batch) outcomes).
Proof.
  intros batch outcomes Hall.
  induction Hall as [|action result batch outcomes Hd Hall IH]; simpl; [constructor|].
  destruct (AutonomousActions.success result) eqn:Hs; [|exact IH].
  constructor; [|exact IH]. split; [reflexivity|]. simpl.
  destruct (isActionAllowed policy (type action)) eqn:Ha; [reflexivity|].
  rewrite (Hd eq_refl) in Hs. discriminate.
Qed.

Variable config : SmartAgentConfig.

(** Step 4 adds to the trace, leaves the cache alone, and hands back an
    executor that recorded what the run recorded. *)
Lemma runActions_frame code s :
  exists ex acts s' t,
    runActions config code s = (Returned (ex, acts), s') /\
    trace s' = trace s ++ t /\
    projectCaches s' = projectCaches s /\
    (ex = None /\ acts = [] \/ exists e, ex = Some e /\ executedActions e = acts) /\
    Forall (permitted config) acts.
Proof.
  unfold runActions.
  destruct (SmartAgent.workspacePath config) as [path|] eqn:Hpath.
  2:{ exists None, [], s, []. rewrite app_nil_r. repeat split; auto. }
  destruct (Js.isEmptyStr path).
  { exists None, [], s, []. rewrite app_nil_r. repeat split; auto. }
  destruct (CV.isEmpty (ActionParser.parseActions code)).
  { exists None, [], s, []. rewrite app_nil_r. repeat split; auto. }
  unfold bind at 1, emit at 1. unfold bind at 1, ask at 1. unfold bind at 1.
  simpl.
  match goal with
  | |- context [executeActions ?ws ?b ?ex ?acc ?st] =>
      destruct (executeActions_spec ws b ex acc st)
        as (outs & ex' & s' & E & _ & _ & T & Hc & Hcfg & Hex & Hd)
  end.
  rewrite E. simpl in *. do 4 eexists. split; [reflexivity|].
  split; [rewrite T; rewrite <- app_assoc; reflexivity|].
  split; [exact Hc|]. split.
  - right. exists ex'. split; [reflexivity | exact Hex].
  - apply succeeded_in_policy with (path := path) in Hd.
    eapply Forall_impl; [exact Hd|].
    intros action [Hw Ha]. split; [rewrite Hw; exact Hpath|].
    eexists. exact Ha.
Qed.

Variable startTime : Z.
Variable prepared : Prepared.

Lemma resultOf_recorded ok code err checked score n errs acts ex t :
  (ex = None /\ acts = [] \/ exists e, ex = Some e /\ executedActions e = acts) ->
  Forall (permitted config) acts ->
  recorded config (resultOf startTime prepared ok code err checked score n errs acts ex t).
Proof.
  intros Hex Hall. exists acts. split; [reflexivity|]. split; [reflexivity|].
  split; [|exact Hall]. simpl.
  destruct Hex as [(-> & ->)|(e & -> & He)]; simpl; [reflexivity|].
  exists e. split; [reflexivity | exact He].
Qed.

(** One pass: the cache is left alone; the trace grows by the progress
    message, one request to the model, and what follows; on a retry
    after a rejected answer the request carries the error context of the
    verdict; a result that is returned describes the side effects. *)
Lemma attempt_frame vars s out s' :
  attempt config startTime prepared vars s = (out, s') ->
  projectCaches s' = projectCaches s /\
  (exists msg sp up t,
     trace s' = trace s ++ Progress msg :: ModelRequest sp up :: t /\
     (forall last, lastValidationResult vars = Some last ->
        0 < retryCount vars -> CV.isValid last = false ->
        Js.includes up (CV.generateErrorContext last) = true) /\
     Js.includes up
       (buildUserPrompt config (analysis prepared) (cache prepared)
          (webSearchResult prepared) (searchRequest prepared)) = true) /\
  match out with
  | Returned (Return r, _) =>
      recorded config r /\ cachedUsed r = Some (isSome (cache prepared)) /\
      searchReported prepared r
  | _ => True
  end.
Proof.
  unfold attempt.
  match goal with
  | |- context [bind ?pm _] =>
      assert (Hp : exists up msg,
                 pm s = (Returned up, snd (emit (Progress msg) s)) /\
                 (forall last, lastValidationResult vars = Some last ->
                    0 < retryCount vars -> CV.isValid last = false ->
                    Js.includes up (CV.generateErrorContext last) = true) /\
                 Js.includes up
                   (buildUserPrompt config (analysis prepared) (cache prepared)
                      (webSearchResult prepared) (searchRequest prepared)) = true)
  end.
  { destruct (lastValidationResult vars) as [last|].
    - destruct ((0 <? retryCount vars) && negb (CV.isValid last)) eqn:Hretry.
      + do 2 eexists. split; [unfold bind, emit, ret; simpl; reflexivity|]. split.
        * intros last' E _ _. inversion E; subst last'.
          do 4 apply includes_append_r. apply includes_refl.
        * apply includes_append_l, includes_refl.
      + do 2 eexists. split; [unfold bind, emit, ret; simpl; reflexivity|]. split.
        * intros last' E Hpos Hbad. inversion E; subst last'.
          apply Z.ltb_lt in Hpos. rewrite Hpos, Hbad in Hretry. discriminate.
        * apply includes_refl.
    - do 2 eexists. split; [unfold bind, emit, ret; simpl; reflexivity|]. split.
      + intros last' E. discriminate.
      + apply includes_refl. }
  destruct Hp as (up & msg & Hp & Hcontext).
  unfold bind at 1. rewrite Hp. clear Hp.
  unfold bind at 1. unfold emit at 1. unfold bind at 1. unfold call at 1.
  simpl.
  match goal with
  | |- context [callAI ?a ?b ?c ?d ?w] =>
      destruct (callAI a b c d w) as [answer w'] eqn:Hcall; set (sp := c)
  end.
  assert (Hgrow : forall (st : State) t,
            trace st = ((trace s ++ [Progress msg]) ++ [ModelRequest sp up]) ++ t ->
            exists msg0 sp0 up0 t0,
              trace st = trace s ++ Progress msg0 :: ModelRequest sp0 up0 :: t0 /\
              (forall last, lastValidationResult vars = Some last ->
                 0 < retryCount vars -> CV.isValid last = false ->
                 Js.includes up0 (CV.generateErrorContext last) = true) /\
              Js.includes up0
                (buildUserPrompt config (analysis prepared) (cache prepared)
                   (webSearchResult prepared) (searchRequest prepared)) = true).
  { intros st t Hst. exists msg, sp, up, t. split; [|exact Hcontext].
    rewrite Hst, <- !app_assoc. reflexivity. }
  destruct answer as [answer|e].
  2:{ intros Hrun. inversion Hrun; subst. split; [reflexivity|]. split; [|exact I].
      apply (Hgrow _ []). simpl. rewrite app_nil_r. reflexivity. }
  destruct (negb (truthy answer)) eqn:Htruthy.
  { intros Hrun. inversion Hrun; subst. split; [reflexivity|]. split; [|exact I].
    apply (Hgrow _ []). simpl. rewrite app_nil_r. reflexivity. }
  destruct answer as [output|]; [|discriminate].
  change (default "" (Some output)) with output.
  unfold bind at 1.
  match goal with
  | |- context [runActions config output ?st] =>
      destruct (runActions_frame output st)
        as (ex & acts & s1 & t1 & Hacts & Ht1 & Hc1 & Hex & Hall)
  end.
  rewrite Hacts. simpl in Ht1, Hc1.
  destruct (validationEnabled config) eqn:Hval.
  - unfold bind at 1, emit at 1. unfold bind at 1, emit at 1. simpl.
    destruct (CV.isValid (CV.validateCode (Clean.cleanCodeResponse output)
                            (basename (currentFile config)))) eqn:Hvalid.
    + intros Hrun. unfold bind, dateNow, ret in Hrun. simpl in Hrun.
      inversion Hrun; subst. split; [exact Hc1|]. split.
      * eapply Hgrow. simpl. rewrite Ht1, <- !app_assoc. reflexivity.
      * split; [apply resultOf_recorded; assumption | split; [reflexivity | repeat split]].
    + unfold bind at 1, emit at 1. simpl.
      destruct (retryCount vars <? effectiveMaxRetries config) eqn:Hlt.
      * intros Hrun. unfold ret in Hrun. inversion Hrun; subst.
        split; [exact Hc1|]. split; [|exact I].
        eapply Hgrow. simpl. rewrite Ht1, <- !app_assoc. reflexivity.
      * intros Hrun. unfold bind, dateNow, ret in Hrun. simpl in Hrun.
        inversion Hrun; subst. split; [exact Hc1|]. split.
        -- eapply Hgrow. simpl. rewrite Ht1, <- !app_assoc. reflexivity.
        -- split; [apply resultOf_recorded; assumption | split; [reflexivity | repeat split]].
  - intros Hrun. unfold bind, dateNow, ret in Hrun. simpl in Hrun.
    inversion Hrun; subst. split; [exact Hc1|]. split.
    + eapply Hgrow. rewrite Ht1. reflexivity.
    + split; [apply resultOf_recorded; assumption | split; [reflexivity | repeat split]].
Qed.

(** The loop: the same, over all its passes. *)
Lemma retryLoop_frame :
  forall fuel vars s out vars' s',
  retryLoop config startTime prepared fuel vars s = Some (out, vars', s') ->
  projectCaches s' = projectCaches s /\
  (exists t, trace s' = trace s ++ t) /\
  match out with
  | Returned r =>
      recorded config r /\ cachedUsed r = Some (isSome (cache prepared)) /\
      searchReported prepared r
  | Thrown _ => True
  end.
Proof.
  induction fuel as [|fuel IH]; intros vars s out vars' s' Hrun; simpl in Hrun.
  - destruct (retryCount vars <=? effectiveMaxRetries config); [discriminate|].
    inversion Hrun; subst. split; [reflexivity|]. split; [|exact I].
    exists []. rewrite app_nil_r. reflexivity.
  - destruct (retryCount vars <=? effectiveMaxRetries config).
    2:{ inversion Hrun; subst. split; [reflexivity|]. split; [|exact I].
        exists []. rewrite app_nil_r. reflexivity. }
    destruct (attempt config startTime prepared vars s) as [[[[|r] vars1]|e] s1] eqn:Hatt;
      apply attempt_frame in Hatt as (Hc & (msg & sp & up & t & Ht & _) & Hr).
    + apply IH in Hrun as (Hc2 & (t2 & Ht2) & Hout).
      split; [congruence|]. split; [|exact Hout].
      eexists. rewrite Ht2, Ht, <- app_assoc. reflexivity.
    + inversion Hrun; subst. split; [exact Hc|]. split; [|exact Hr].
      eexists. exact Ht.
    + destruct (retryCount vars <? effectiveMaxRetries config).
      * apply IH in Hrun as (Hc2 & (t2 & Ht2) & Hout). simpl in Hc2, Ht2.
        split; [congruence|]. split; [|exact Hout].
        eexists. rewrite Ht2, Ht, <- !app_assoc. reflexivity.
      * inversion Hrun; subst. split; [exact Hc|]. split; [|exact I].
        eexists. exact Ht.
Qed.

(** A loop entered after a rejected answer sends the error context of
    that verdict to the model. *)
Lemma retryLoop_told fuel vars s out vars' s' last :
  retryLoop config startTime prepared fuel vars s = Some (out, vars', s') ->
  lastValidationResult vars = Some last ->
  0 < retryCount vars <= effectiveMaxRetries config ->
  CV.isValid last = false ->
  exists sp up,
    In (ModelRequest sp up) (trace s') /\
    Js.includes up (CV.generateErrorContext last) = true.
Proof.
  intros Hrun Hlast [Hpos Hle] Hbad.
  destruct fuel as [|fuel]; simpl in Hrun;
    destruct (retryCount vars <=? effectiveMaxRetries config) eqn:Hleb;
    try discriminate; try (apply Z.leb_gt in Hleb; lia).
  destruct (attempt config startTime prepared vars s) as [[[[|r] vars1]|e] s1] eqn:Hatt;
    apply attempt_frame in Hatt as (_ & (msg & sp & up & t & Ht & Hctx & _) & _);
    exists sp, up; (split; [|exact (Hctx last Hlast Hpos Hbad)]).
  - apply retryLoop_frame in Hrun as (_ & (t2 & Ht2) & _).
    rewrite Ht2, Ht, !in_app_iff. simpl. auto 10.
  - inversion Hrun; subst. rewrite Ht, in_app_iff. simpl. auto 10.
  - destruct (retryCount vars <? effectiveMaxRetries config).
    + apply retryLoop_frame in Hrun as (_ & (t2 & Ht2) & _). simpl in Ht2.
      rewrite Ht2, Ht, !in_app_iff. simpl. auto 10.
    + inversion Hrun; subst. rewrite Ht, in_app_iff. simpl. auto 10.
Qed.

End WithHost.

Section Runs.
Context `{AgentHost} `{!ActionHost} `{!CodeValidator.TypeScript}.
Variable config : SmartAgentConfig.

(** Steps 1 to 2.5 touch the snapshot of the run's workspace only, and
    none when there is no workspace or the task is handled in instant
    mode. *)
Lemma prepare_frame s out s' :
  prepare config s = (out, s') ->
  (exists t, trace s' = trace s ++ t) /\
  (forall other, SmartAgent.workspacePath config <> Some other ->
     projectCaches s' !! other = projectCaches s !! other) /\
  (SmartAgent.workspacePath config = None \/
   mode (analyzeTaskComplexity (userPrompt config) (selectedCode config)) = instant ->
   projectCaches s' = projectCaches s /\
   forall p, out = Returned p -> cache p = None).
Proof.
  unfold prepare. unfold bind at 1, emit at 1. unfold bind at 1, emit at 1.
  unfold bind at 1. cbv beta iota.
  match goal with
  | |- context [match ?m ?st with _ => _ end] =>
      assert (Hc : exists c s1,
                m st = (Returned c, s1) /\
                (exists t, trace s1 = trace s ++ t) /\
                (forall other, SmartAgent.workspacePath config <> Some other ->
                   projectCaches s1 !! other = projectCaches s !! other) /\
                (SmartAgent.workspacePath config = None \/
                 mode (analyzeTaskComplexity (userPrompt config) (selectedCode config))
                 = instant ->
                 projectCaches s1 = projectCaches s /\ c = None))
  end.
  { destruct (SmartAgent.workspacePath config) as [path|] eqn:Hpath.
    - destruct (needsContext _ && negb (Js.isEmptyStr path) && negb (isInstant _))
        eqn:Hreads.
      + unfold bind at 1, emit at 1.
        assert (Hmode : mode (analyzeTaskComplexity (userPrompt config)
                                (selectedCode config)) <> instant).
        { intros Hm. rewrite Hm in Hreads. simpl in Hreads.
          rewrite andb_false_r in Hreads. discriminate. }
        match goal with
        | |- context [getProjectCache path ?st] =>
            destruct (getProjectCache_cases path st)
              as [(c & _ & E)|(_ & out1 & s1 & evs & E & T & _ & Hstore)]
        end.
        * rewrite E. unfold hit. do 2 eexists. split; [reflexivity|]. simpl.
          split; [eexists; rewrite <- !app_assoc; reflexivity|].
          split; [reflexivity|].
          intros [Hn|Hm]; [discriminate | contradiction].
        * rewrite E. exists out1, s1. split; [reflexivity|]. simpl in T, Hstore.
          split; [eexists; rewrite T, <- !app_assoc; reflexivity|].
          split.
          -- intros other Hne. destruct out1 as [c|]; rewrite Hstore; [|reflexivity].
             apply lookup_insert_ne. congruence.
          -- intros [Hn|Hm]; [discriminate | contradiction].
      + do 2 eexists. split; [reflexivity|]. simpl.
        split; [eexists; rewrite <- !app_assoc; reflexivity|].
        split; [reflexivity|]. intros _. split; reflexivity.
    - do 2 eexists. split; [reflexivity|]. simpl.
      split; [eexists; rewrite <- !app_assoc; reflexivity|].
      split; [reflexivity|]. intros _. split; reflexivity. }
  destruct Hc as (c & s1 & -> & (t1 & Ht1) & Hother & Hnone).
  assert (Hend : forall (st : State) (res : outcome Prepared) t,
            trace st = trace s1 ++ t -> projectCaches st = projectCaches s1 ->
            (forall p, res = Returned p -> cache p = c) ->
            (exists t0, trace st = trace s ++ t0) /\
            (forall other, SmartAgent.workspacePath config <> Some other ->
               projectCaches st !! other = projectCaches s !! other) /\
            (SmartAgent.workspacePath config = None \/
             mode (analyzeTaskComplexity (userPrompt config) (selectedCode config))
             = instant ->
             projectCaches st = projectCaches s /\
             forall p, res = Returned p -> cache p = None)).
  { intros st res t Ht Hk Hcache.
    split; [eexists; rewrite Ht, Ht1, <- app_assoc; reflexivity|].
    split; [intros other Hne; rewrite Hk; exact (Hother other Hne)|].
    intros Hcond. destruct (Hnone Hcond) as [Hk1 Hc1].
    split; [congruence|]. intros p Hp. rewrite (Hcache p Hp). exact Hc1. }
  destruct (webSearchEnabled config).
  2:{ intros E; inversion E; subst. apply (Hend _ _ []).
      - rewrite app_nil_r; reflexivity.
      - reflexivity.
      - intros p Hp; inversion Hp; reflexivity. }
  destruct (shouldTriggerSearch (userPrompt config)) as [request|].
  2:{ intros E; inversion E; subst. apply (Hend _ _ []).
      - rewrite app_nil_r; reflexivity.
      - reflexivity.
      - intros p Hp; inversion Hp; reflexivity. }
  unfold bind at 1, emit at 1. unfold bind at 1, emit at 1.
  unfold bind at 1, call at 1. simpl.
  destruct (searchWeb request (world s1)) as [[found|e] w1].
  - destruct (searchSuccess found && negb (CV.isEmpty (results found)));
      unfold bind, emit, ret; simpl;
      intros E; inversion E; subst; eapply Hend; simpl;
      [rewrite <- !app_assoc; reflexivity | reflexivity
      | intros p Hp; inversion Hp; reflexivity
      | rewrite <- !app_assoc; reflexivity | reflexivity
      | intros p Hp; inversion Hp; reflexivity].
  - intros E; inversion E; subst; eapply Hend; simpl;
      [rewrite <- !app_assoc; reflexivity | reflexivity | intros p Hp; discriminate].
Qed.

(** A whole run. *)
Lemma run_frame fuel s r vars s' :
  executeSmartAgentFuel fuel config s = Some (r, vars, s') ->
  (forall other, SmartAgent.workspacePath config <> Some other ->
     projectCaches s' !! other = projectCaches s !! other) /\
  (SmartAgent.workspacePath config = None \/
   mode (analyzeTaskComplexity (userPrompt config) (selectedCode config)) = instant ->
   projectCaches s' = projectCaches s /\ cachedUsed r <> Some true) /\
  (forall acts, actionsExecuted r = Some acts -> recorded config r).
Proof.
  unfold executeSmartAgentFuel.
  destruct (prepare config s) as [[prepared|e] s1] eqn:Hprep;
    apply prepare_frame in Hprep as (_ & Hother & Hnone).
  - destruct (retryLoop config (now (world s)) prepared fuel (mkLoopVars 0 None) s1)
      as [[[[r1|e] vars1] s2]|] eqn:Hloop; [| |discriminate];
      apply retryLoop_frame in Hloop as (Hc & _ & Hout);
      intros E; inversion E; subst; simpl.
    + destruct Hout as (Hrec & Hused & _).
      split; [intros other Hne; rewrite Hc; exact (Hother other Hne)|].
      split; [|intros acts _; exact Hrec].
      intros Hcond. destruct (Hnone Hcond) as [Hk Hp].
      split; [congruence|]. rewrite Hused, (Hp prepared eq_refl). discriminate.
    + split; [intros other Hne; rewrite Hc; exact (Hother other Hne)|].
      split; [|intros acts Hacts; discriminate].
      intros Hcond. destruct (Hnone Hcond) as [Hk _].
      split; [congruence | discriminate].
  - intros E; inversion E; subst; simpl.
    split; [exact Hother|]. split; [|intros acts Hacts; discriminate].
    intros Hcond. destruct (Hnone Hcond) as [Hk _].
    split; [exact Hk | discriminate].
Qed.

End Runs.
End Frames.

(** ** The last pass of a run *)

Module LastPassFacts.
Import AutonomousActions SmartAgent Terms Samples ActionFacts LoopFacts RunFacts Frames.

Section WithHost.
Context `{AgentHost} `{!ActionHost} `{!CodeValidator.TypeScript}.
Variable config : SmartAgentConfig.

(** Step 4 creates its executor with the settings of the world it
    starts in, and sends nothing to the model. *)
Lemma runActions_at code s :
  exists ex acts s' t,
    runActions config code s = (Returned (ex, acts), s') /\
    trace s' = trace s ++ t /\ modelInvocations t = O /\
    (ex = None /\ acts = [] \/
     exists e, ex = Some e /\ executedActions e = acts /\
               AutonomousActions.config e = getActionConfig (getConfiguration (world s))) /\
    Forall (permittedAt config (world s)) acts.
Proof.
  unfold runActions.
  destruct (SmartAgent.workspacePath config) as [path|] eqn:Hpath.
  2:{ exists None, [], s, []. rewrite app_nil_r. repeat split; auto. }
  destruct (Js.isEmptyStr path).
  { exists None, [], s, []. rewrite app_nil_r. repeat split; auto. }
  destruct (CV.isEmpty (ActionParser.parseActions code)).
  { exists None, [], s, []. rewrite app_nil_r. repeat split; auto. }
  unfold bind at 1, emit at 1. unfold bind at 1, ask at 1. unfold bind at 1.
  simpl.
  match goal with
  | |- context [executeActions ?ws ?b ?ex ?acc ?st] =>
      destruct (executeActions_spec ws b ex acc st)
        as (outs & ex' & s' & E & _ & _ & T & _ & Hcfg & Hex & Hd)
  end.
  rewrite E. simpl in *. do 4 eexists. split; [reflexivity|].
  split; [rewrite T; rewrite <- app_assoc; reflexivity|].
  split.
  { rewrite modelInvocations_app, modelInvocations_reports. reflexivity. }
  split.
  - right. exists ex'. split; [reflexivity|]. split; [exact Hex | exact Hcfg].
  - apply succeeded_in_policy with (path := path) in Hd.
    eapply Forall_impl; [exact Hd|].
    intros action [Hw Ha]. split; [rewrite Hw; exact Hpath | exact Ha].
Qed.

Variable startTime : Z.
Variable prepared : Prepared.

Lemma resultOf_recordedAt w ok code err checked score n errs acts ex t :
  (ex = None /\ acts = [] \/
   exists e, ex = Some e /\ executedActions e = acts /\
             AutonomousActions.config e = getActionConfig (getConfiguration w)) ->
  Forall (permittedAt config w) acts ->
  recordedAt config w
    (resultOf startTime prepared ok code err checked score n errs acts ex t).
Proof.
  intros Hex Hall. exists acts. split; [reflexivity|]. split; [reflexivity|].
  split; [|exact Hall]. simpl.
  destruct Hex as [(-> & ->)|(e & -> & He & Hc)]; simpl; [reflexivity|].
  exists e. split; [reflexivity|]. split; [exact He | exact Hc].
Qed.

(** A pass that returns a result: its request, the answer of the model
    to it in the world the pass started in, and what the result holds. *)
Lemma attempt_last vars s r vars' s' :
  attempt config startTime prepared vars s = (Returned (Return r, vars'), s') ->
  exists msg sp up t output w',
    trace s' = trace s ++ Progress msg :: ModelRequest sp up :: t /\
    modelInvocations t = O /\
    callAI (apiKey config) (model config) sp up (world s) = (Returned (Some output), w') /\
    code r = Some (Clean.cleanCodeResponse output) /\
    recordedAt config w' r.
Proof.
  unfold attempt.
  match goal with
  | |- context [bind ?pm _] =>
      assert (Hp : exists up msg, pm s = (Returned up, snd (emit (Progress msg) s)))
  end.
  { destruct (lastValidationResult vars) as [last|].
    - destruct ((0 <? retryCount vars) && negb (CV.isValid last));
        do 2 eexists; unfold bind, emit, ret; simpl; reflexivity.
    - do 2 eexists; unfold bind, emit, ret; simpl; reflexivity. }
  destruct Hp as (up & msg & Hp).
  unfold bind at 1. rewrite Hp. clear Hp.
  unfold bind at 1. unfold emit at 1. unfold bind at 1. unfold call at 1.
  simpl.
  match goal with
  | |- context [callAI ?a ?b ?c ?d ?w] =>
      destruct (callAI a b c d w) as [answer w'] eqn:Hcall; set (sp := c) in *
  end.
  destruct answer as [answer|e]; [|discriminate].
  destruct (negb (truthy answer)) eqn:Htruthy; [discriminate|].
  destruct answer as [output|]; [|discriminate].
  change (default "" (Some output)) with output.
  unfold bind at 1.
  match goal with
  | |- context [runActions config output ?st] =>
      destruct (runActions_at output st)
        as (ex & acts & s1 & t1 & Hacts & Ht1 & Hq1 & Hex & Hall)
  end.
  rewrite Hacts. simpl in Ht1, Hex, Hall.
  assert (Hend : forall (st : State) tail r0,
            trace st = trace s1 ++ tail -> modelInvocations tail = O ->
            code r0 = Some (Clean.cleanCodeResponse output) ->
            recordedAt config w' r0 ->
            exists msg0 sp0 up0 t0 output0 w0,
              trace st = trace s ++ Progress msg0 :: ModelRequest sp0 up0 :: t0 /\
              modelInvocations t0 = O /\
              callAI (apiKey config) (model config) sp0 up0 (world s)
              = (Returned (Some output0), w0) /\
              code r0 = Some (Clean.cleanCodeResponse output0) /\
              recordedAt config w0 r0).
  { intros st tail r0 Hst Htail Hcode Hrec.
    exists msg, sp, up, (t1 ++ tail), output, w'.
    split; [rewrite Hst, Ht1, <- !app_assoc; reflexivity|].
    split; [rewrite modelInvocations_app, Hq1, Htail; reflexivity|].
    split; [exact Hcall|]. split; assumption. }
  destruct (validationEnabled config) eqn:Hval.
  - unfold bind at 1, emit at 1. unfold bind at 1, emit at 1. simpl.
    destruct (CV.isValid (CV.validateCode (Clean.cleanCodeResponse output)
                            (basename (currentFile config)))) eqn:Hvalid.
    + intros Hrun. unfold bind, dateNow, ret in Hrun. simpl in Hrun.
      inversion Hrun; subst. eapply Hend; simpl.
      * rewrite <- !app_assoc. reflexivity.
      * reflexivity.
      * reflexivity.
      * apply resultOf_recordedAt; assumption.
    + unfold bind at 1, emit at 1. simpl.
      destruct (retryCount vars <? effectiveMaxRetries config) eqn:Hlt.
      * intros Hrun. unfold ret in Hrun. inversion Hrun.
      * intros Hrun. unfold bind, dateNow, ret in Hrun. simpl in Hrun.
        inversion Hrun; subst. eapply Hend; simpl.
        -- rewrite <- !app_assoc. reflexivity.
        -- reflexivity.
        -- reflexivity.
        -- apply resultOf_recordedAt; assumption.
  - intros Hrun. unfold bind, dateNow, ret in Hrun. simpl in Hrun.
    inversion Hrun; subst. eapply (Hend _ []); simpl.
    + rewrite app_nil_r. reflexivity.
    + reflexivity.
    + reflexivity.
    + apply resultOf_recordedAt; assumption.
Qed.

(** A loop that returns a result got to a pass that returned it. *)
Lemma retryLoop_last :
  forall fuel vars s r vars' s',
  retryLoop config startTime prepared fuel vars s = Some (Returned r, vars', s') ->
  exists vars0 s0,
    reaches config startTime prepared (vars, s) (vars0, s0) /\
    attempt config startTime prepared vars0 s0 = (Returned (Return r, vars'), s').
Proof.
  induction fuel as [|fuel IH]; intros vars s r vars' s' Hrun; simpl in Hrun.
  - destruct (retryCount vars <=? effectiveMaxRetries config); discriminate.
  - destruct (retryCount vars <=? effectiveMaxRetries config) eqn:Hle; [|discriminate].
    apply Z.leb_le in Hle.
    destruct (attempt config startTime prepared vars s) as [[[[|r1] vars1]|e] s1] eqn:Hatt.
    + apply IH in Hrun as (vars0 & s0 & Hreach & Hlast).
      exists vars0, s0. split; [|exact Hlast].
      eapply reaches_step; [|exact Hreach].
      apply retried_continue; assumption.
    + inversion Hrun; subst. exists vars, s. split; [apply reaches_here | exact Hatt].
    + destruct (retryCount vars <? effectiveMaxRetries config) eqn:Hlt; [|discriminate].
      apply Z.ltb_lt in Hlt.
      apply IH in Hrun as (vars0 & s0 & Hreach & Hlast).
      exists vars0, s0. split; [|exact Hlast].
      eapply reaches_step; [|exact Hreach].
      exact (retried_caught config startTime prepared vars s e s1 Hlt Hatt).
Qed.

End WithHost.

Section Runs.
Context `{AgentHost} `{!ActionHost} `{!CodeValidator.TypeScript}.

(** A run returns the result of the outer [catch], which holds neither
    code nor a list of actions, or the result of its last pass. *)
Lemma run_last fuel config s r vars s' :
  executeSmartAgentFuel fuel config s = Some (r, vars, s') ->
  (code r = None /\ actionsExecuted r = None) \/
  exists s0 sp up output w',
    lastPass config s r vars s' s0 sp up output w' /\
    code r = Some (Clean.cleanCodeResponse output) /\
    recordedAt config w' r.
Proof.
  unfold executeSmartAgentFuel.
  destruct (prepare config s) as [[prepared|e] s1] eqn:Hprep.
  2:{ intros E; inversion E; subst. left. split; reflexivity. }
  destruct (retryLoop config (now (world s)) prepared fuel (mkLoopVars 0 None) s1)
    as [[[[r1|e] vars1] s2]|] eqn:Hloop; [| |discriminate].
  2:{ intros E; inversion E; subst. left. split; reflexivity. }
  intros E; inversion E; subst. right.
  apply retryLoop_last in Hloop as (vars0 & s0 & Hreach & Hlast).
  destruct (attempt_last _ _ _ _ _ _ _ _ Hlast)
    as (msg & sp & up & t & output & w' & Ht & Hq & Hcall & Hcode & Hrec).
  exists s0, sp, up, output, w'. split; [|split; assumption].
  exists prepared, s1, vars0, msg, t. repeat split; assumption.
Qed.

End Runs.
End LastPassFacts.

(** ** The code a run returns *)

Module FinalCode.
Import Re AutonomousActions AutonomousActions.ActionParser.
Import SmartAgent Terms Samples LastPassFacts.

(** C4, as the code has it.  The code a run returns is
    [cleanCodeResponse] of the answer that the model gave to the last
    request of that run, in the world of the state the run had got to:
    whatever host executes the requests and whatever the permission
    policy decides, nothing else is done to the text.  Scenario D shows
    that marker text which the parser matched stays in it: with package
    install switched off, the parser extracts the install request, the
    policy denies it, [cleanCodeResponse] leaves the answer as it is,
    and the run succeeds and returns the whole answer, marker included,
    with no action executed. *)
Theorem final_code_is_cleaned_answer `{AgentHost} `{!ActionHost} `{!CodeValidator.TypeScript} :
  (forall fuel config s r vars s' finalCode,
     executeSmartAgentFuel fuel config s = Some (r, vars, s') ->
     code r = Some finalCode ->
     exists s0 systemPrompt userPrompt output w',
       lastPass config s r vars s' s0 systemPrompt userPrompt output w' /\
       finalCode = Clean.cleanCodeResponse output) /\
  parseActions Scripted.scenarioD = [installLeftPad] /\
  isActionAllowed (getActionConfig installOff) install_package = false /\
  Clean.cleanCodeResponse Scripted.scenarioD = Scripted.scenarioD /\
  Js.includes (Clean.cleanCodeResponse Scripted.scenarioD) scenarioMarker = true /\
  (exists r vars s',
     @executeSmartAgent Scripted.platform (Scripted.agent scenarioModel)
       (Scripted.actions installOff) Scripted.compiler scenarioConfig Scripted.initial
     = Some (r, vars, s') /\
     success r = true /\ code r = Some Scripted.scenarioD /\
     actionsExecuted r = Some []).
Proof.
  split.
  - intros fuel config s r vars s' finalCode Hrun Hcode.
    destruct (run_last fuel config s r vars s' Hrun)
      as [[Hnone _]|(s0 & sp & up & output & w' & Hlast & Hclean & _)].
    + congruence.
    + exists s0, sp, up, output, w'. split; [exact Hlast | congruence].
  - split; [vm_compute; reflexivity|]. split; [vm_compute; reflexivity|].
    split; [vm_compute; reflexivity|]. split; [vm_compute; reflexivity|].
    destruct (@executeSmartAgent Scripted.platform (Scripted.agent scenarioModel)
                (Scripted.actions installOff) Scripted.compiler scenarioConfig
                Scripted.initial) as [[[r vars] s']|] eqn:Hrun.
    + exists r, vars, s'. split; [reflexivity|].
      vm_compute in Hrun. inversion Hrun. repeat split; reflexivity.
    + vm_compute in Hrun. discriminate.
Qed.

Lemma final_code_is_cleaned_answer_witness :
  exists r vars s' s0 systemPrompt userPrompt output w',
    @executeSmartAgentFuel Scripted.platform (Scripted.agent scenarioModel)
      (Scripted.actions installOff) Scripted.compiler
      (passes scenarioConfig) scenarioConfig Scripted.initial
    = Some (r, vars, s') /\
    @lastPass Scripted.platform (Scripted.agent scenarioModel)
      (Scripted.actions installOff) Scripted.compiler
      scenarioConfig Scripted.initial r vars s' s0 systemPrompt userPrompt output w' /\
    Scripted.scenarioD = Clean.cleanCodeResponse output.
Proof.
  destruct (@executeSmartAgentFuel Scripted.platform (Scripted.agent scenarioModel)
              (Scripted.actions installOff) Scripted.compiler
              (passes scenarioConfig) scenarioConfig Scripted.initial)
    as [[[r vars] s']|] eqn:Hrun.
  - assert (Hcode : code r = Some Scripted.scenarioD).
    { vm_compute in Hrun. inversion Hrun. reflexivity. }
    pose proof (proj1 (@final_code_is_cleaned_answer Scripted.platform
                         (Scripted.agent scenarioModel) (Scripted.actions installOff)
                         Scripted.compiler)
                  (passes scenarioConfig) scenarioConfig Scripted.initial r vars s'
                  Scripted.scenarioD) as Hthm.
    specialize (Hthm Hrun). specialize (Hthm Hcode).
    destruct Hthm as (s0 & sp & up & output & w' & Hlast & Hclean).
    exists r, vars, s', s0, sp, up, output, w'.
    split; [reflexivity|]. split; [exact Hlast | exact Hclean].
  - vm_compute in Hrun. discriminate.
Defined.

End FinalCode.

(** ** What a run reports and what it leaves alone *)

Module Reports.
Import AutonomousActions SmartAgent Terms Samples LoopFacts RunFacts LoopExtras Frames.
Import LastPassFacts.

Section WithHost.
Context `{AgentHost} `{!ActionHost} `{!CodeValidator.TypeScript}.

(** X14: whatever a run lists in [actionsExecuted] is a request of the
    run's workspace whose kind is allowed by the settings as they are in
    the world [w'] that the answer of the last pass left, which is the
    world the executor is created in: a kind that is switched off there
    never shows up in the list.  [changesMade] is built from that same
    list, and [actionsSummary], when present, is the summary of an
    executor that holds the policy read in [w'] and recorded that same
    list; without a summary the list is empty. *)
Theorem executed_actions_permitted config s r vars s' acts :
  executeSmartAgent config s = Some (r, vars, s') ->
  actionsExecuted r = Some acts ->
  exists s0 systemPrompt userPrompt output w',
    lastPass config s r vars s' s0 systemPrompt userPrompt output w' /\
    Forall (permittedAt config w') acts /\
    changesMade r = Some (buildChangesMade acts) /\
    match actionsSummary r with
    | Some text =>
        exists ex, text = getSummary ex /\ executedActions ex = acts /\
                   AutonomousActions.config ex = getActionConfig (getConfiguration w')
    | None => acts = []
    end.
Proof.
  intros Hrun Hacts.
  destruct (run_last (passes config) config s r vars s' Hrun)
    as [[_ Hnone]|(s0 & sp & up & output & w' & Hlast & _ & Hrec)]; [congruence|].
  destruct Hrec as (acts' & Ha & Hchanges & Hsummary & Hall).
  assert (acts' = acts) by congruence. subst acts'.
  exists s0, sp, up, output, w'. split; [exact Hlast|].
  split; [exact Hall|]. split; [exact Hchanges | exact Hsummary].
Qed.

(** X15: when validation rejects the answers of the model and at least
    one retry is allowed, the run sends the model a request whose user
    prompt contains the error context generated from the verdict on the
    rejected answer. *)
Theorem retry_prompt_carries_errors config output s :
  answers output -> Js.isEmptyStr output = false ->
  searchReturns config -> 1 <= effectiveMaxRetries config ->
  validationEnabled config = true ->
  CV.isValid (CV.validateCode (Clean.cleanCodeResponse output)
                (basename (currentFile config))) = false ->
  exists r vars s',
    executeSmartAgent config s = Some (r, vars, s') /\
    exists systemPrompt userPrompt,
      In (ModelRequest systemPrompt userPrompt) (trace s') /\
      Js.includes userPrompt
        (CV.generateErrorContext
           (CV.validateCode (Clean.cleanCodeResponse output)
              (basename (currentFile config)))) = true.
Proof.
  intros Hanswers Hfull Hsearch Hmax Hval Hbad.
  unfold executeSmartAgent, executeSmartAgentFuel.
  destruct (prepare_returns config s Hsearch) as (prepared & s0 & -> & _).
  destruct (retryLoop_rejected config (now (world s)) prepared output
              Hanswers Hfull Hval Hbad (passes config) (mkLoopVars 0 None) s0)
    as (r & vars & s1 & Hloop & _).
  { simpl. lia. }
  { unfold passesLeft, passes. simpl. lia. }
  rewrite Hloop. exists r, vars, s1. split; [reflexivity|].
  destruct (passes config) as [|fuel]; simpl in Hloop.
  { destruct (0 <=? effectiveMaxRetries config); discriminate. }
  destruct (0 <=? effectiveMaxRetries config) eqn:Hleb.
  2:{ apply Z.leb_gt in Hleb. lia. }
  destruct (attempt_answered config (now (world s)) prepared output
              (mkLoopVars 0 None) s0 Hanswers Hfull)
    as (out & s2 & Hatt & _ & Hpass).
  rewrite Hatt in Hloop. unfold passed in Hpass. cbv zeta in Hpass. simpl in Hpass.
  destruct Hpass as [(Hv & _)|[(_ & Hv & _)|[(_ & _ & _ & ->)|(_ & _ & Hge & _)]]];
    [congruence | congruence | | lia].
  apply retryLoop_told with (last := CV.validateCode (Clean.cleanCodeResponse output)
                                      (basename (currentFile config))) in Hloop.
  - exact Hloop.
  - reflexivity.
  - simpl. lia.
  - exact Hbad.
Qed.

(** X16: a run reads and writes the project snapshot of its own
    workspace only: the snapshot stored for any other root is what it
    was before.  Without a workspace, or when the task is classified for
    instant mode, the run leaves the whole cache as it was and does not
    report [cachedUsed]. *)
Theorem run_touches_own_cache_only config s r vars s' :
  executeSmartAgent config s = Some (r, vars, s') ->
  (forall other, SmartAgent.workspacePath config <> Some other ->
     projectCaches s' !! other = projectCaches s !! other) /\
  (SmartAgent.workspacePath config = None \/
   mode (analyzeTaskComplexity (userPrompt config) (selectedCode config)) = instant ->
   projectCaches s' = projectCaches s /\ cachedUsed r <> Some true).
Proof.
  intros Hrun.
  destruct (run_frame config (passes config) s r vars s' Hrun) as (Hother & Hnone & _).
  split; assumption.
Qed.

End WithHost.

Lemma executed_actions_permitted_witness :
  exists r vars s',
    @executeSmartAgent Scripted.platform (Scripted.agent installer)
      (Scripted.actions noConfiguration) Scripted.compiler textConfig Scripted.initial
    = Some (r, vars, s') /\
    actionsExecuted r = Some [installInProject] /\
    exists w',
      Forall (@permittedAt Scripted.platform (Scripted.actions noConfiguration)
                textConfig w')
        [installInProject].
Proof.
  destruct (@executeSmartAgent Scripted.platform (Scripted.agent installer)
              (Scripted.actions noConfiguration) Scripted.compiler textConfig
              Scripted.initial) as [[[r vars] s']|] eqn:Hrun.
  - assert (Hacts : actionsExecuted r = Some [installInProject]).
    { vm_compute in Hrun. inversion Hrun. reflexivity. }
    exists r, vars, s'. split; [reflexivity|]. split; [exact Hacts|].
    pose proof (@executed_actions_permitted Scripted.platform
                  (Scripted.agent installer)
                  (Scripted.actions noConfiguration) Scripted.compiler
                  textConfig Scripted.initial
                  r vars s' [installInProject]) as Hthm.
    specialize (Hthm Hrun). specialize (Hthm Hacts).
    destruct Hthm as (s0 & sp & up & output & w' & _ & Hall & _).
    exists w'. exact Hall.
  - vm_compute in Hrun. discriminate.
Defined.

Lemma retry_prompt_carries_errors_witness :
  exists r vars s',
    @executeSmartAgent Scripted.platform (Scripted.agent alwaysUnbalanced)
      (Scripted.actions noConfiguration) Scripted.compiler textConfig Scripted.initial
    = Some (r, vars, s') /\
    exists systemPrompt userPrompt,
      In (ModelRequest systemPrompt userPrompt) (trace s') /\
      Js.includes userPrompt
        (CodeValidator.generateErrorContext
           (@CodeValidator.validateCode Scripted.compiler Scripted.platform
              "f(" "notes.txt")) = true.
Proof.
  apply (@retry_prompt_carries_errors Scripted.platform
           (Scripted.agent alwaysUnbalanced) (Scripted.actions noConfiguration)
           Scripted.compiler textConfig Scripted.unbalanced Scripted.initial).
  - intros key name sp up w. eexists. reflexivity.
  - reflexivity.
  - intros request Hrequest. discriminate Hrequest.
  - vm_compute. discriminate.
  - reflexivity.
  - vm_compute. reflexivity.
Defined.

Lemma run_touches_own_cache_only_witness :
  exists r vars s',
    @executeSmartAgent Scripted.platform (Scripted.agent installer)
      (Scripted.actions noConfiguration) Scripted.compiler textConfig Scripted.initial
    = Some (r, vars, s') /\
    projectCaches s' = projectCaches Scripted.initial /\
    cachedUsed r <> Some true.
Proof.
  destruct (@executeSmartAgent Scripted.platform (Scripted.agent installer)
              (Scripted.actions noConfiguration) Scripted.compiler textConfig
              Scripted.initial) as [[[r vars] s']|] eqn:Hrun.
  - exists r, vars, s'. split; [reflexivity|].
    pose proof (@run_touches_own_cache_only Scripted.platform
                  (Scripted.agent installer) (Scripted.actions noConfiguration)
                  Scripted.compiler textConfig Scripted.initial
                  r vars s') as Hthm.
    specialize (Hthm Hrun). destruct Hthm as [_ Hthm].
    apply Hthm. right. vm_compute. reflexivity.
  - vm_compute in Hrun. discriminate.
Defined.

End Reports.

(** ** Markers that are found *)

Module MarkerFacts.
Import Re ReFacts AutonomousActions AutonomousActions.ActionParser.
Import Terms JsFacts StringFacts ParserFacts ParserExtras.

Lemma rmatch_seq r1 r2 x k :
  rmatch (Seq r1 r2) x k = rmatch r1 x (fun y => rmatch r2 y k).
Proof. reflexivity. Qed.

Lemma rmatch_group n r x k :
  rmatch (Group n r) x k
  = rmatch r x (fun y =>
      k (fst y, (n, substring 0 (pos (fst y) - pos (fst x)) (rest (fst x))) :: snd y)).
Proof. reflexivity. Qed.

Lemma past_nil c t : rest c = t -> past c EmptyString t = c.
Proof.
  intros <-. destruct c as [i p r]. unfold past. simpl.
  rewrite Nat.add_0_r. reflexivity.
Qed.

Lemma past_cons c a s t :
  past c (String a s) t = past (Cursor (S (pos c)) (Some a) (s +:+ t)) s t.
Proof. unfold past. simpl. rewrite Nat.add_succ_r. reflexivity. Qed.

Lemma rmatch_class f a c cs k t :
  rest c = String a t -> f a = true ->
  rmatch (Class f) (c, cs) k = k (Cursor (S (pos c)) (Some a) t, cs).
Proof. intros Hr Hf. simpl. unfold step1. simpl. rewrite Hr, Hf. reflexivity. Qed.

Lemma rmatch_chr a c cs k t :
  rest c = String a t ->
  rmatch (Chr a) (c, cs) k = k (Cursor (S (pos c)) (Some a) t, cs).
Proof.
  intros Hr. simpl. unfold step1. simpl. rewrite Hr, Ascii.eqb_refl. reflexivity.
Qed.

Lemma rmatch_lit s :
  forall c cs k t, rest c = s +:+ t -> rmatch (lit s) (c, cs) k = k (past c s t, cs).
Proof.
  induction s as [|a s IH]; intros c cs k t Hr.
  - rewrite append_nil in Hr. rewrite (past_nil c t Hr). reflexivity.
  - rewrite append_cons in Hr. simpl lit. rewrite rmatch_seq.
    rewrite (rmatch_chr a c cs _ (s +:+ t) Hr).
    rewrite (IH (Cursor (S (pos c)) (Some a) (s +:+ t)) cs k t eq_refl).
    rewrite past_cons. reflexivity.
Qed.

(** A greedy run over a class takes all of [s] when what follows [s] is
    not in the class and the rest of the pattern matches there. *)
Lemma rmatch_star_class f k res :
  forall s c cs t,
  rest c = s +:+ t -> allChars f s = true ->
  match t with EmptyString => True | String a _ => f a = false end ->
  k (past c s t, cs) = Some res ->
  rmatch (Star (Class f)) (c, cs) k = Some res.
Proof.
  induction s as [|a s IH]; intros c cs t Hr Hall Hstop Hk.
  - rewrite append_nil in Hr. rewrite (past_nil c t Hr) in Hk.
    simpl. rewrite Hr. destruct t as [|b t]; simpl; [exact Hk|].
    unfold step1. simpl. rewrite Hr, Hstop. simpl. exact Hk.
  - rewrite append_cons in Hr. simpl in Hall.
    apply andb_true_iff in Hall as [Ha Hall].
    rewrite past_cons in Hk.
    specialize (IH (Cursor (S (pos c)) (Some a) (s +:+ t)) cs t eq_refl Hall Hstop Hk).
    simpl. rewrite Hr. simpl. unfold step1 at 1. simpl. rewrite Hr, Ha.
    replace (pos c <? S (pos c))%nat with true by (symmetry; apply Nat.ltb_lt; lia).
    simpl in IH. rewrite IH. reflexivity.
Qed.

Lemma substring_prefix s t : substring 0 (String.length s) (s +:+ t) = s.
Proof.
  induction s as [|a s IH].
  - destruct t; reflexivity.
  - rewrite append_cons. simpl. rewrite IH. reflexivity.
Qed.

(** The pattern matches a marker where it stands: the group is the
    path, and the match ends where the marker ends. *)
Lemma pathRegex_match opening path code c :
  rest c = pathMarker opening path +:+ code ->
  Js.isEmptyStr path = false -> allChars isNotQuote path = true ->
  exists m,
    matchAt (pathRegex opening) c = Some m /\
    capture 1 (groups m) = Some path /\ rest (stop m) = code.
Proof.
  intros Hr Hfull Hall.
  destruct path as [|a path]; [discriminate|].
  simpl in Hall. apply andb_true_iff in Hall as [Ha Hall].
  assert (Hr' : rest c
                = opening +:+ String " " ("path=" +:+ String dq (String a
                    (path +:+ String dq (String " " ("/>" +:+ code)))))).
  { rewrite Hr. unfold pathMarker. rewrite !append_assoc, !append_cons.
    rewrite !append_assoc, !append_cons, !append_nil. reflexivity. }
  clear Hr.
  assert (Hm : exists e cs,
             rmatch (pathRegex opening) (c, []) Some = Some (e, cs) /\
             capture 1 cs = Some (String a path) /\ rest e = code).
  { unfold pathRegex. cbn [seqs]. unfold Plus.
    rewrite rmatch_seq, (rmatch_lit opening c [] _ _ Hr').
    rewrite !rmatch_seq. unfold space at 1.
    erewrite rmatch_class; [|reflexivity|reflexivity].
    do 2 eexists. split.
    { unfold space.
      eapply rmatch_star_class with (s := EmptyString);
        [reflexivity | reflexivity | reflexivity |].
      rewrite past_nil by reflexivity.
      rewrite rmatch_seq. erewrite (rmatch_lit "path="); [|reflexivity].
      rewrite rmatch_seq. erewrite (rmatch_chr dq); [|reflexivity].
      rewrite rmatch_seq, rmatch_group, rmatch_seq. unfold notQuote at 1.
      erewrite rmatch_class; [|reflexivity|exact Ha].
      unfold notQuote.
      eapply rmatch_star_class with (s := path);
        [reflexivity | exact Hall | reflexivity |].
      cbn [fst snd].
      rewrite rmatch_seq. erewrite (rmatch_chr dq); [|reflexivity].
      rewrite rmatch_seq.
      eapply rmatch_star_class with (s := " "%string);
        [reflexivity | reflexivity | reflexivity |].
      erewrite (rmatch_lit "/>"); [|reflexivity].
      reflexivity. }
    cbn [past pos prev rest fst snd capture Nat.eqb].
    split; [|reflexivity].
    f_equal.
    match goal with
    | |- substring 0 ?n _ = _ =>
        replace n with (String.length (String a path)) by (simpl; lia)
    end.
    exact (substring_prefix (String a path) _). }
  destruct Hm as (e & cs & Hm & Hcap & Hrest).
  unfold matchAt. rewrite Hm. eexists. split; [reflexivity|].
  split; [exact Hcap | exact Hrest].
Qed.

Lemma allChars_weaken (f g : ascii -> bool) s :
  (forall a, f a = true -> g a = true) -> allChars f s = true -> allChars g s = true.
Proof.
  intros Hfg. induction s as [|a s IH]; simpl; [reflexivity|].
  intros Hs. apply andb_true_iff in Hs as [Ha Hs].
  rewrite (Hfg a Ha), (IH Hs). reflexivity.
Qed.

Lemma notBracket_eqb a : notBracket a = true -> Ascii.eqb "<" a = false.
Proof.
  unfold notBracket. intros Ha. apply negb_true_iff in Ha.
  rewrite Ascii.eqb_sym. exact Ha.
Qed.

(** A text that begins with [<] is not found across code units that are
    not [<]. *)
Lemma includes_skip a s k :
  notBracket a = true ->
  Js.includes (String a s) (String "<" k) = Js.includes s (String "<" k).
Proof.
  intros Ha. rewrite includes_unfold.
  change (Js.startsWith (String a s) (String "<" k))
    with (Ascii.eqb "<" a && Js.startsWith s k).
  rewrite (notBracket_eqb a Ha). reflexivity.
Qed.

Lemma includes_skip_all pre s k :
  allChars notBracket pre = true ->
  Js.includes (pre +:+ s) (String "<" k) = Js.includes s (String "<" k).
Proof.
  induction pre as [|a pre IH]; intros Hpre.
  - rewrite append_nil. reflexivity.
  - simpl in Hpre. apply andb_true_iff in Hpre as [Ha Hpre].
    rewrite append_cons, (includes_skip a _ k Ha). exact (IH Hpre).
Qed.

Lemma matchAt_opening opening r c m :
  matchAt (Seq (lit opening) r) c = Some m -> Js.startsWith (rest c) opening = true.
Proof.
  unfold matchAt. rewrite rmatch_seq.
  destruct (rmatch (lit opening) (c, []) (fun y => rmatch r y Some)) as [z|] eqn:E;
    [|discriminate].
  intros _. exact (rmatch_lit_prefix _ _ _ _ E).
Qed.

(** The search for a pattern that begins with [<] passes over code units
    that are not [<]. *)
Lemma searchFrom_skip opening r :
  forall pre i p s,
  allChars notBracket pre = true ->
  searchFrom (Seq (lit (String "<" opening)) r) i p (pre +:+ String "<" s)
  = searchFrom (Seq (lit (String "<" opening)) r)
      (i + String.length pre) (lastOr p pre) (String "<" s).
Proof.
  induction pre as [|a pre IH]; intros i p s Hpre.
  - rewrite append_nil. simpl. rewrite Nat.add_0_r. reflexivity.
  - simpl in Hpre. apply andb_true_iff in Hpre as [Ha Hpre].
    rewrite append_cons. cbn [searchFrom].
    destruct (matchAt _ (Cursor i p (String a (pre +:+ String "<" s)))) as [m|] eqn:E.
    + apply matchAt_opening in E.
      change (Ascii.eqb "<" a && Js.startsWith (pre +:+ String "<" s) opening = true) in E.
      rewrite (notBracket_eqb a Ha) in E. discriminate.
    + rewrite (IH (S i) (Some a) s Hpre). simpl. rewrite Nat.add_succ_r. reflexivity.
Qed.

Lemma execLoop_none r c fuel :
  search r c = None -> execLoop (S fuel) r c = Some [].
Proof. intros Hs. simpl. rewrite Hs. reflexivity. Qed.

Lemma search_none opening r c :
  Js.includes (rest c) (String "<" opening) = false ->
  search (Seq (lit (String "<" opening)) r) c = None.
Proof.
  intros Hnone. destruct (search _ c) as [m|] eqn:E; [|reflexivity].
  unfold search in E.
  apply (searchFrom_includes _ (String "<" opening)) in E; [congruence|].
  intros c' m'. apply matchAt_opening.
Qed.

Lemma length_append (s t : string) :
  String.length (s +:+ t) = (String.length s + String.length t)%nat.
Proof.
  induction s as [|a s IH]; [rewrite append_nil; reflexivity|].
  rewrite append_cons. simpl. rewrite IH. reflexivity.
Qed.

Lemma execLoop_other opening r text fuel :
  Js.includes text (String "<" opening) = false ->
  execLoop (S fuel) (Seq (lit (String "<" opening)) r) (start text) = Some [].
Proof. intros Hnone. apply execLoop_none, search_none. exact Hnone. Qed.

Lemma pathMarker_cons opening path code :
  pathMarker (String "<" opening) path +:+ code
  = String "<" (opening +:+ (" path="
      +:+ String dq (path +:+ String dq (" />" +:+ code)))).
Proof.
  unfold pathMarker. rewrite !append_assoc, !append_cons.
  rewrite !append_assoc, !append_cons, !append_nil. reflexivity.
Qed.

(** Behind its first code unit a marker holds no [<]. *)
Lemma includes_marker_tail opening path code k :
  allChars notBracket opening = true -> allChars notBracket path = true ->
  Js.includes (opening +:+ (" path="
      +:+ String dq (path +:+ String dq (" />" +:+ code)))) (String "<" k)
  = Js.includes code (String "<" k).
Proof.
  intros Hopening Hpath.
  rewrite (includes_skip_all opening _ k Hopening).
  rewrite (includes_skip_all " path=" _ k eq_refl).
  rewrite (includes_skip dq _ k eq_refl).
  rewrite (includes_skip_all path _ k Hpath).
  rewrite (includes_skip dq _ k eq_refl).
  rewrite (includes_skip_all " />" _ k eq_refl).
  reflexivity.
Qed.

Lemma includes_longer s k more :
  Js.includes s k = false -> Js.includes s (k +:+ more) = false.
Proof.
  intros Hnone. destruct (Js.includes s (k +:+ more)) eqn:E; [|reflexivity].
  rewrite <- Hnone. symmetry. apply (includes_trans _ _ _ E).
  apply includes_append_l, includes_refl.
Qed.

(** The loop of one path pattern over a text with one marker of its
    kind: one match, whose group is the path. *)
Lemma execLoop_marker opening path pre code :
  allChars notBracket pre = true ->
  Js.isEmptyStr path = false ->
  allChars isNotQuote path = true ->
  Js.includes code (String "<" opening) = false ->
  exists m,
    execLoop (S (String.length (pre +:+ pathMarker (String "<" opening) path +:+ code)))
      (pathRegex (String "<" opening))
      (start (pre +:+ pathMarker (String "<" opening) path +:+ code))
    = Some [m] /\
    capture 1 (groups m) = Some path.
Proof.
  intros Hpre Hfull Hquote Hcode.
  rewrite pathMarker_cons.
  assert (Hlen : exists n,
             String.length (pre +:+ String "<" (opening +:+ (" path="
               +:+ String dq (path +:+ String dq (" />" +:+ code))))) = S n).
  { rewrite length_append. simpl. rewrite Nat.add_succ_r. eexists. reflexivity. }
  destruct Hlen as (n & ->).
  destruct (pathRegex_match (String "<" opening) path code
              (Cursor (0 + String.length pre) (lastOr None pre)
                 (pathMarker (String "<" opening) path +:+ code)))
    as (m & Hm & Hcap & Hstop); [reflexivity | exact Hfull | exact Hquote |].
  exists m. split; [|exact Hcap].
  rewrite pathMarker_cons in Hm.
  change (pathRegex (String "<" opening))
    with (Seq (lit (String "<" opening))
            (seqs [Plus space; lit "path="; Chr dq; Group 1 (Plus notQuote);
                   Chr dq; Star space; lit "/>"])) in *.
  cbn [execLoop]. unfold search, start. cbn [pos prev rest].
  rewrite (searchFrom_skip opening _ pre 0 None _ Hpre).
  cbn [searchFrom]. rewrite Hm.
  match goal with
  | |- context [searchFrom ?R (pos (stop m)) (prev (stop m)) (rest (stop m))] =>
      change (searchFrom R (pos (stop m)) (prev (stop m)) (rest (stop m)))
        with (search R (stop m))
  end.
  rewrite search_none; [reflexivity|]. rewrite Hstop. exact Hcode.
Qed.

Lemma rmatch_alt r1 r2 x k :
  rmatch (Alt r1 r2) x k = orElse (rmatch r1 x k) (fun _ => rmatch r2 x k).
Proof. reflexivity. Qed.

Lemma orElse_some a b z : a = Some z -> orElse a b = Some z.
Proof. intros ->. reflexivity. Qed.

(** A run over a class takes nothing where the next code unit is not in
    the class. *)
Lemma rmatch_star_stop f a c cs k t :
  rest c = String a t -> f a = false ->
  rmatch (Star (Class f)) (c, cs) k = k (c, cs).
Proof.
  intros Hr Hf. simpl. rewrite Hr. simpl. unfold step1. simpl. rewrite Hr, Hf.
  reflexivity.
Qed.

Lemma rmatch_lit_fail s x k :
  Js.startsWith (rest (fst x)) s = false -> rmatch (lit s) x k = None.
Proof.
  intros Hs. destruct (rmatch (lit s) x k) as [z|] eqn:E; [|reflexivity].
  apply rmatch_lit_prefix in E. congruence.
Qed.

Lemma execLoop_one opening r pre tail code m :
  allChars notBracket pre = true ->
  matchAt (Seq (lit (String "<" opening)) r)
    (Cursor (0 + String.length pre) (lastOr None pre) (String "<" tail)) = Some m ->
  rest (stop m) = code ->
  Js.includes code (String "<" opening) = false ->
  execLoop (S (String.length (pre +:+ String "<" tail)))
    (Seq (lit (String "<" opening)) r) (start (pre +:+ String "<" tail))
  = Some [m].
Proof.
  intros Hpre Hm Hstop Hcode.
  assert (Hlen : exists n, String.length (pre +:+ String "<" tail) = S n).
  { rewrite length_append. simpl. rewrite Nat.add_succ_r. eexists. reflexivity. }
  destruct Hlen as (n & ->).
  cbn [execLoop]. unfold search, start. cbn [pos prev rest].
  rewrite (searchFrom_skip opening _ pre 0 None _ Hpre).
  cbn [searchFrom]. rewrite Hm.
  match goal with
  | |- context [searchFrom ?R (pos (stop m)) (prev (stop m)) (rest (stop m))] =>
      change (searchFrom R (pos (stop m)) (prev (stop m)) (rest (stop m)))
        with (search R (stop m))
  end.
  rewrite search_none; [reflexivity|]. rewrite Hstop. exact Hcode.
Qed.

(** The install pattern on a marker without the [dev] attribute: group 1
    is the list of packages, group 2 is unset. *)
Lemma installRegex_match packages code c :
  rest c = installMarker packages +:+ code ->
  Js.isEmptyStr packages = false -> allChars isNotQuote packages = true ->
  exists m,
    matchAt installRegex c = Some m /\
    capture 1 (groups m) = Some packages /\ capture 2 (groups m) = None /\
    rest (stop m) = code.
Proof.
  intros Hr Hfull Hall.
  destruct packages as [|a packages]; [discriminate|].
  simpl in Hall. apply andb_true_iff in Hall as [Ha Hall].
  assert (Hr' : rest c
                = "<action:install_package" +:+ String " " ("packages=" +:+ String dq
                    (String a (packages +:+ String dq (String " " ("/>" +:+ code)))))).
  { rewrite Hr. unfold installMarker. rewrite !append_assoc, !append_cons.
    rewrite !append_assoc, !append_cons, !append_nil. reflexivity. }
  clear Hr.
  assert (Hm : exists e cs,
             rmatch installRegex (c, []) Some = Some (e, cs) /\
             capture 1 cs = Some (String a packages) /\ capture 2 cs = None /\
             rest e = code).
  { unfold installRegex. cbn [seqs]. unfold Plus at 1 2.
    rewrite rmatch_seq, (rmatch_lit "<action:install_package" c [] _ _ Hr').
    rewrite !rmatch_seq. unfold space at 1.
    erewrite rmatch_class; [|reflexivity|reflexivity].
    do 2 eexists. split.
    { unfold space at 1.
      eapply rmatch_star_class with (s := EmptyString);
        [reflexivity | reflexivity | reflexivity |].
      rewrite past_nil by reflexivity.
      rewrite rmatch_seq. erewrite (rmatch_lit "packages="); [|reflexivity].
      rewrite rmatch_seq. erewrite (rmatch_chr dq); [|reflexivity].
      rewrite rmatch_seq, rmatch_group, rmatch_seq. unfold notQuote at 1.
      erewrite rmatch_class; [|reflexivity|exact Ha].
      unfold notQuote at 1.
      eapply rmatch_star_class with (s := packages);
        [reflexivity | exact Hall | reflexivity |].
      cbn [fst snd].
      rewrite rmatch_seq. erewrite (rmatch_chr dq); [|reflexivity].
      rewrite rmatch_seq. unfold Opt. rewrite rmatch_alt.
      rewrite !rmatch_seq. unfold Plus at 1. rewrite rmatch_seq. unfold space at 1.
      erewrite rmatch_class; [|reflexivity|reflexivity].
      unfold space at 1.
      erewrite rmatch_star_stop; [|reflexivity|reflexivity].
      rewrite rmatch_seq, rmatch_lit_fail by reflexivity.
      cbn [orElse rmatch]. unfold space.
      eapply rmatch_star_class with (s := " "%string);
        [reflexivity | reflexivity | reflexivity |].
      erewrite (rmatch_lit "/>"); [|reflexivity].
      reflexivity. }
    cbn [past pos prev rest fst snd capture Nat.eqb].
    split; [|split; reflexivity].
    f_equal.
    match goal with
    | |- substring 0 ?n _ = _ =>
        replace n with (String.length (String a packages)) by (simpl; lia)
    end.
    exact (substring_prefix (String a packages) _). }
  destruct Hm as (e & cs & Hm & Hcap & Hdev & Hrest).
  unfold matchAt. rewrite Hm. eexists. split; [reflexivity|].
  split; [exact Hcap|]. split; [exact Hdev | exact Hrest].
Qed.

(** The install pattern on a marker with [dev] set to [true]: group 2 is
    the text [true]. *)
Lemma installRegex_match_dev packages code c :
  rest c = installDevMarker packages +:+ code ->
  Js.isEmptyStr packages = false -> allChars isNotQuote packages = true ->
  exists m,
    matchAt installRegex c = Some m /\
    capture 1 (groups m) = Some packages /\ capture 2 (groups m) = Some "true"%string /\
    rest (stop m) = code.
Proof.
  intros Hr Hfull Hall.
  destruct packages as [|a packages]; [discriminate|].
  simpl in Hall. apply andb_true_iff in Hall as [Ha Hall].
  assert (Hr' : rest c
                = "<action:install_package" +:+ String " " ("packages=" +:+ String dq
                    (String a (packages +:+ String dq (String " " ("dev=" +:+ String dq
                       ("true" +:+ String dq (String " " ("/>" +:+ code))))))))).
  { rewrite Hr. unfold installDevMarker. rewrite !append_assoc, !append_cons.
    rewrite !append_assoc, !append_cons, !append_nil. reflexivity. }
  clear Hr.
  assert (Hm : exists e cs,
             rmatch installRegex (c, []) Some = Some (e, cs) /\
             capture 1 cs = Some (String a packages) /\
             capture 2 cs = Some "true"%string /\
             rest e = code).
  { unfold installRegex. cbn [seqs]. unfold Plus at 1 2.
    rewrite rmatch_seq, (rmatch_lit "<action:install_package" c [] _ _ Hr').
    rewrite !rmatch_seq. unfold space at 1.
    erewrite rmatch_class; [|reflexivity|reflexivity].
    do 2 eexists. split.
    { unfold space at 1.
      eapply rmatch_star_class with (s := EmptyString);
        [reflexivity | reflexivity | reflexivity |].
      rewrite past_nil by reflexivity.
      rewrite rmatch_seq. erewrite (rmatch_lit "packages="); [|reflexivity].
      rewrite rmatch_seq. erewrite (rmatch_chr dq); [|reflexivity].
      rewrite rmatch_seq, rmatch_group, rmatch_seq. unfold notQuote at 1.
      erewrite rmatch_class; [|reflexivity|exact Ha].
      unfold notQuote at 1.
      eapply rmatch_star_class with (s := packages);
        [reflexivity | exact Hall | reflexivity |].
      cbn [fst snd].
      rewrite rmatch_seq. erewrite (rmatch_chr dq); [|reflexivity].
      rewrite rmatch_seq. unfold Opt. rewrite rmatch_alt.
      apply orElse_some.
      rewrite !rmatch_seq. unfold Plus at 1. rewrite rmatch_seq. unfold space at 1.
      erewrite rmatch_class; [|reflexivity|reflexivity].
      unfold space at 1.
      erewrite rmatch_star_stop; [|reflexivity|reflexivity].
      rewrite rmatch_seq. erewrite (rmatch_lit "dev="); [|reflexivity].
      rewrite rmatch_seq. erewrite (rmatch_chr dq); [|reflexivity].
      rewrite rmatch_seq, rmatch_group, rmatch_alt.
      apply orElse_some.
      erewrite (rmatch_lit "true"); [|reflexivity].
      cbn [fst snd].
      erewrite (rmatch_chr dq); [|reflexivity].
      rewrite rmatch_seq. unfold space.
      eapply rmatch_star_class with (s := " "%string);
        [reflexivity | reflexivity | reflexivity |].
      erewrite (rmatch_lit "/>"); [|reflexivity].
      reflexivity. }
    cbn [past pos prev rest fst snd capture Nat.eqb].
    split; [|split; [|reflexivity]].
    - f_equal.
      match goal with
      | |- substring 0 ?n _ = _ =>
          replace n with (String.length (String a packages)) by (simpl; lia)
      end.
      exact (substring_prefix (String a packages) _).
    - f_equal.
      match goal with
      | |- substring 0 ?n _ = _ =>
          replace n with (String.length "true") by (simpl; lia)
      end.
      exact (substring_prefix "true" _). }
  destruct Hm as (e & cs & Hm & Hcap & Hdev & Hrest).
  unfold matchAt. rewrite Hm. eexists. split; [reflexivity|].
  split; [exact Hcap|]. split; [exact Hdev | exact Hrest].
Qed.

Lemma installMarker_cons packages code :
  installMarker packages +:+ code
  = String "<" ("action:install_package packages="
      +:+ String dq (packages +:+ String dq (" />" +:+ code))).
Proof.
  unfold installMarker. rewrite !append_assoc, !append_cons.
  rewrite !append_assoc, !append_cons, !append_nil. reflexivity.
Qed.

Lemma installDevMarker_cons packages code :
  installDevMarker packages +:+ code
  = String "<" ("action:install_package packages="
      +:+ String dq (packages +:+ String dq (" dev="
      +:+ String dq ("true" +:+ String dq (" />" +:+ code))))).
Proof.
  unfold installDevMarker. rewrite !append_assoc, !append_cons.
  rewrite !append_assoc, !append_cons, !append_nil. reflexivity.
Qed.

(** No text that begins with [<] other than the marker itself is found
    in a response with one install marker. *)
Lemma install_clean pre packages code kind :
  allChars notBracket pre = true -> allChars notBracket packages = true ->
  (forall more,
     Js.startsWith (String "<" ("action:install_package packages=" +:+ more))
       (String "<" kind) = false) ->
  Js.includes code (String "<" kind) = false ->
  Js.includes (pre +:+ installMarker packages +:+ code) (String "<" kind) = false /\
  Js.includes (pre +:+ installDevMarker packages +:+ code) (String "<" kind) = false.
Proof.
  intros Hpre Hpackages Hstart Hkind. split.
  - rewrite installMarker_cons, (includes_skip_all pre _ kind Hpre), includes_unfold.
    rewrite Hstart.
    rewrite (includes_skip_all "action:install_package packages=" _ kind eq_refl).
    rewrite (includes_skip dq _ kind eq_refl).
    rewrite (includes_skip_all packages _ kind Hpackages).
    rewrite (includes_skip dq _ kind eq_refl).
    rewrite (includes_skip_all " />" _ kind eq_refl).
    rewrite Hkind. reflexivity.
  - rewrite installDevMarker_cons, (includes_skip_all pre _ kind Hpre), includes_unfold.
    rewrite Hstart.
    rewrite (includes_skip_all "action:install_package packages=" _ kind eq_refl).
    rewrite (includes_skip dq _ kind eq_refl).
    rewrite (includes_skip_all packages _ kind Hpackages).
    rewrite (includes_skip dq _ kind eq_refl).
    rewrite (includes_skip_all " dev=" _ kind eq_refl).
    rewrite (includes_skip dq _ kind eq_refl).
    rewrite (includes_skip_all "true" _ kind eq_refl).
    rewrite (includes_skip dq _ kind eq_refl).
    rewrite (includes_skip_all " />" _ kind eq_refl).
    rewrite Hkind. reflexivity.
Qed.

(** The script pattern on a marker without [args], and on one with. *)
Lemma runScriptRegex_match script code c :
  rest c = runScriptMarker script +:+ code ->
  Js.isEmptyStr script = false -> allChars isNotQuote script = true ->
  exists m,
    matchAt runScriptRegex c = Some m /\
    capture 1 (groups m) = Some script /\ capture 2 (groups m) = None /\
    rest (stop m) = code.
Proof.
  intros Hr Hfull Hall.
  destruct script as [|a script]; [discriminate|].
  simpl in Hall. apply andb_true_iff in Hall as [Ha Hall].
  assert (Hr' : rest c
                = "<action:run_script" +:+ String " " ("script=" +:+ String dq
                    (String a (script +:+ String dq (String " " ("/>" +:+ code)))))).
  { rewrite Hr. unfold runScriptMarker. rewrite !append_assoc, !append_cons.
    rewrite !append_assoc, !append_cons, !append_nil. reflexivity. }
  clear Hr.
  assert (Hm : exists e cs,
             rmatch runScriptRegex (c, []) Some = Some (e, cs) /\
             capture 1 cs = Some (String a script) /\ capture 2 cs = None /\
             rest e = code).
  { unfold runScriptRegex. cbn [seqs]. unfold Plus at 1 2.
    rewrite rmatch_seq, (rmatch_lit "<action:run_script" c [] _ _ Hr').
    rewrite !rmatch_seq. unfold space at 1.
    erewrite rmatch_class; [|reflexivity|reflexivity].
    do 2 eexists. split.
    { unfold space at 1.
      eapply rmatch_star_class with (s := EmptyString);
        [reflexivity | reflexivity | reflexivity |].
      rewrite past_nil by reflexivity.
      rewrite rmatch_seq. erewrite (rmatch_lit "script="); [|reflexivity].
      rewrite rmatch_seq. erewrite (rmatch_chr dq); [|reflexivity].
      rewrite rmatch_seq, rmatch_group, rmatch_seq. unfold notQuote at 1.
      erewrite rmatch_class; [|reflexivity|exact Ha].
      unfold notQuote at 1.
      eapply rmatch_star_class with (s := script);
        [reflexivity | exact Hall | reflexivity |].
      cbn [fst snd].
      rewrite rmatch_seq. erewrite (rmatch_chr dq); [|reflexivity].
      rewrite rmatch_seq. unfold Opt. rewrite rmatch_alt.
      rewrite !rmatch_seq. unfold Plus at 1. rewrite rmatch_seq. unfold space at 1.
      erewrite rmatch_class; [|reflexivity|reflexivity].
      unfold space at 1.
      erewrite rmatch_star_stop; [|reflexivity|reflexivity].
      rewrite rmatch_seq, rmatch_lit_fail by reflexivity.
      cbn [orElse rmatch]. unfold space.
      eapply rmatch_star_class with (s := " "%string);
        [reflexivity | reflexivity | reflexivity |].
      erewrite (rmatch_lit "/>"); [|reflexivity].
      reflexivity. }
    cbn [past pos prev rest fst snd capture Nat.eqb].
    split; [|split; reflexivity].
    f_equal.
    match goal with
    | |- substring 0 ?n _ = _ =>
        replace n with (String.length (String a script)) by (simpl; lia)
    end.
    exact (substring_prefix (String a script) _). }
  destruct Hm as (e & cs & Hm & Hcap & Hargs & Hrest).
  unfold matchAt. rewrite Hm. eexists. split; [reflexivity|].
  split; [exact Hcap|]. split; [exact Hargs | exact Hrest].
Qed.

Lemma runScriptRegex_match_args script args code c :
  rest c = runScriptArgsMarker script args +:+ code ->
  Js.isEmptyStr script = false -> allChars isNotQuote script = true ->
  allChars isNotQuote args = true ->
  exists m,
    matchAt runScriptRegex c = Some m /\
    capture 1 (groups m) = Some script /\ capture 2 (groups m) = Some args /\
    rest (stop m) = code.
Proof.
  intros Hr Hfull Hall Hargs.
  destruct script as [|a script]; [discriminate|].
  simpl in Hall. apply andb_true_iff in Hall as [Ha Hall].
  assert (Hr' : rest c
                = "<action:run_script" +:+ String " " ("script=" +:+ String dq
                    (String a (script +:+ String dq (String " " ("args=" +:+ String dq
                       (args +:+ String dq (String " " ("/>" +:+ code))))))))).
  { rewrite Hr. unfold runScriptArgsMarker.
    repeat first [rewrite append_assoc | rewrite append_cons | rewrite append_nil].
    reflexivity. }
  clear Hr.
  assert (Hm : exists e cs,
             rmatch runScriptRegex (c, []) Some = Some (e, cs) /\
             capture 1 cs = Some (String a script) /\ capture 2 cs = Some args /\
             rest e = code).
  { unfold runScriptRegex. cbn [seqs]. unfold Plus at 1 2.
    rewrite rmatch_seq, (rmatch_lit "<action:run_script" c [] _ _ Hr').
    rewrite !rmatch_seq. unfold space at 1.
    erewrite rmatch_class; [|reflexivity|reflexivity].
    do 2 eexists. split.
    { unfold space at 1.
      eapply rmatch_star_class with (s := EmptyString);
        [reflexivity | reflexivity | reflexivity |].
      rewrite past_nil by reflexivity.
      rewrite rmatch_seq. erewrite (rmatch_lit "script="); [|reflexivity].
      rewrite rmatch_seq. erewrite (rmatch_chr dq); [|reflexivity].
      rewrite rmatch_seq, rmatch_group, rmatch_seq. unfold notQuote at 1.
      erewrite rmatch_class; [|reflexivity|exact Ha].
      unfold notQuote at 1.
      eapply rmatch_star_class with (s := script);
        [reflexivity | exact Hall | reflexivity |].
      cbn [fst snd].
      rewrite rmatch_seq. erewrite (rmatch_chr dq); [|reflexivity].
      rewrite rmatch_seq. unfold Opt. rewrite rmatch_alt.
      apply orElse_some.
      rewrite !rmatch_seq. unfold Plus at 1. rewrite rmatch_seq. unfold space at 1.
      erewrite rmatch_class; [|reflexivity|reflexivity].
      unfold space at 1.
      erewrite rmatch_star_stop; [|reflexivity|reflexivity].
      rewrite rmatch_seq. erewrite (rmatch_lit "args="); [|reflexivity].
      rewrite rmatch_seq. erewrite (rmatch_chr dq); [|reflexivity].
      rewrite rmatch_seq, rmatch_group. unfold notQuote.
      eapply rmatch_star_class with (s := args);
        [reflexivity | exact Hargs | reflexivity |].
      cbn [fst snd].
      erewrite (rmatch_chr dq); [|reflexivity].
      rewrite rmatch_seq. unfold space.
      eapply rmatch_star_class with (s := " "%string);
        [reflexivity | reflexivity | reflexivity |].
      erewrite (rmatch_lit "/>"); [|reflexivity].
      reflexivity. }
    cbn [past pos prev rest fst snd capture Nat.eqb].
    split; [|split; [|reflexivity]].
    - f_equal.
      match goal with
      | |- substring 0 ?n _ = _ =>
          replace n with (String.length (String a script)) by (simpl; lia)
      end.
      exact (substring_prefix (String a script) _).
    - f_equal.
      match goal with
      | |- substring 0 ?n _ = _ =>
          replace n with (String.length args) by (simpl; lia)
      end.
      exact (substring_prefix args _). }
  destruct Hm as (e & cs & Hm & Hcap & Hcap2 & Hrest).
  unfold matchAt. rewrite Hm. eexists. split; [reflexivity|].
  split; [exact Hcap|]. split; [exact Hcap2 | exact Hrest].
Qed.

Lemma runScriptMarker_cons script code :
  runScriptMarker script +:+ code
  = String "<" ("action:run_script script="
      +:+ String dq (script +:+ String dq (" />" +:+ code))).
Proof.
  unfold runScriptMarker. rewrite !append_assoc, !append_cons.
  rewrite !append_assoc, !append_cons, !append_nil. reflexivity.
Qed.

Lemma runScriptArgsMarker_cons script args code :
  runScriptArgsMarker script args +:+ code
  = String "<" ("action:run_script script="
      +:+ String dq (script +:+ String dq (" args="
      +:+ String dq (args +:+ String dq (" />" +:+ code))))).
Proof.
  unfold runScriptArgsMarker.
  repeat first [rewrite append_assoc | rewrite append_cons | rewrite append_nil].
  reflexivity.
Qed.

Lemma run_script_clean pre script args code kind :
  allChars notBracket pre = true -> allChars notBracket script = true ->
  allChars notBracket args = true ->
  (forall more,
     Js.startsWith (String "<" ("action:run_script script=" +:+ more))
       (String "<" kind) = false) ->
  Js.includes code (String "<" kind) = false ->
  Js.includes (pre +:+ runScriptMarker script +:+ code) (String "<" kind) = false /\
  Js.includes (pre +:+ runScriptArgsMarker script args +:+ code) (String "<" kind)
  = false.
Proof.
  intros Hpre Hscript Hargs Hstart Hkind. split.
  - rewrite runScriptMarker_cons, (includes_skip_all pre _ kind Hpre), includes_unfold.
    rewrite Hstart.
    rewrite (includes_skip_all "action:run_script script=" _ kind eq_refl).
    rewrite (includes_skip dq _ kind eq_refl).
    rewrite (includes_skip_all script _ kind Hscript).
    rewrite (includes_skip dq _ kind eq_refl).
    rewrite (includes_skip_all " />" _ kind eq_refl).
    rewrite Hkind. reflexivity.
  - rewrite runScriptArgsMarker_cons, (includes_skip_all pre _ kind Hpre), includes_unfold.
    rewrite Hstart.
    rewrite (includes_skip_all "action:run_script script=" _ kind eq_refl).
    rewrite (includes_skip dq _ kind eq_refl).
    rewrite (includes_skip_all script _ kind Hscript).
    rewrite (includes_skip dq _ kind eq_refl).
    rewrite (includes_skip_all " args=" _ kind eq_refl).
    rewrite (includes_skip dq _ kind eq_refl).
    rewrite (includes_skip_all args _ kind Hargs).
    rewrite (includes_skip dq _ kind eq_refl).
    rewrite (includes_skip_all " />" _ kind eq_refl).
    rewrite Hkind. reflexivity.
Qed.

End MarkerFacts.

(** ** A marker is parsed *)

Module Markers.
Import Re AutonomousActions AutonomousActions.ActionParser.
Import Terms Samples JsFacts StringFacts MarkerFacts.

(** X17: a response that holds one well-formed [create_file] marker (or
    one [create_folder] marker) and no other [<action:] text yields
    exactly one request, of that kind, whose path is the text between
    the quotes: the marker may stand after any text without [<], its
    path is not empty and holds neither a quote nor [<], and what
    follows the marker does not contain [<action:]. *)
Theorem path_marker_parsed pre path code :
  allChars notBracket pre = true ->
  Js.isEmptyStr path = false ->
  allChars isNotQuote path = true -> allChars notBracket path = true ->
  Js.includes code "<action:" = false ->
  parseActions (pre +:+ createFileMarker path +:+ code)
  = [mkActionRequest create_file ("Create file: " +:+ path)
       (CreateFileParams path EmptyString) EmptyString] /\
  parseActions (pre +:+ createFolderMarker path +:+ code)
  = [mkActionRequest create_folder ("Create folder: " +:+ path)
       (CreateFolderParams path) EmptyString].
Proof.
  intros Hpre Hfull Hquote Hbracket Hcode.
  assert (Hother : forall opening kind,
            allChars notBracket opening = true ->
            (forall more,
               Js.startsWith (String "<" (opening +:+ more)) (String "<" kind) = false) ->
            Js.includes code (String "<" kind) = false ->
            Js.includes (pre +:+ pathMarker (String "<" opening) path +:+ code)
              (String "<" kind) = false).
  { intros opening kind Hopening Hstart Hkind.
    rewrite pathMarker_cons, (includes_skip_all pre _ kind Hpre), includes_unfold.
    rewrite (includes_marker_tail opening path code kind Hopening Hbracket).
    rewrite Hstart, Hkind. reflexivity. }
  pose proof (includes_longer code "<action:" "install_package" Hcode) as K1.
  pose proof (includes_longer code "<action:" "create_file" Hcode) as K2.
  pose proof (includes_longer code "<action:" "create_folder" Hcode) as K3.
  pose proof (includes_longer code "<action:" "run_script" Hcode) as K4.
  split.
  - unfold createFileMarker.
    destruct (execLoop_marker "action:create_file" path pre code Hpre Hfull Hquote K2)
      as (m & Hm & Hcap).
    unfold parseActions, parseActionsFuel, actionPatterns. cbn [parseLoop].
    rewrite (execLoop_other "action:install_package" _ _ _
               (Hother "action:create_file" "action:install_package" eq_refl
                  (fun _ => eq_refl) K1)
             : execLoop _ (regex_of installPattern) _ = _).
    rewrite (Hm : execLoop _ (regex_of createFilePattern) _ = _).
    rewrite (execLoop_other "action:create_folder" _ _ _
               (Hother "action:create_file" "action:create_folder" eq_refl
                  (fun _ => eq_refl) K3)
             : execLoop _ (regex_of createFolderPattern) _ = _).
    rewrite (execLoop_other "action:run_script" _ _ _
               (Hother "action:create_file" "action:run_script" eq_refl
                  (fun _ => eq_refl) K4)
             : execLoop _ (regex_of runScriptPattern) _ = _).
    unfold requestOf. cbn [map app handler createFilePattern createFolderPattern
      toRequest]. unfold group1, group. rewrite Hcap. reflexivity.
  - unfold createFolderMarker.
    destruct (execLoop_marker "action:create_folder" path pre code Hpre Hfull Hquote K3)
      as (m & Hm & Hcap).
    unfold parseActions, parseActionsFuel, actionPatterns. cbn [parseLoop].
    rewrite (execLoop_other "action:install_package" _ _ _
               (Hother "action:create_folder" "action:install_package" eq_refl
                  (fun _ => eq_refl) K1)
             : execLoop _ (regex_of installPattern) _ = _).
    rewrite (execLoop_other "action:create_file" _ _ _
               (Hother "action:create_folder" "action:create_file" eq_refl
                  (fun _ => eq_refl) K2)
             : execLoop _ (regex_of createFilePattern) _ = _).
    rewrite (Hm : execLoop _ (regex_of createFolderPattern) _ = _).
    rewrite (execLoop_other "action:run_script" _ _ _
               (Hother "action:create_folder" "action:run_script" eq_refl
                  (fun _ => eq_refl) K4)
             : execLoop _ (regex_of runScriptPattern) _ = _).
    unfold requestOf. cbn [map app handler createFilePattern createFolderPattern
      toRequest]. unfold group1, group. rewrite Hcap. reflexivity.
Qed.

Lemma path_marker_parsed_witness :
  parseActions ("// the new module" +:+ nl1 +:+ createFileMarker "src/a.ts" +:+ nl1
                +:+ "const x = 1;")
  = [mkActionRequest create_file "Create file: src/a.ts"
       (CreateFileParams "src/a.ts" EmptyString) EmptyString].
Proof.
  apply (proj1 (path_marker_parsed ("// the new module" +:+ nl1) "src/a.ts"
                  (nl1 +:+ "const x = 1;") eq_refl eq_refl eq_refl eq_refl eq_refl)).
Defined.

(** X18: a response that holds one well-formed [install_package] marker
    and no other [<action:] text yields exactly one install request: its
    packages are the comma-separated entries of the quoted list, each
    trimmed, and [dev] is set exactly when the marker carries
    [dev=\x22true\x22]. *)
Theorem install_marker_parsed pre packages code :
  allChars notBracket pre = true ->
  Js.isEmptyStr packages = false ->
  allChars isNotQuote packages = true -> allChars notBracket packages = true ->
  Js.includes code "<action:" = false ->
  parseActions (pre +:+ installMarker packages +:+ code)
  = [mkActionRequest install_package ("Install packages: " +:+ packages)
       (InstallParams (map Js.trim (Js.split "," packages)) false) EmptyString] /\
  parseActions (pre +:+ installDevMarker packages +:+ code)
  = [mkActionRequest install_package ("Install packages: " +:+ packages)
       (InstallParams (map Js.trim (Js.split "," packages)) true) EmptyString].
Proof.
  intros Hpre Hfull Hquote Hbracket Hcode.
  pose proof (includes_longer code "<action:" "install_package" Hcode) as K1.
  pose proof (includes_longer code "<action:" "create_file" Hcode) as K2.
  pose proof (includes_longer code "<action:" "create_folder" Hcode) as K3.
  pose proof (includes_longer code "<action:" "run_script" Hcode) as K4.
  destruct (install_clean pre packages code "action:create_file" Hpre Hbracket
              (fun _ => eq_refl) K2) as [F1 F2].
  destruct (install_clean pre packages code "action:create_folder" Hpre Hbracket
              (fun _ => eq_refl) K3) as [D1 D2].
  destruct (install_clean pre packages code "action:run_script" Hpre Hbracket
              (fun _ => eq_refl) K4) as [R1 R2].
  split.
  - destruct (installRegex_match packages code
                (Cursor (0 + String.length pre) (lastOr None pre)
                   (installMarker packages +:+ code)) eq_refl Hfull Hquote)
      as (m & Hm & Hcap & Hdev & Hstop).
    unfold parseActions, parseActionsFuel, actionPatterns. cbn [parseLoop].
    rewrite (execLoop_other "action:create_file" _ _ _ F1
             : execLoop _ (regex_of createFilePattern) _ = _).
    rewrite (execLoop_other "action:create_folder" _ _ _ D1
             : execLoop _ (regex_of createFolderPattern) _ = _).
    rewrite (execLoop_other "action:run_script" _ _ _ R1
             : execLoop _ (regex_of runScriptPattern) _ = _).
    revert Hm. rewrite installMarker_cons. intros Hm.
    rewrite (execLoop_one "action:install_package" _ pre _ code m Hpre Hm Hstop K1
             : execLoop _ (regex_of installPattern) _ = _).
    unfold requestOf. cbn [map app handler installPattern toRequest].
    unfold group1, group. rewrite Hcap, Hdev. reflexivity.
  - destruct (installRegex_match_dev packages code
                (Cursor (0 + String.length pre) (lastOr None pre)
                   (installDevMarker packages +:+ code)) eq_refl Hfull Hquote)
      as (m & Hm & Hcap & Hdev & Hstop).
    unfold parseActions, parseActionsFuel, actionPatterns. cbn [parseLoop].
    rewrite (execLoop_other "action:create_file" _ _ _ F2
             : execLoop _ (regex_of createFilePattern) _ = _).
    rewrite (execLoop_other "action:create_folder" _ _ _ D2
             : execLoop _ (regex_of createFolderPattern) _ = _).
    rewrite (execLoop_other "action:run_script" _ _ _ R2
             : execLoop _ (regex_of runScriptPattern) _ = _).
    revert Hm. rewrite installDevMarker_cons. intros Hm.
    rewrite (execLoop_one "action:install_package" _ pre _ code m Hpre Hm Hstop K1
             : execLoop _ (regex_of installPattern) _ = _).
    unfold requestOf. cbn [map app handler installPattern toRequest].
    unfold group1, group. rewrite Hcap, Hdev. reflexivity.
Qed.

Lemma install_marker_parsed_witness :
  parseActions (installDevMarker "react, react-dom" +:+ nl1 +:+ "const x = 1;")
  = [mkActionRequest install_package "Install packages: react, react-dom"
       (InstallParams ["react"; "react-dom"] true) EmptyString].
Proof.
  apply (proj2 (install_marker_parsed EmptyString "react, react-dom"
                  (nl1 +:+ "const x = 1;") eq_refl eq_refl eq_refl eq_refl eq_refl)).
Defined.

(** X23: a response that holds one well-formed [run_script] marker and
    no other [<action:] text yields exactly one request to run that
    script; its arguments are the text of the [args] attribute, and the
    empty text when the marker has none. *)
Theorem run_script_marker_parsed pre script args code :
  allChars notBracket pre = true ->
  Js.isEmptyStr script = false ->
  allChars isNotQuote script = true -> allChars notBracket script = true ->
  allChars isNotQuote args = true -> allChars notBracket args = true ->
  Js.includes code "<action:" = false ->
  parseActions (pre +:+ runScriptMarker script +:+ code)
  = [mkActionRequest run_script ("Run script: " +:+ script)
       (RunScriptParams script EmptyString) EmptyString] /\
  parseActions (pre +:+ runScriptArgsMarker script args +:+ code)
  = [mkActionRequest run_script ("Run script: " +:+ script)
       (RunScriptParams script args) EmptyString].
Proof.
  intros Hpre Hfull Hquote Hbracket Hquote2 Hbracket2 Hcode.
  pose proof (includes_longer code "<action:" "install_package" Hcode) as K1.
  pose proof (includes_longer code "<action:" "create_file" Hcode) as K2.
  pose proof (includes_longer code "<action:" "create_folder" Hcode) as K3.
  pose proof (includes_longer code "<action:" "run_script" Hcode) as K4.
  destruct (run_script_clean pre script args code "action:install_package"
              Hpre Hbracket Hbracket2 (fun _ => eq_refl) K1) as [I1 I2].
  destruct (run_script_clean pre script args code "action:create_file"
              Hpre Hbracket Hbracket2 (fun _ => eq_refl) K2) as [F1 F2].
  destruct (run_script_clean pre script args code "action:create_folder"
              Hpre Hbracket Hbracket2 (fun _ => eq_refl) K3) as [D1 D2].
  split.
  - destruct (runScriptRegex_match script code
                (Cursor (0 + String.length pre) (lastOr None pre)
                   (runScriptMarker script +:+ code)) eq_refl Hfull Hquote)
      as (m & Hm & Hcap & Hnone & Hstop).
    unfold parseActions, parseActionsFuel, actionPatterns. cbn [parseLoop].
    rewrite (execLoop_other "action:install_package" _ _ _ I1
             : execLoop _ (regex_of installPattern) _ = _).
    rewrite (execLoop_other "action:create_file" _ _ _ F1
             : execLoop _ (regex_of createFilePattern) _ = _).
    rewrite (execLoop_other "action:create_folder" _ _ _ D1
             : execLoop _ (regex_of createFolderPattern) _ = _).
    revert Hm. rewrite runScriptMarker_cons. intros Hm.
    rewrite (execLoop_one "action:run_script" _ pre _ code m Hpre Hm Hstop K4
             : execLoop _ (regex_of runScriptPattern) _ = _).
    unfold requestOf. cbn [map app handler runScriptPattern toRequest].
    unfold group1, group. rewrite Hcap, Hnone. reflexivity.
  - destruct (runScriptRegex_match_args script args code
                (Cursor (0 + String.length pre) (lastOr None pre)
                   (runScriptArgsMarker script args +:+ code)) eq_refl Hfull Hquote Hquote2)
      as (m & Hm & Hcap & Hsome & Hstop).
    unfold parseActions, parseActionsFuel, actionPatterns. cbn [parseLoop].
    rewrite (execLoop_other "action:install_package" _ _ _ I2
             : execLoop _ (regex_of installPattern) _ = _).
    rewrite (execLoop_other "action:create_file" _ _ _ F2
             : execLoop _ (regex_of createFilePattern) _ = _).
    rewrite (execLoop_other "action:create_folder" _ _ _ D2
             : execLoop _ (regex_of createFolderPattern) _ = _).
    revert Hm. rewrite runScriptArgsMarker_cons. intros Hm.
    rewrite (execLoop_one "action:run_script" _ pre _ code m Hpre Hm Hstop K4
             : execLoop _ (regex_of runScriptPattern) _ = _).
    unfold requestOf. cbn [map app handler runScriptPattern toRequest].
    unfold group1, group. rewrite Hcap, Hsome. reflexivity.
Qed.

Lemma run_script_marker_parsed_witness :
  parseActions (runScriptArgsMarker "build" "--watch" +:+ nl1 +:+ "const x = 1;")
  = [mkActionRequest run_script "Run script: build"
       (RunScriptParams "build" "--watch") EmptyString].
Proof.
  apply (proj2 (run_script_marker_parsed EmptyString "build" "--watch"
                  (nl1 +:+ "const x = 1;")
                  eq_refl eq_refl eq_refl eq_refl eq_refl eq_refl eq_refl)).
Defined.

End Markers.

(** ** The summary of the changes *)

Module Changes.
Import AutonomousActions SmartAgent Terms Samples.

Lemma filter_none {A : Type} (f : A -> bool) (l : list A) :
  existsb f l = false -> List.filter f l = [].
Proof.
  induction l as [|a l IH]; simpl; [reflexivity|].
  destruct (f a); simpl; [discriminate | exact IH].
Qed.

(** X19: for requests as the parser builds them, [changesMade] lists
    under [packagesInstalled] the packages of
    the executed install requests, in the order of execution, and has no
    such list when no install request was executed.  Under
    [filesCreated] and [foldersCreated] it has one entry for each
    executed request of that kind, and every entry is the text
    [unknown]: the parser stores the path as [filePath] or [folderPath],
    and the summary reads [path]. *)
Theorem changes_list_packages (acts : list ActionRequest) :
  forallb parserShaped acts = true ->
  packagesInstalled (buildChangesMade acts)
  = pushed (existsb isInstall acts)
      (flat_map (fun action => paramPackages (params action))
         (List.filter isInstall acts)) /\
  filesCreated (buildChangesMade acts)
  = pushed (existsb isCreateFile acts)
      (repeat "unknown"%string (length (List.filter isCreateFile acts))) /\
  foldersCreated (buildChangesMade acts)
  = pushed (existsb isCreateFolder acts)
      (repeat "unknown"%string (length (List.filter isCreateFolder acts))).
Proof.
  intros _.
  induction acts as [|action acts IH] using rev_ind; [repeat split; reflexivity|].
  destruct IH as (I1 & I2 & I3).
  unfold buildChangesMade in *. rewrite fold_left_app. cbn [fold_left].
  rewrite !existsb_app, !List.filter_app, flat_map_app, !length_app, !repeat_app.
  cbn [existsb List.filter]. unfold isInstall at 2 4, isCreateFile at 2 4,
    isCreateFolder at 2 4.
  destruct (type action);
    cbn [packagesInstalled filesCreated foldersCreated orb flat_map length repeat];
    rewrite ?orb_false_r, ?app_nil_r, ?I1, ?I2, ?I3; unfold pushAll;
    repeat split; try reflexivity.
  - destruct (existsb isInstall acts) eqn:E; cbn [pushed default from_option id];
      [reflexivity|].
    rewrite (filter_none _ _ E). reflexivity.
  - destruct (existsb isCreateFile acts) eqn:E; cbn [pushed default from_option id];
      [reflexivity|].
    rewrite (filter_none _ _ E). reflexivity.
  - destruct (existsb isCreateFolder acts) eqn:E; cbn [pushed default from_option id];
      [reflexivity|].
    rewrite (filter_none _ _ E). reflexivity.
Qed.

Lemma changes_list_packages_witness :
  packagesInstalled (buildChangesMade [installInProject; createFileA])
  = Some ["left-pad"%string] /\
  filesCreated (buildChangesMade [installInProject; createFileA])
  = Some ["unknown"%string].
Proof.
  destruct (changes_list_packages [installInProject; createFileA] eq_refl)
    as (Hpackages & Hfiles & _).
  split; [exact Hpackages | exact Hfiles].
Defined.

End Changes.

(** ** The cleaned answer *)

Module Cleaning.
Import Js JsFacts StringFacts.

Lemma rev_acc_append s : forall acc, rev_acc s acc = rev s +:+ acc.
Proof.
  unfold rev. induction s as [|c s IH]; intros acc; [reflexivity|].
  simpl. rewrite (IH (String c acc)), (IH (String c EmptyString)).
  rewrite append_assoc. reflexivity.
Qed.

Lemma rev_cons c s : rev (String c s) = rev s +:+ String c EmptyString.
Proof. unfold rev at 1. simpl. apply rev_acc_append. Qed.

Lemma rev_append s t : rev (s +:+ t) = rev t +:+ rev s.
Proof.
  induction s as [|c s IH].
  - rewrite append_nil, append_empty_r. reflexivity.
  - rewrite append_cons, !rev_cons, IH, append_assoc. reflexivity.
Qed.

Lemma rev_involutive s : rev (rev s) = s.
Proof.
  induction s as [|c s IH]; [reflexivity|].
  rewrite rev_cons, rev_append, IH. reflexivity.
Qed.

Lemma trimStart_head s :
  trimStart s = EmptyString \/
  exists c u, trimStart s = String c u /\ isSpace c = false.
Proof.
  induction s as [|c s IH]; [left; reflexivity|].
  cbn [trimStart]. destruct (isSpace c) eqn:E; [exact IH|].
  right. exists c, s. split; [reflexivity | exact E].
Qed.

Lemma trimStart_fixed c u : isSpace c = false -> trimStart (String c u) = String c u.
Proof. intros E. cbn [trimStart]. rewrite E. reflexivity. Qed.

Lemma trimStart_idem s : trimStart (trimStart s) = trimStart s.
Proof.
  destruct (trimStart_head s) as [->|(c & u & -> & E)]; [reflexivity|].
  exact (trimStart_fixed c u E).
Qed.

Lemma trimStart_snoc c x :
  isSpace c = false ->
  trimStart (x +:+ String c EmptyString) = trimStart x +:+ String c EmptyString.
Proof.
  intros E. induction x as [|a x IH].
  - rewrite append_nil. cbn [trimStart]. rewrite E. reflexivity.
  - rewrite append_cons. cbn [trimStart]. destruct (isSpace a); [exact IH|].
    rewrite append_cons. reflexivity.
Qed.

Lemma trimEnd_idem t : trimEnd (trimEnd t) = trimEnd t.
Proof. unfold trimEnd. rewrite rev_involutive, trimStart_idem. reflexivity. Qed.

(** Trimming the end leaves a start that is not white space alone. *)
Lemma trimEnd_keeps_start s : trimStart (trimEnd (trimStart s)) = trimEnd (trimStart s).
Proof.
  destruct (trimStart_head s) as [->|(c & u & -> & E)]; [reflexivity|].
  unfold trimEnd. rewrite rev_cons, (trimStart_snoc c _ E), rev_append.
  change (rev (String c EmptyString)) with (String c EmptyString).
  rewrite append_cons, append_nil. exact (trimStart_fixed c _ E).
Qed.

Lemma trim_idem s : trim (trim s) = trim s.
Proof.
  unfold trim. rewrite trimEnd_keeps_start. apply trimEnd_idem.
Qed.

(** X20: the code that [cleanCodeResponse] hands back is trimmed: white
    space is left neither at its start nor at its end, so trimming it
    again changes nothing. *)
Theorem cleaned_is_trimmed (response : string) :
  let cleaned := Clean.cleanCodeResponse response in
  trim cleaned = cleaned /\ trimStart cleaned = cleaned /\ trimEnd cleaned = cleaned.
Proof.
  assert (Hshape : exists x, Clean.cleanCodeResponse response = trim x).
  { unfold Clean.cleanCodeResponse. eexists. reflexivity. }
  destruct Hshape as (x & ->). cbv zeta. split; [apply trim_idem|]. split.
  - unfold trim. apply trimEnd_keeps_start.
  - unfold trim. apply trimEnd_idem.
Qed.

End Cleaning.

(** ** What the model is told *)

Module Prompts.
Import AutonomousActions SmartAgent Terms Samples ActionFacts LoopFacts RunFacts Frames.
Import JsFacts StringFacts.

Section WithHost.
Context `{AgentHost} `{!ActionHost} `{!CodeValidator.TypeScript}.
Variable config : SmartAgentConfig.

Lemma buildUserPrompt_briefs analysis cache found request :
  Js.includes (buildUserPrompt config analysis cache found request)
    ("Task: " +:+ userPrompt config) = true /\
  Js.includes (buildUserPrompt config analysis cache found request)
    ("Selected Code:" +:+ nl1 +:+ selectedCode config) = true.
Proof.
  unfold buildUserPrompt. cbv zeta.
  set (task := ("File: " +:+ basename (currentFile config) +:+ nl2) +:+
               "Task: " +:+ userPrompt config +:+ nl2).
  assert (Htask : Js.includes task ("Task: " +:+ userPrompt config) = true).
  { subst task. apply includes_append_r. rewrite <- append_assoc.
    apply includes_append_l, includes_refl. }
  set (searched := match found, request with
                   | Some r, Some q =>
                       if searchFound found
                       then task +:+ formatSearchResultsForAI r q +:+ nl1
                       else task
                   | _, _ => task
                   end).
  assert (Hsearched : Js.includes searched ("Task: " +:+ userPrompt config) = true).
  { subst searched. destruct found as [r|]; [|exact Htask].
    destruct request as [q|]; [|exact Htask].
    destruct (searchFound (Some r)); [|exact Htask].
    apply includes_append_l. exact Htask. }
  set (selected := searched +:+ "Selected Code:" +:+ nl1 +:+ selectedCode config +:+ nl2).
  assert (Hselected :
            Js.includes selected ("Task: " +:+ userPrompt config) = true /\
            Js.includes selected ("Selected Code:" +:+ nl1 +:+ selectedCode config) = true).
  { subst selected. split; [apply includes_append_l; exact Hsearched|].
    apply includes_append_r. rewrite <- !append_assoc.
    apply includes_append_l. rewrite append_assoc. apply includes_refl. }
  clearbody selected. clear Htask Hsearched searched task.
  destruct Hselected as [Ha Hb].
  split; apply includes_append_l.
  - destruct (mode analysis); try (destruct (truthy (workspacePath config)));
      destruct (needsContext analysis
                && negb (String.eqb (selectedCode config) (fullFileContent config)));
      try (destruct (Nat.ltb _ 500));
      repeat apply includes_append_l; exact Ha.
  - destruct (mode analysis); try (destruct (truthy (workspacePath config)));
      destruct (needsContext analysis
                && negb (String.eqb (selectedCode config) (fullFileContent config)));
      try (destruct (Nat.ltb _ 500));
      repeat apply includes_append_l; exact Hb.
Qed.

(** Events that are no requests to the model are briefed for free. *)
Lemma quiet_briefed t : modelInvocations t = O -> Forall (briefed config) t.
Proof.
  induction t as [|e t IH]; intros Hq; [constructor|].
  unfold modelInvocations in *. simpl in Hq.
  destruct e; simpl in Hq; try discriminate; constructor; try exact I; apply IH; exact Hq.
Qed.

Variable startTime : Z.
Variable prepared : Prepared.

Lemma attempt_briefed vars s out s' :
  attempt config startTime prepared vars s = (out, s') ->
  exists t, trace s' = trace s ++ t /\ Forall (briefed config) t.
Proof.
  intros Hatt.
  destruct (attempt_spec config startTime prepared vars s)
    as (sp0 & up0 & answer & w' & _ & Hspec).
  destruct (Hspec out s' Hatt) as [Hinv _]. unfold invoked in Hinv.
  apply attempt_frame in Hatt as (_ & (msg & sp & up & t & Ht & _ & Hbase) & _).
  eexists. split; [exact Ht|].
  rewrite Ht, modelInvocations_app in Hinv.
  constructor; [exact I|]. constructor.
  - destruct (buildUserPrompt_briefs (analysis prepared) (cache prepared)
                (webSearchResult prepared) (searchRequest prepared)) as [B1 B2].
    split; eapply includes_trans; eauto.
  - apply quiet_briefed. unfold modelInvocations in *. simpl in Hinv. lia.
Qed.

Lemma retryLoop_briefed :
  forall fuel vars s out vars' s',
  retryLoop config startTime prepared fuel vars s = Some (out, vars', s') ->
  exists t, trace s' = trace s ++ t /\ Forall (briefed config) t.
Proof.
  induction fuel as [|fuel IH]; intros vars s out vars' s' Hrun; simpl in Hrun.
  - destruct (retryCount vars <=? effectiveMaxRetries config); [discriminate|].
    inversion Hrun; subst. exists []. rewrite app_nil_r. split; [reflexivity|constructor].
  - destruct (retryCount vars <=? effectiveMaxRetries config).
    2:{ inversion Hrun; subst. exists []. rewrite app_nil_r.
        split; [reflexivity|constructor]. }
    destruct (attempt config startTime prepared vars s) as [[[[|r] vars1]|e] s1] eqn:Hatt;
      apply attempt_briefed in Hatt as (t & Ht & Hb).
    + apply IH in Hrun as (t2 & Ht2 & Hb2).
      exists (t ++ t2). rewrite Ht2, Ht, <- app_assoc. split; [reflexivity|].
      apply Forall_app. split; assumption.
    + inversion Hrun; subst. exists t. split; assumption.
    + destruct (retryCount vars <? effectiveMaxRetries config).
      * apply IH in Hrun as (t2 & Ht2 & Hb2). simpl in Ht2.
        eexists. rewrite Ht2, Ht, <- !app_assoc. split; [reflexivity|].
        apply Forall_app. split; [exact Hb|].
        apply Forall_app. split; [|exact Hb2]. constructor; [exact I|constructor].
      * inversion Hrun; subst. exists t. split; assumption.
Qed.

End WithHost.

Section Runs.
Context `{AgentHost} `{!ActionHost} `{!CodeValidator.TypeScript}.

(** X21: every request that a run sends to the model, the first one and
    each retry, has a user prompt that contains the instruction of the
    user after [Task: ] and the selected code after [Selected Code:]. *)
Theorem every_request_briefed config s r vars s' :
  executeSmartAgent config s = Some (r, vars, s') ->
  exists t, trace s' = trace s ++ t /\ Forall (briefed config) t.
Proof.
  unfold executeSmartAgent, executeSmartAgentFuel.
  destruct (prepare config s) as [[prepared|e] s1] eqn:Hprep.
  - pose proof (prepare_quiet _ _ _ _ Hprep) as Hq.
    apply prepare_frame in Hprep as ((t1 & Ht1) & _).
    assert (Hb1 : Forall (briefed config) t1).
    { apply quiet_briefed. rewrite Ht1, modelInvocations_app in Hq. lia. }
    destruct (retryLoop config (now (world s)) prepared (passes config)
                (mkLoopVars 0 None) s1)
      as [[[[r1|e] vars1] s2]|] eqn:Hloop; [| |discriminate];
      apply retryLoop_briefed in Hloop as (t2 & Ht2 & Hb2);
      intros E; inversion E; subst; simpl.
    + exists (t1 ++ t2). rewrite Ht2, Ht1, <- app_assoc. split; [reflexivity|].
      apply Forall_app. split; assumption.
    + eexists. rewrite Ht2, Ht1, <- !app_assoc. split; [reflexivity|].
      apply Forall_app. split; [exact Hb1|].
      apply Forall_app. split; [exact Hb2|]. constructor; [exact I|constructor].
  - pose proof (prepare_quiet _ _ _ _ Hprep) as Hq.
    apply prepare_frame in Hprep as ((t1 & Ht1) & _).
    assert (Hb1 : Forall (briefed config) t1).
    { apply quiet_briefed. rewrite Ht1, modelInvocations_app in Hq. lia. }
    intros E; inversion E; subst; simpl.
    eexists. rewrite Ht1, <- app_assoc. split; [reflexivity|].
    apply Forall_app. split; [exact Hb1|]. constructor; [exact I|constructor].
Qed.

End Runs.

Lemma every_request_briefed_witness :
  exists r vars s',
    @executeSmartAgent Scripted.platform (Scripted.agent alwaysUnbalanced)
      (Scripted.actions noConfiguration) Scripted.compiler textConfig Scripted.initial
    = Some (r, vars, s') /\
    Forall (briefed textConfig) (trace s').
Proof.
  destruct (@executeSmartAgent Scripted.platform (Scripted.agent alwaysUnbalanced)
              (Scripted.actions noConfiguration) Scripted.compiler textConfig
              Scripted.initial) as [[[r vars] s']|] eqn:Hrun.
  - exists r, vars, s'. split; [reflexivity|].
    pose proof (@every_request_briefed Scripted.platform
                  (Scripted.agent alwaysUnbalanced) (Scripted.actions noConfiguration)
                  Scripted.compiler textConfig Scripted.initial r vars s') as Hthm.
    specialize (Hthm Hrun). destruct Hthm as (t & Ht & Hb).
    rewrite Ht. exact Hb.
  - vm_compute in Hrun. discriminate.
Defined.

End Prompts.

(** ** The web search *)

Module Search.
Import AutonomousActions SmartAgent Terms Samples CacheFacts Frames.

Section WithHost.
Context `{AgentHost} `{!ActionHost} `{!CodeValidator.TypeScript}.
Variable config : SmartAgentConfig.

(** What step 2.5 leaves behind: nothing, or the request that the
    instruction triggered together with what the search returned in the
    world that steps 1 and 2 left. *)
Lemma prepare_search s p s' :
  prepare config s = (Returned p, s') ->
  (webSearchResult p = None /\ searchRequest p = None) \/
  (webSearchEnabled config = true /\
   exists context s1 request found w',
     loadContext config s = (Returned context, s1) /\
     shouldTriggerSearch (userPrompt config) = Some request /\
     searchWeb request (world s1) = (Returned found, w') /\
     webSearchResult p = Some found /\ searchRequest p = Some request).
Proof.
  unfold prepare, loadContext.
  unfold bind at 1, emit at 1. unfold bind at 1, emit at 1.
  unfold bind at 1. cbv beta iota.
  unfold bind at 3, emit at 3. unfold bind at 3, emit at 3. cbv beta iota.
  match goal with
  | |- context [match ?m ?st with _ => _ end] =>
      assert (Hc : exists c s1, m st = (Returned c, s1))
  end.
  { destruct (SmartAgent.workspacePath config) as [path|]; [|do 2 eexists; reflexivity].
    destruct (needsContext _ && negb (Js.isEmptyStr path) && negb (isInstant _));
      [|do 2 eexists; reflexivity].
    unfold bind at 1, emit at 1.
    match goal with
    | |- context [getProjectCache path ?st] =>
        destruct (getProjectCache_quiet path st) as (c & s1 & E & _)
    end.
    rewrite E. do 2 eexists. reflexivity. }
  destruct Hc as (c & s1 & Hc). rewrite Hc.
  destruct (webSearchEnabled config) eqn:Henabled.
  2:{ intros E; inversion E; subst. left. split; reflexivity. }
  destruct (shouldTriggerSearch (userPrompt config)) as [request|] eqn:Hrequest.
  2:{ intros E; inversion E; subst. left. split; reflexivity. }
  unfold bind at 1, emit at 1. unfold bind at 1, emit at 1.
  unfold bind at 1, call at 1. simpl.
  destruct (searchWeb request (world s1)) as [[found|e] w1] eqn:Hsearch.
  - destruct (searchSuccess found && negb (CV.isEmpty (results found)));
      unfold bind, emit, ret; simpl;
      intros E; inversion E; subst; right; (split; [reflexivity|]);
      exists c, s1, request, found, w1; repeat split; assumption.
  - intros E; discriminate.
Qed.

(** X22: a result reports [webSearchUsed: true] only when the web search
    is enabled, the instruction triggered a search request, and the
    search for that request, made in the world that steps 1 and 2 of the
    run left, returned successfully with at least one result; the result
    then carries the query of that request, the number of results, and
    one entry of details with that query, that number and the sources of
    the first five results at most, in their order, [unknown] standing
    for a result without source. *)
Theorem search_reported_only_when_found s r vars s' :
  executeSmartAgent config s = Some (r, vars, s') ->
  webSearchUsed r = Some true ->
  webSearchEnabled config = true /\
  exists context s1 request found w',
    loadContext config s = (Returned context, s1) /\
    shouldTriggerSearch (userPrompt config) = Some request /\
    searchWeb request (world s1) = (Returned found, w') /\
    searchSuccess found = true /\ results found <> [] /\
    webSearchQuery r = Some (query request) /\
    webSearchResults r = Some (length (results found)) /\
    webSearchDetails r
    = Some [mkWebSearchDetail (query request) (length (results found))
              (map (default "unknown"%string) (take 5 (results found)))].
Proof.
  unfold executeSmartAgent, executeSmartAgentFuel.
  destruct (prepare config s) as [[prepared|e] s1] eqn:Hprep.
  2:{ intros E; inversion E; subst. discriminate. }
  apply prepare_search in Hprep.
  destruct (retryLoop config (now (world s)) prepared (passes config)
              (mkLoopVars 0 None) s1)
    as [[[[r1|e] vars1] s2]|] eqn:Hloop; [| |discriminate].
  2:{ intros E; inversion E; subst. discriminate. }
  apply retryLoop_frame in Hloop as (_ & _ & _ & _ & Hused & Hquery & Hdetails & Hcount).
  intros E; inversion E; subst. intros Htrue.
  rewrite Hused in Htrue. injection Htrue as Hfound.
  destruct Hprep
    as [(Hnone & _)|(Henabled & c & s0 & request & found & w' & Hload & Hreq & Hsearch
                     & Hres & Hrq)].
  { rewrite Hnone in Hfound. discriminate. }
  split; [exact Henabled|].
  rewrite Hres, Hrq in *. simpl in Hfound.
  apply andb_true_iff in Hfound as [Hsuccess Hsome].
  exists c, s0, request, found, w'.
  split; [exact Hload|]. split; [exact Hreq|]. split; [exact Hsearch|].
  split; [exact Hsuccess|].
  split; [intros Hempty; rewrite Hempty in Hsome; discriminate|].
  split; [exact Hquery|]. split; [exact Hcount|].
  unfold buildWebSearchDetails, searchFound in Hdetails.
  rewrite Hsuccess, Hsome in Hdetails. simpl in Hdetails. exact Hdetails.
Qed.

End WithHost.

Lemma search_reported_only_when_found_witness :
  exists r vars s',
    @executeSmartAgent Scripted.platform finder
      (Scripted.actions noConfiguration) Scripted.compiler textConfig Scripted.initial
    = Some (r, vars, s') /\
    webSearchUsed r = Some true /\
    webSearchQuery r = Some "fix typo"%string /\ webSearchResults r = Some 2%nat /\
    webSearchDetails r
    = Some [mkWebSearchDetail "fix typo" 2 ["mdn"%string; "unknown"%string]].
Proof.
  destruct (@executeSmartAgent Scripted.platform finder
              (Scripted.actions noConfiguration) Scripted.compiler textConfig
              Scripted.initial) as [[[r vars] s']|] eqn:Hrun.
  - assert (Hused : webSearchUsed r = Some true).
    { vm_compute in Hrun. inversion Hrun. reflexivity. }
    exists r, vars, s'. split; [reflexivity|]. split; [exact Hused|].
    pose proof (@search_reported_only_when_found Scripted.platform finder
                  (Scripted.actions noConfiguration) Scripted.compiler
                  textConfig Scripted.initial r vars s') as Hthm.
    specialize (Hthm Hrun). specialize (Hthm Hused).
    destruct Hthm
      as (_ & c & s1 & request & found & w' & _ & Hreq & Hsearch & _ & _ & Hq & Hn & Hd).
    vm_compute in Hreq. inversion Hreq; subst request.
    vm_compute in Hsearch. inversion Hsearch; subst found.
    split; [exact Hq|]. split; [exact Hn | exact Hd].
  - vm_compute in Hrun. discriminate.
Defined.

End Search.
